(** * Preseason order import: a shallow embedding of [import_f25_orders.py]
    and [import_s26_orders.py], and the properties of their pipeline.

    Both scripts are the same linear pipeline (clean the spreadsheet rows,
    resolve brands and locations, upsert products, create one order per
    (brand, gym, ship month) group, insert the order items, recompute the
    order totals, commit); they differ in their static tables, in how the
    season row is obtained and in how the ship-period token is derived.
    The embedding keeps one definition per source statement and takes the
    script ([F25] or [S26]) as a parameter where the two files differ. *)

From Stdlib Require Import ZArith QArith String Ascii List Bool Lia Lqa.
From stdpp Require Import base option list gmap strings pretty.

Close Scope Q_scope.
Open Scope string_scope.
Open Scope list_scope.
Open Scope Z_scope.

(** ** Python values *)

Module Py.

(** *** Text: the [str] methods the scripts call.

    A Python [str] is embedded as a Rocq [string], one [ascii] per
    character. *)

(** [str.isspace] on one character, for the ASCII range: tab, line feed,
    vertical tab, form feed, carriage return, the four separators
    0x1c..0x1f and the blank. *)
Definition is_space (a : ascii) : bool :=
  let n := N_of_ascii a in
  (((9 <=? n) && (n <=? 13)) || ((28 <=? n) && (n <=? 32)))%N.

(** [s.lstrip()] *)
Fixpoint lstrip (s : string) : string :=
  match s with
  | String a s' => if is_space a then lstrip s' else s
  | EmptyString => EmptyString
  end.

(** [s.rstrip()] *)
Fixpoint rstrip (s : string) : string :=
  match s with
  | String a s' =>
      match rstrip s' with
      | EmptyString => if is_space a then EmptyString else String a EmptyString
      | r => String a r
      end
  | EmptyString => EmptyString
  end.

(** [s.strip()] *)
Definition strip (s : string) : string := rstrip (lstrip s).

(** [str.upper] on one character, for the ASCII range. *)
Definition upper_ascii (a : ascii) : ascii :=
  let n := N_of_ascii a in
  if ((97 <=? n) && (n <=? 122))%N then ascii_of_N (n - 32) else a.

(** [s.upper()] *)
Fixpoint upper (s : string) : string :=
  match s with
  | String a s' => String (upper_ascii a) (upper s')
  | EmptyString => EmptyString
  end.

(** [s[:n]] *)
Fixpoint slice_to (n : nat) (s : string) : string :=
  match n, s with
  | S n', String a s' => String a (slice_to n' s')
  | _, _ => EmptyString
  end.

(** [s.startswith(p)] *)
Fixpoint startswith (p s : string) : bool :=
  match p, s with
  | EmptyString, _ => true
  | String a p', String b s' => if decide (a = b) then startswith p' s' else false
  | String _ _, EmptyString => false
  end.

(** [str(n)] for an [int]. *)
Definition str_of_int (n : Z) : string := pretty n.

(** *** Numbers: [float].

    A Python [float] is embedded as an extended rational: not-a-number,
    an infinity with its sign, or a finite value kept as an exact
    rational.  The rounding and the range of the binary64 format are not
    represented; the properties below do not depend on them. *)
Inductive pyfloat : Type :=
| fnan
| finf (negative : bool)
| ffin (q : Q).

Definition fzero : pyfloat := ffin (0 # 1).

(** [float(n)] for an [int] *)
Definition float_of_int (n : Z) : pyfloat := ffin (inject_Z n).

Definition Qsign_neg (q : Q) : bool := Qnum q <? 0.
Definition Qis_zero (q : Q) : bool := Qnum q =? 0.

(** [x * y] on floats: nan is absorbing, zero times an infinity is nan. *)
Definition fmul (x y : pyfloat) : pyfloat :=
  match x, y with
  | fnan, _ | _, fnan => fnan
  | finf a, finf b => finf (xorb a b)
  | finf a, ffin q | ffin q, finf a =>
      if Qis_zero q then fnan else finf (xorb a (Qsign_neg q))
  | ffin p, ffin q => ffin (Qmult p q)
  end.

(** [x + y] on floats: opposite infinities add to nan. *)
Definition fadd (x y : pyfloat) : pyfloat :=
  match x, y with
  | fnan, _ | _, fnan => fnan
  | finf a, finf b => if eqb a b then finf a else fnan
  | finf a, ffin _ | ffin _, finf a => finf a
  | ffin p, ffin q => ffin (Qplus p q)
  end.

(** [bool(x)] for a float: every float but zero is true, nan included. *)
Definition float_truthy (x : pyfloat) : bool :=
  match x with
  | ffin q => negb (Qis_zero q)
  | _ => true
  end.

(** *** Exceptions and fallible results *)

Inductive exn : Type :=
| ValueError
| OverflowError
| AttributeError
| TypeError.

Inductive result (A : Type) : Type :=
| Ok (a : A)
| Raise (e : exn).
Arguments Ok {A} a.
Arguments Raise {A} e.

Definition result_bind {A B} (r : result A) (k : A -> result B) : result B :=
  match r with
  | Ok a => k a
  | Raise e => Raise e
  end.

(** *** Numeric literals in text: what [int(s)] and [float(s)] accept. *)

Definition digit_of (a : ascii) : option N :=
  let n := N_of_ascii a in
  if ((48 <=? n) && (n <=? 57))%N then Some (n - 48)%N else None.

(** A digit part: decimal digits, single underscores allowed between two
    digits.  [after_digit] tells whether the previous character was a
    digit; the result is the value read and the number of digits. *)
Fixpoint digitpart (acc : N) (count : nat) (after_digit : bool) (s : string)
  : option (N * nat) :=
  match s with
  | EmptyString => if after_digit then Some (acc, count) else None
  | String a s' =>
      match digit_of a with
      | Some d => digitpart (acc * 10 + d)%N (S count) true s'
      | None =>
          if decide (a = "_"%char)
          then (if after_digit then digitpart acc count false s' else None)
          else None
      end
  end.

(** An optional sign in front of the rest. *)
Definition split_sign (s : string) : bool * string :=
  match s with
  | String "-" s' => (true, s')
  | String "+" s' => (false, s')
  | _ => (false, s)
  end.

(** [int(s)] for a text [s], base 10. *)
Definition int_of_str (s : string) : result Z :=
  let '(neg, body) := split_sign (strip s) in
  match digitpart 0 0 false body with
  | Some (n, _) => Ok (if neg then - Z.of_N n else Z.of_N n)
  | None => Raise ValueError
  end.

(** The text before the first character satisfying [p], and the text
    after it when there is one. *)
Fixpoint split_first (p : ascii -> bool) (s : string) : string * option string :=
  match s with
  | EmptyString => (EmptyString, None)
  | String a s' =>
      if p a then (EmptyString, Some s')
      else let '(l, r) := split_first p s' in (String a l, r)
  end.

Definition is_dot (a : ascii) : bool := bool_decide (a = "."%char).
Definition is_exp (a : ascii) : bool :=
  bool_decide (a = "e"%char) || bool_decide (a = "E"%char).

(** A digit part that may be missing altogether. *)
Definition digitpart_opt (s : string) : option (N * nat) :=
  match s with
  | EmptyString => Some (0%N, 0%nat)
  | _ => digitpart 0 0 false s
  end.

(** [m * 10 ^ e] as a rational *)
Definition scale10 (m : Z) (e : Z) : Q :=
  if 0 <=? e then (m * 10 ^ e) # 1 else m # (Z.to_pos (10 ^ (- e))).

(** The decimal forms: digits, an optional point and fraction, an
    optional exponent; at least one digit before the exponent. *)
Definition decimal_of_str (body : string) : option Q :=
  let '(mant, expo) := split_first is_exp body in
  let '(ipart, fpart) := split_first is_dot mant in
  i ← digitpart_opt ipart;
  f ← digitpart_opt (default EmptyString fpart);
  e ← match expo with
      | None => Some 0
      | Some t =>
          let '(eneg, edigits) := split_sign t in
          '(n, _) ← digitpart 0 0 false edigits;
          Some (if eneg then - Z.of_N n else Z.of_N n)
      end;
  if (i.2 + f.2 =? 0)%nat then None
  else Some (scale10 (Z.of_N i.1 * 10 ^ Z.of_nat f.2 + Z.of_N f.1) (e - Z.of_nat f.2)).

(** Lower case of one character, for the ASCII range (the special float
    names are matched without regard to case). *)
Definition lower_ascii (a : ascii) : ascii :=
  let n := N_of_ascii a in
  if ((65 <=? n) && (n <=? 90))%N then ascii_of_N (n + 32) else a.

Fixpoint lower (s : string) : string :=
  match s with
  | String a s' => String (lower_ascii a) (lower s')
  | EmptyString => EmptyString
  end.

(** [float(s)] for a text [s]. *)
Definition float_of_str (s : string) : result pyfloat :=
  let '(neg, body) := split_sign (strip s) in
  let name := lower body in
  if bool_decide (name = "nan") then Ok fnan
  else if bool_decide (name = "inf") || bool_decide (name = "infinity") then Ok (finf neg)
  else match decimal_of_str body with
       | Some q => Ok (ffin (if neg then Qopp q else q))
       | None => Raise ValueError
       end.

(** *** Printing a float: [str(x)].

    Exact for the values a spreadsheet identifier takes (whole numbers
    print as [123.0], short decimals as [0.5]); longer expansions are cut
    after seventeen fractional digits, where Python prints the shortest
    text that reads back to the same binary64 value. *)
Fixpoint frac_digits (fuel : nat) (r d : Z) : string :=
  match fuel with
  | O => EmptyString
  | S fuel' =>
      if r =? 0 then EmptyString
      else pretty (r * 10 / d) +:+ frac_digits fuel' (r * 10 mod d) d
  end.

Definition str_of_float (x : pyfloat) : string :=
  match x with
  | fnan => "nan"
  | finf neg => if neg then "-inf" else "inf"
  | ffin q =>
      let n := Z.abs (Qnum q) in
      let d := Z.pos (Qden q) in
      let frac := frac_digits 17 (n mod d) d in
      (if Qsign_neg q then "-" else "") +:+ pretty (n / d) +:+ "."
        +:+ (if bool_decide (frac = "") then "0" else frac)
  end.

(** *** Cells: the values a spreadsheet cell is read as.

    An empty cell is read as the float nan. *)
Inductive value : Type :=
| VInt (n : Z)
| VFloat (x : pyfloat)
| VStr (s : string).

Definition NaN : value := VFloat fnan.

(** [pd.isna(v)] *)
Definition isna (v : value) : bool :=
  match v with
  | VFloat fnan => true
  | _ => false
  end.

(** [str(v)] *)
Definition str (v : value) : string :=
  match v with
  | VInt n => str_of_int n
  | VFloat x => str_of_float x
  | VStr s => s
  end.

(** [int(v)]: a float is truncated towards zero. *)
Definition int (v : value) : result Z :=
  match v with
  | VInt n => Ok n
  | VFloat (ffin q) => Ok (Z.quot (Qnum q) (Z.pos (Qden q)))
  | VFloat fnan => Raise ValueError
  | VFloat (finf _) => Raise OverflowError
  | VStr s => int_of_str s
  end.

(** [float(v)] *)
Definition float (v : value) : result pyfloat :=
  match v with
  | VInt n => Ok (float_of_int n)
  | VFloat x => Ok x
  | VStr s => float_of_str s
  end.

(** [bool(v)] *)
Definition truthy (v : value) : bool :=
  match v with
  | VInt n => negb (n =? 0)
  | VFloat x => float_truthy x
  | VStr s => negb (bool_decide (s = ""))
  end.

(** [a or b] *)
Definition or_else (a b : value) : value := if truthy a then a else b.

(** A [str] method called on a cell: a number has no such attribute. *)
Definition str_method (f : string -> string) (v : value) : result string :=
  match v with
  | VStr s => Ok (f s)
  | _ => Raise AttributeError
  end.

(** [v[:n]]: a number cannot be sliced. *)
Definition slice (n : nat) (v : value) : result string :=
  match v with
  | VStr s => Ok (slice_to n s)
  | _ => Raise TypeError
  end.

(** [d.get(v)] for a dict [d] whose keys are all texts: a number is
    equal to no key. *)
Definition dict_get {A} (d : gmap string A) (v : value) : option A :=
  match v with
  | VStr s => d !! s
  | _ => None
  end.

(** [not x] for the result of [d.get(k)] on a dict of identifiers:
    [None] and [0] are false. *)
Definition falsy (x : option Z) : bool :=
  match x with
  | Some i => i =? 0
  | None => true
  end.

(** [a == b]: numbers compare by value across [int] and [float], nan is
    equal to nothing, a text is equal only to the same text. *)
Definition float_eqb (x y : pyfloat) : bool :=
  match x, y with
  | ffin p, ffin q => Qeq_bool p q
  | finf a, finf b => eqb a b
  | _, _ => false
  end.

Definition veqb (a b : value) : bool :=
  match a, b with
  | VInt m, VInt n => m =? n
  | VInt m, VFloat y => float_eqb (float_of_int m) y
  | VFloat x, VInt n => float_eqb x (float_of_int n)
  | VFloat x, VFloat y => float_eqb x y
  | VStr s, VStr t => bool_decide (s = t)
  | _, _ => false
  end.

End Py.

Import Py.

(** ** The spreadsheet *)

(** One spreadsheet row.  The six columns the scripts index directly are
    always there; the five read with [row.get(col, default)] may be
    missing from the sheet ([None]). *)
Record row : Type := mk_row {
  UPC : value;
  Brand : value;
  Gym : value;
  Ship_Month : value;
  Quantity : value;
  Description : value;
  Product_Number : option value;
  Color : option value;
  Size : option value;
  Wholesale : option value;
  Retail : option value
}.

Definition DataFrame : Type := list row.

Definition set_UPC (u : value) (r : row) : row :=
  mk_row u (Brand r) (Gym r) (Ship_Month r) (Quantity r) (Description r)
         (Product_Number r) (Color r) (Size r) (Wholesale r) (Retail r).

Definition set_Quantity (q : value) (r : row) : row :=
  mk_row (UPC r) (Brand r) (Gym r) (Ship_Month r) q (Description r)
         (Product_Number r) (Color r) (Size r) (Wholesale r) (Retail r).

(** [row.get(col, default)] *)
Definition get (cell : option value) (dflt : value) : value := default dflt cell.

Module Loader.

(** The row has a value in each of UPC, Brand, Gym and Quantity. *)
Definition complete (r : row) : bool :=
  negb (isna (UPC r)) && negb (isna (Brand r))
  && negb (isna (Gym r)) && negb (isna (Quantity r)).

(** [df.dropna(subset=['UPC', 'Brand', 'Gym', 'Quantity'])] *)
Definition dropna (df : DataFrame) : DataFrame := filter (fun r => complete r = true) df.

(** [df['UPC'] = df['UPC'].astype(str).str.strip()] *)
Definition strip_UPC (df : DataFrame) : DataFrame :=
  map (fun r => set_UPC (VStr (strip (str (UPC r)))) r) df.

(** [df['Quantity'] = df['Quantity'].astype(int)]: the conversion of the
    column fails as a whole when one value cannot be converted. *)
Fixpoint int_Quantity (df : DataFrame) : result DataFrame :=
  match df with
  | [] => Ok []
  | r :: df' =>
      result_bind (int (Quantity r)) (fun n =>
      result_bind (int_Quantity df') (fun rest =>
      Ok (set_Quantity (VInt n) r :: rest)))
  end.

(** The cleaning step of [main]. *)
Definition clean (df : DataFrame) : result DataFrame :=
  int_Quantity (strip_UPC (dropna df)).

End Loader.

(** ** The database *)

Module Sql.

(** The tables the scripts read and write, with the columns their
    statements name.  A column a statement tests for NULL, or leaves to
    its default on insert, is an [option]. *)
Record season : Type := mk_season {
  s_id : Z;
  s_name : string;
  s_status : string
}.

Record brand : Type := mk_brand {
  b_id : Z;
  b_name : string
}.

Record location : Type := mk_location {
  l_id : Z;
  l_code : string
}.

Record product : Type := mk_product {
  p_id : Z;
  p_upc : option string;
  p_name : option value;
  p_sku : option value;
  p_color : option value;
  p_size : option value;
  p_wholesale_cost : option value;
  p_msrp : option value;
  p_brand_id : option Z;
  p_season_id : option Z;
  p_active : bool
}.

Record order : Type := mk_order {
  o_id : Z;
  o_order_number : string;
  o_season_id : option Z;
  o_brand_id : Z;
  o_location_id : Z;
  o_ship_date : string;
  o_order_type : string;
  o_status : string;
  o_created_by : Z;
  o_current_total : option pyfloat
}.

Record order_item : Type := mk_order_item {
  i_order_id : Z;
  i_product_id : Z;
  i_quantity : Z;
  i_unit_cost : pyfloat;
  i_line_total : option pyfloat
}.

Record db : Type := mk_db {
  seasons : list season;
  brands : list brand;
  locations : list location;
  products : list product;
  orders : list order;
  order_items : list order_item
}.

Definition set_seasons (x : list season) (d : db) : db :=
  mk_db x (brands d) (locations d) (products d) (orders d) (order_items d).
Definition set_products (x : list product) (d : db) : db :=
  mk_db (seasons d) (brands d) (locations d) x (orders d) (order_items d).
Definition set_orders (x : list order) (d : db) : db :=
  mk_db (seasons d) (brands d) (locations d) (products d) x (order_items d).
Definition set_order_items (x : list order_item) (d : db) : db :=
  mk_db (seasons d) (brands d) (locations d) (products d) (orders d) x.

(** The schema, and so the sequence behind each [id] column, is not in
    the repository, and neither the source nor the specification gives
    the value of a new id.  The model takes the largest id of the table
    plus one; what the sequence warrants of it is that a new id is not 0
    and is the id of no row of its table. *)
Definition fresh_id (ids : list Z) : Z := foldr Z.max 0 ids + 1.

(** *** [LIKE]

    [%] matches any run of characters, [_] any one character, and a
    backslash takes the next pattern character literally.  (A pattern
    that ends in a lone backslash is an error in PostgreSQL; the patterns
    of the scripts end in [%], and such a pattern matches nothing here.) *)
Fixpoint like (pat : string) (s : string) {struct pat} : bool :=
  match pat with
  | EmptyString => bool_decide (s = EmptyString)
  | String c pat' =>
      if bool_decide (c = "%"%char) then
        (fix any (s : string) : bool :=
           like pat' s || match s with
                          | String _ s' => any s'
                          | EmptyString => false
                          end) s
      else if bool_decide (c = "_"%char) then
        match s with
        | String _ s' => like pat' s'
        | EmptyString => false
        end
      else if bool_decide (c = "\"%char) then
        match pat' with
        | String c' pat'' =>
            match s with
            | String b s' => bool_decide (b = c') && like pat'' s'
            | EmptyString => false
            end
        | EmptyString => false
        end
      else
        match s with
        | String b s' => bool_decide (b = c) && like pat' s'
        | EmptyString => false
        end
  end.

(** *** Aggregates *)

(** [SUM(x)]: NULL over no row (and over NULLs only), else the values
    added up in row order. *)
Definition sql_sum (xs : list (option pyfloat)) : option pyfloat :=
  foldl (fun acc x =>
           match x, acc with
           | None, _ => acc
           | Some v, None => Some v
           | Some v, Some a => Some (fadd a v)
           end) None xs.

(** [COALESCE(x, d)] *)
Definition coalesce {A} (x : option A) (d : A) : A := default d x.

(** *** A connection: the committed database and the open transaction's
    working copy of it. *)
Record connection : Type := mk_connection {
  committed : db;
  working : db
}.

(** [psycopg2.connect(DATABASE_URL)] *)
Definition connect (d : db) : connection := mk_connection d d.
(** [conn.commit()] *)
Definition commit (c : connection) : connection := mk_connection (working c) (working c).
(** [conn.rollback()] *)
Definition rollback (c : connection) : connection := mk_connection (committed c) (committed c).
(** [conn.close()]: what stays is the committed database. *)
Definition close (c : connection) : db := committed c.

End Sql.

Import Sql.

(** ** Statements that may raise, run on a connection *)

Definition M (A : Type) : Type := connection -> result A * connection.

#[global] Instance M_ret : MRet M := fun A a c => (Ok a, c).
#[global] Instance M_bind : MBind M := fun A B k m c =>
  match m c with
  | (Ok a, c') => k a c'
  | (Raise e, c') => (Raise e, c')
  end.

(** A Python expression that may raise, inside the transaction. *)
Definition lift {A} (r : result A) : M A := fun c => (r, c).

(** [cur.execute(query)] followed, for a query that returns rows, by its
    fetch: the statement reads and writes the working copy.  The errors
    of the database itself (a value that a column does not take, a
    constraint) are not represented, the schema being absent: a
    statement of the model always returns, so what is proved of a stage
    that writes is proved of the runs in which its statements return. *)
Definition execute {A} (stmt : db -> A * db) : M A := fun c =>
  let '(a, d) := stmt (working c) in (Ok a, mk_connection (committed c) d).

(** [cur.execute(query); cur.fetchall()] for a query that only reads. *)
Definition query {A} (q : db -> A) : M A := execute (fun d => (q d, d)).

(** [for x in xs: acc = body(acc, x)] *)
Fixpoint for_each {A X} (body : A -> X -> M A) (acc : A) (xs : list X) : M A :=
  match xs with
  | [] => mret acc
  | x :: xs' => acc' ← body acc x; for_each body acc' xs'
  end.

(** ** The two scripts and their static tables *)

Inductive script : Type :=
| F25   (* import_f25_orders.py *)
| S26.  (* import_s26_orders.py *)

(** Brand name mapping (Excel name -> database name), in source order. *)
Definition BRAND_MAP (v : script) : list (string * string) :=
  match v with
  | F25 =>
      [ ("Prana", "Prana");
        ("Free Fly", "Free Fly");
        ("La Sportiva Footwear", "La Sportiva Footwear");
        ("La Sportiva Apparel", "La Sportiva Apparel");
        ("Petzl", "Petzl");
        ("Montane", "Montane");
        ("Ripton", "Ripton");
        ("Metolius", "Metolius");
        ("Scarpa", "Scarpa");
        ("Sterling", "Sterling");
        ("Duer", "Duer");
        ("Patagonia", "Patagonia");
        ("CAMP", "CAMP") ]
  | S26 =>
      [ ("Prana", "Prana");
        ("Free Fly", "Free Fly");
        ("LaSportivaApparel", "La Sportiva Apparel");
        ("LaSportivaEquipment", "La Sportiva Equipment");
        ("LaSportiva", "La Sportiva");
        ("ArcteryxFW", "ArcteryxFW");
        ("Arcteryx", "Arcteryx");
        ("Toad&Co", "Toad&Co");
        ("TenTree", "TenTree");
        ("DUER", "DUER");
        ("Sterling", "Sterling");
        ("Scarpa", "Scarpa");
        ("Petzl", "Petzl");
        ("DMM", "DMM");
        ("Metolius", "Metolius") ]
  end.

(** Location mapping (Excel gym -> database location code). *)
Definition LOCATION_MAP (v : script) : list (string * string) :=
  match v with
  | F25 =>
      [ ("SLC", "SLC");
        ("SLC ", "SLC");
        ("South Main", "SOMA");
        ("Ogden", "OGD");
        ("OGden", "OGD") ]
  | S26 =>
      [ ("SLC", "SLC");
        ("SouthMain", "SOMA");
        ("Ogden", "OGD") ]
  end.

(** Ship month to date mapping of the F25 script. *)
Definition F25_SHIP_MONTH_MAP : list (string * string) :=
  [ ("Jul", "2025-07-01");
    ("Aug", "2025-08-01");
    ("Sep", "2025-09-01");
    ("Oct", "2025-10-01");
    ("Nov", "2025-11-01");
    ("Dec", "2025-12-01");
    ("Jan", "2026-01-01");
    ("ASAP ", "2025-07-01") ].

(** Ship month mapping of the S26 script (numeric -> date and token). *)
Definition S26_SHIP_MONTH_MAP : list (Z * (string * string)) :=
  [ (126, ("2026-01-01", "JAN"));
    (226, ("2026-02-01", "FEB"));
    (326, ("2026-03-01", "MAR"));
    (426, ("2026-04-01", "APR"));
    (526, ("2026-05-01", "MAY"));
    (626, ("2026-06-01", "JUN")) ].

(** The dict a literal with text keys denotes. *)
Definition dict_of {A} (items : list (string * A)) : gmap string A := list_to_map items.

(** [d.get(v)] for the dict with [int] keys: a float equal to a key finds
    it, a text finds nothing. *)
Definition int_dict_get {A} (items : list (Z * A)) (v : value) : option A :=
  snd <$> find (fun kv => veqb (VInt kv.1) v) items.

(** The two digits after the period token in an order number. *)
Definition YEAR_SUFFIX (v : script) : string :=
  match v with
  | F25 => "25"
  | S26 => "26"
  end.

(** The ship date and the period token of a group.

    F25: [ship_date = SHIP_MONTH_MAP.get(ship_month, '2025-08-01')] and
    [month_abbr = ship_month.strip()[:3].upper()].
    S26: [ship_date, month_abbr = SHIP_MONTH_MAP.get(ship_month, ('2026-03-01', 'MAR'))]. *)
Definition ship_period (v : script) (ship_month : value) : result (string * string) :=
  match v with
  | F25 =>
      let ship_date := default "2025-08-01" (dict_get (dict_of F25_SHIP_MONTH_MAP) ship_month) in
      result_bind (str_method (fun s => upper (slice_to 3 (strip s))) ship_month) (fun month_abbr =>
      Ok (ship_date, month_abbr))
  | S26 =>
      Ok (default ("2026-03-01", "MAR") (int_dict_get S26_SHIP_MONTH_MAP ship_month))
  end.

(** Whether the ship-month table of the script has an entry for a label. *)
Definition ship_month_mapped (v : script) (ship_month : value) : bool :=
  match v with
  | F25 => bool_decide (is_Some (dict_get (dict_of F25_SHIP_MONTH_MAP) ship_month))
  | S26 => bool_decide (is_Some (int_dict_get S26_SHIP_MONTH_MAP ship_month))
  end.

(** ** The transactional phase, stage by stage *)

(** *** 1. The season *)

(** F25: [INSERT INTO seasons (name, status) VALUES (name, status)
    ON CONFLICT (name) DO UPDATE SET name = name RETURNING id]. *)
Definition upsert_season (name status : string) (d : db) : Z * db :=
  match find (fun s => bool_decide (s_name s = name)) (seasons d) with
  | Some s =>
      (s_id s,
       set_seasons
         (map (fun t => if bool_decide (s_name t = name)
                        then mk_season (s_id t) name (s_status t) else t)
              (seasons d)) d)
  | None =>
      let i := fresh_id (map s_id (seasons d)) in
      (i, set_seasons (seasons d ++ [mk_season i name status]) d)
  end.

(** S26: [SELECT id FROM seasons WHERE name = name] and [fetchone()]. *)
Definition select_season (name : string) (d : db) : option Z :=
  s_id <$> find (fun s => bool_decide (s_name s = name)) (seasons d).

(** S26: [INSERT INTO seasons (name, status) VALUES (name, status) RETURNING id]. *)
Definition insert_season (name status : string) (d : db) : Z * db :=
  let i := fresh_id (map s_id (seasons d)) in
  (i, set_seasons (seasons d ++ [mk_season i name status]) d).

Definition get_season (v : script) : M Z :=
  match v with
  | F25 => execute (upsert_season "Fall 2025" "ordering")
  | S26 =>
      result ← query (select_season "Spring 2026");
      match result with
      | Some i => mret i
      | None => execute (insert_season "Spring 2026" "ordering")
      end
  end.

(** *** 2, 3. Brand and location identifiers *)

(** [SELECT id, name FROM brands] *)
Definition select_brands (d : db) : list (Z * string) :=
  map (fun b => (b_id b, b_name b)) (brands d).

(** [SELECT id, code FROM locations] *)
Definition select_locations (d : db) : list (Z * string) :=
  map (fun l => (l_id l, l_code l)) (locations d).

(** [{row[1]: row[0] for row in rows}]: a later row replaces an earlier
    one with the same key. *)
Definition dict_of_rows (rows : list (Z * string)) : gmap string Z :=
  foldl (fun acc r => <[r.2 := r.1]> acc) ∅ rows.

(** [for excel_name, db_name in TABLE.items():
       if db_name in db_rows: ids[excel_name] = db_rows[db_name]] *)
Definition map_ids (table : list (string * string)) (db_rows : gmap string Z)
  : gmap string Z :=
  foldl (fun ids entry =>
           match db_rows !! entry.2 with
           | Some i => <[entry.1 := i]> ids
           | None => ids
           end) ∅ table.

(** *** 4. Products by UPC *)

(** [SELECT id, upc FROM products WHERE upc IS NOT NULL] *)
Definition select_products (d : db) : list (Z * string) :=
  omap (fun p => match p_upc p with
                 | Some u => Some (p_id p, u)
                 | None => None
                 end) (products d).

(** [df.drop_duplicates(subset=['UPC'])]: the first row of each UPC. *)
Fixpoint drop_duplicates_from (seen : list value) (df : DataFrame) : DataFrame :=
  match df with
  | [] => []
  | r :: df' =>
      if existsb (veqb (UPC r)) seen then drop_duplicates_from seen df'
      else r :: drop_duplicates_from (UPC r :: seen) df'
  end.
Definition drop_duplicates (df : DataFrame) : DataFrame := drop_duplicates_from [] df.

(** [INSERT INTO products (...) VALUES (...)
     ON CONFLICT (upc) DO UPDATE SET upc = EXCLUDED.upc RETURNING id]:
    on a conflict the row that holds the UPC is given the proposed UPC,
    and its id is returned. *)
Definition insert_product (new : Z -> product) (upc : string) (d : db) : Z * db :=
  match find (fun p => bool_decide (p_upc p = Some upc)) (products d) with
  | Some p =>
      (p_id p,
       set_products
         (map (fun q => if bool_decide (p_upc q = Some upc)
                        then mk_product (p_id q) (Some upc) (p_name q) (p_sku q)
                               (p_color q) (p_size q) (p_wholesale_cost q)
                               (p_msrp q) (p_brand_id q) (p_season_id q) (p_active q)
                        else q)
              (products d)) d)
  | None =>
      let i := fresh_id (map p_id (products d)) in
      (i, set_products (products d ++ [new i]) d)
  end.

(** The product row the script proposes for a spreadsheet row. *)
Definition product_of_row (upc : string) (r : row) (brand_id season_id : Z) (i : Z) : product :=
  mk_product i (Some upc)
    (Some (Description r))
    (Some (get (Product_Number r) (VStr "")))
    (Some (get (Color r) (VStr "")))
    (Some (get (Size r) (VStr "")))
    (Some (get (Wholesale r) (VInt 0)))
    (Some (get (Retail r) (VInt 0)))
    (Some brand_id) (Some season_id) true.

(** The body of [for _, row in df.drop_duplicates(subset=['UPC']).iterrows()];
    the loop state is [product_ids] and [products_created]. *)
Definition product_step (season_id : Z) (existing_products brand_ids : gmap string Z)
    (acc : gmap string Z * nat) (r : row) : M (gmap string Z * nat) :=
  let '(product_ids, products_created) := acc in
  let upc := strip (str (UPC r)) in
  match existing_products !! upc with
  | Some i => mret (<[upc := i]> product_ids, products_created)
  | None =>
      let brand_id := dict_get brand_ids (Brand r) in
      if falsy brand_id then mret acc
      else
        i ← execute (insert_product
                       (product_of_row upc r (default 0 brand_id) season_id) upc);
        mret (<[upc := i]> product_ids, S products_created)
  end.

Definition process_products (season_id : Z) (brand_ids : gmap string Z) (df : DataFrame)
  : M (gmap string Z * nat) :=
  rows ← query select_products;
  let existing_products := dict_of_rows rows in
  for_each (product_step season_id existing_products brand_ids) (∅, 0%nat)
           (drop_duplicates df).

(** *** 5. Orders, one per (brand, gym, ship month) group *)

Definition key : Type := value * value * value.

Definition key_of (r : row) : key := (Brand r, Gym r, Ship_Month r).

Definition key_isna (k : key) : bool := isna k.1.1 || isna k.1.2 || isna k.2.

Definition key_eqb (a b : key) : bool :=
  veqb a.1.1 b.1.1 && veqb a.1.2 b.1.2 && veqb a.2 b.2.

(** The order in which group keys are visited: numbers by value and
    before texts, texts character by character. *)
Definition float_leb (x y : pyfloat) : bool :=
  match x, y with
  | fnan, _ | _, fnan => false
  | finf true, _ | _, finf false => true
  | finf false, _ | _, finf true => false
  | ffin p, ffin q => Qle_bool p q
  end.

Definition vleb (a b : value) : bool :=
  match a, b with
  | VStr s, VStr t => String.leb s t
  | VStr _, _ => false
  | _, VStr _ => true
  | VInt m, VInt n => m <=? n
  | VInt m, VFloat y => float_leb (float_of_int m) y
  | VFloat x, VInt n => float_leb x (float_of_int n)
  | VFloat x, VFloat y => float_leb x y
  end.

Definition key_leb (a b : key) : bool :=
  if veqb a.1.1 b.1.1
  then (if veqb a.1.2 b.1.2 then vleb a.2 b.2 else vleb a.1.2 b.1.2)
  else vleb a.1.1 b.1.1.

Fixpoint insert_key (k : key) (ks : list key) : list key :=
  match ks with
  | [] => [k]
  | k' :: ks' =>
      if key_eqb k k' then ks
      else if key_leb k k' then k :: ks
      else k' :: insert_key k ks'
  end.

(** The keys of [df.groupby(['Brand', 'Gym', 'Ship Month'])]: each key
    once, in sorted order; a row with an empty cell in one of the three
    columns belongs to no group. *)
Definition groupby (df : DataFrame) : list key :=
  foldr insert_key [] (filter (fun k => key_isna k = false) (map key_of df)).

(** [f"{month_abbr}{yy}-{brand_code}-{loc_code}"] *)
Definition order_number_of (v : script) (month_abbr brand_code loc_code : string) : string :=
  month_abbr +:+ YEAR_SUFFIX v +:+ "-" +:+ brand_code +:+ "-" +:+ loc_code.

(** [SELECT COUNT( * ) FROM orders WHERE order_number LIKE pattern] *)
Definition count_orders_like (pattern : string) (d : db) : Z :=
  Z.of_nat (length (filter (fun o => like pattern (o_order_number o) = true) (orders d))).

(** [if count > 0: order_number = f"{order_number}-{count + 1}"] *)
Definition disambiguate (order_number : string) (count : Z) : string :=
  if 0 <? count then order_number +:+ "-" +:+ str_of_int (count + 1) else order_number.

(** [INSERT INTO orders (order_number, season_id, brand_id, location_id,
     ship_date, order_type, status, created_by)
     VALUES (..., 'preseason', 'draft', 1) RETURNING id] *)
Definition insert_order (order_number : string) (season_id brand_id location_id : Z)
    (ship_date : string) (d : db) : Z * db :=
  let i := fresh_id (map o_id (orders d)) in
  (i, set_orders
        (orders d ++ [mk_order i order_number (Some season_id) brand_id location_id
                        ship_date "preseason" "draft" 1 None]) d).

(** The body of [for (brand, gym, ship_month), group in groups]; the loop
    state is [order_map] (latest binding first) and [orders_created]. *)
Definition order_step (v : script) (season_id : Z) (brand_ids location_ids : gmap string Z)
    (acc : list (key * Z) * nat) (k : key) : M (list (key * Z) * nat) :=
  let '(order_map, orders_created) := acc in
  let '(brand, gym, ship_month) := k in
  let brand_id := dict_get brand_ids brand in
  let location_id := dict_get location_ids gym in
  if falsy brand_id || falsy location_id then mret acc
  else
    '(ship_date, month_abbr) ← lift (ship_period v ship_month);
    brand_code ← lift (result_bind (slice 3 brand) (fun s => Ok (upper s)));
    let loc_code := default "UNK" (dict_get (dict_of (LOCATION_MAP v)) gym) in
    let order_number := order_number_of v month_abbr brand_code loc_code in
    count ← query (count_orders_like (order_number +:+ "%"));
    let order_number := disambiguate order_number count in
    order_id ← execute (insert_order order_number season_id (default 0 brand_id)
                          (default 0 location_id) ship_date);
    mret ((k, order_id) :: order_map, S orders_created).

Definition create_orders (v : script) (season_id : Z) (brand_ids location_ids : gmap string Z)
    (df : DataFrame) : M (list (key * Z) * nat) :=
  for_each (order_step v season_id brand_ids location_ids) ([], 0%nat) (groupby df).

(** *** 6. Order items, one per row *)

(** [order_map.get(key)] *)
Definition order_map_get (order_map : list (key * Z)) (k : key) : option Z :=
  snd <$> find (fun kv => key_eqb kv.1 k) order_map.

(** [INSERT INTO order_items (order_id, product_id, quantity, unit_cost,
     line_total) VALUES (...)] *)
Definition insert_order_item (it : order_item) (d : db) : unit * db :=
  (tt, set_order_items (order_items d ++ [it]) d).

(** [float(row.get('Wholesale', 0) or 0)] *)
Definition unit_cost_of (r : row) : result pyfloat :=
  float (or_else (get (Wholesale r) (VInt 0)) (VInt 0)).

(** The body of [for _, row in df.iterrows()]; the loop state is
    [items_added] and [items_skipped]. *)
Definition item_step (product_ids : gmap string Z) (order_map : list (key * Z))
    (acc : nat * nat) (r : row) : M (nat * nat) :=
  let '(items_added, items_skipped) := acc in
  let upc := strip (str (UPC r)) in
  let product_id := product_ids !! upc in
  let order_id := order_map_get order_map (key_of r) in
  if falsy product_id || falsy order_id then mret (items_added, S items_skipped)
  else
    quantity ← lift (int (Quantity r));
    unit_cost ← lift (unit_cost_of r);
    let line_total := fmul unit_cost (float_of_int quantity) in
    _ ← execute (insert_order_item
                   (mk_order_item (default 0 order_id) (default 0 product_id)
                      quantity unit_cost (Some line_total)));
    mret (S items_added, items_skipped).

Definition add_order_items (product_ids : gmap string Z) (order_map : list (key * Z))
    (df : DataFrame) : M (nat * nat) :=
  for_each (item_step product_ids order_map) (0%nat, 0%nat) df.

(** *** 7. Order totals *)

(** The line totals of the items of one order, in table order. *)
Definition line_totals_of (order_id : Z) (d : db) : list (option pyfloat) :=
  map i_line_total (filter (fun i => i_order_id i = order_id) (order_items d)).

Definition set_current_total (t : option pyfloat) (o : order) : order :=
  mk_order (o_id o) (o_order_number o) (o_season_id o) (o_brand_id o) (o_location_id o)
    (o_ship_date o) (o_order_type o) (o_status o) (o_created_by o) t.

(** [UPDATE orders o SET current_total =
       (SELECT COALESCE(SUM(line_total), 0) FROM order_items WHERE order_id = o.id)
     WHERE season_id = season_id] *)
Definition update_order_totals (season_id : Z) (d : db) : unit * db :=
  (tt, set_orders
         (map (fun o =>
                 if bool_decide (o_season_id o = Some season_id)
                 then set_current_total
                        (Some (coalesce (sql_sum (line_totals_of (o_id o) d)) fzero)) o
                 else o)
              (orders d)) d).

(** *** The whole run *)

Record summary : Type := mk_summary {
  season_id : Z;
  products_created : nat;
  orders_created : nat;
  items_added : nat;
  items_skipped : nat
}.

(** The body of the [try] block up to [conn.commit()]. *)
Definition transaction (v : script) (df : DataFrame) : M summary :=
  season_id ← get_season v;
  rows ← query select_brands;
  let db_brands := dict_of_rows rows in
  let brand_ids := map_ids (BRAND_MAP v) db_brands in
  rows ← query select_locations;
  let db_locations := dict_of_rows rows in
  let location_ids := map_ids (LOCATION_MAP v) db_locations in
  '(product_ids, products_created) ← process_products season_id brand_ids df;
  '(order_map, orders_created) ← create_orders v season_id brand_ids location_ids df;
  '(items_added, items_skipped) ← add_order_items product_ids order_map df;
  _ ← execute (update_order_totals season_id);
  mret (mk_summary season_id products_created orders_created items_added items_skipped).

(** [main()]: the spreadsheet is cleaned before the connection is
    opened; the transaction is committed when its body returns and rolled
    back, the exception raised again, when it raises.  The result is the
    outcome of the process and the database it leaves. *)
Definition main (v : script) (df : DataFrame) (d : db) : result summary * db :=
  match Loader.clean df with
  | Raise e => (Raise e, d)
  | Ok df =>
      let conn := connect d in
      match transaction v df conn with
      | (Ok s, conn) => (Ok s, close (commit conn))
      | (Raise e, conn) => (Raise e, close (rollback conn))
      end
  end.

(** ** Specifications *)

(** [wp m Q E c]: run from the connection [c], the statement [m] either
    returns a value and a connection that satisfy [Q], or raises an
    exception with a connection that satisfy [E]. *)
Definition wp {A} (m : M A) (Q : A -> connection -> Prop)
    (E : exn -> connection -> Prop) (c : connection) : Prop :=
  match m c with
  | (Ok a, c') => Q a c'
  | (Raise e, c') => E e c'
  end.

(** No condition on the exceptional outcome. *)
Definition any_exn : exn -> connection -> Prop := fun _ _ => True.

(** The key under which a spreadsheet row is looked up in the product
    dicts: [str(row['UPC']).strip()]. *)
Definition upc_key (r : row) : string := strip (str (UPC r)).

(** What the cleaning step does to one row that it keeps. *)
Definition cleaned_from (r r' : row) : Prop :=
  exists n, int (Quantity r) = Ok n
    /\ r' = set_Quantity (VInt n) (set_UPC (VStr (strip (str (UPC r)))) r).

(** A row as the cleaning step leaves it: a trimmed text for UPC, an
    [int] for Quantity, Brand and Gym not empty. *)
Definition cleaned (r : row) : Prop :=
  (exists s, UPC r = VStr s /\ strip s = s)
  /\ (exists n, Quantity r = VInt n)
  /\ isna (Brand r) = false /\ isna (Gym r) = false.

(** Every character of a text satisfies a test. *)
Fixpoint all_chars (p : ascii -> bool) (s : string) : bool :=
  match s with
  | String a s' => p a && all_chars p s'
  | EmptyString => true
  end.

(** The text holds no backslash, the escape character of [LIKE]. *)
Definition no_escape (s : string) : bool :=
  all_chars (fun a => negb (bool_decide (a = "\"%char))) s.

(** The text holds none of the characters [LIKE] reads specially. *)
Definition literal (s : string) : bool :=
  all_chars (fun a => negb (bool_decide (a = "%"%char))
                      && negb (bool_decide (a = "_"%char))
                      && negb (bool_decide (a = "\"%char))) s.

(** The number of orders whose number starts with a prefix. *)
Definition count_orders_with_prefix (prefix : string) (d : db) : Z :=
  Z.of_nat (length (filter (fun o => startswith prefix (o_order_number o) = true) (orders d))).

(** The order row that [order_step] inserts for a group whose brand [b]
    and gym resolved to the identifiers [bid] and [lid] and to the
    location code [code], on the database [d]. *)
Definition new_order (v : script) (sid bid lid : Z) (date token b code : string)
    (d : db) : order :=
  let number := order_number_of v token (upper (slice_to 3 b)) code in
  mk_order (fresh_id (map o_id (orders d)))
           (disambiguate number (count_orders_like (number +:+ "%") d))
           (Some sid) bid lid date "preseason" "draft" 1 None.

(** A code of the location table of a script. *)
Definition location_code (v : script) (code : string) : Prop :=
  exists gym, (gym, code) ∈ LOCATION_MAP v.

(** The order [o] is the one made for the group [k]: the brand and the
    gym of the group are texts, the gym has the code [code] in the
    location table, the ship period of the group resolves, and the order
    number is put together from the token, the brand code and [code],
    with or without a counter. *)
Definition order_of_group (v : script) (k : key) (o : order) : Prop :=
  exists b g code date token count,
    k.1.1 = VStr b /\ k.1.2 = VStr g
    /\ dict_of (LOCATION_MAP v) !! g = Some code /\ location_code v code
    /\ ship_period v k.2 = Ok (date, token)
    /\ o_ship_date o = date
    /\ o_order_number o
       = disambiguate (order_number_of v token (upper (slice_to 3 b)) code) count.

(** The order [o] was made in this run for one of the groups [ks]: it
    belongs to the season of the run and has no total yet. *)
Definition made_for (v : script) (sid : Z) (ks : list key) (o : order) : Prop :=
  (exists k, k ∈ ks /\ order_of_group v k o)
  /\ o_season_id o = Some sid /\ o_current_total o = None.

(** The orders that a statement added to the table. *)
Definition orders_added (c c' : connection) (new : list order) : Prop :=
  committed c' = committed c
  /\ working c' = set_orders (orders (working c) ++ new) (working c).

(** The order items that a statement added to the table. *)
Definition items_appended (c c' : connection) (new : list order_item) : Prop :=
  committed c' = committed c
  /\ working c' = set_order_items (order_items (working c) ++ new) (working c).

(** The test of [item_step]: the row has no product or no order. *)
Definition unresolved (product_ids : gmap string Z) (order_map : list (key * Z))
    (r : row) : bool :=
  falsy (product_ids !! upc_key r) || falsy (order_map_get order_map (key_of r)).

(** The item that [item_step] inserts for a row. *)
Definition item_of_row (product_ids : gmap string Z) (order_map : list (key * Z))
    (r : row) (it : order_item) : Prop :=
  exists q u,
    int (Quantity r) = Ok q /\ unit_cost_of r = Ok u
    /\ it = mk_order_item (default 0 (order_map_get order_map (key_of r)))
                          (default 0 (product_ids !! upc_key r))
                          q u (Some (fmul u (float_of_int q))).

(** The sum of a list of floats. *)
Definition sum_floats (xs : list pyfloat) : pyfloat := foldr fadd fzero xs.

(** The items of an order, and the sum of their line totals (an item
    whose line total is NULL adds nothing). *)
Definition items_of (order_id : Z) (d : db) : list order_item :=
  filter (fun i => i_order_id i = order_id) (order_items d).

Definition sum_of_line_totals (order_id : Z) (d : db) : pyfloat :=
  sum_floats (omap i_line_total (items_of order_id d)).

(** A statement that, whatever it does to the working copy and whether
    it returns or raises, leaves the committed database alone. *)
Definition keeps_committed {A} (m : M A) : Prop :=
  forall c, committed (m c).2 = committed c.

(** The products that a statement added to the table: the rows that
    were there are kept as they were, in place. *)
Definition products_appended (c c' : connection) (new : list product) : Prop :=
  committed c' = committed c
  /\ working c' = set_products (products (working c) ++ new) (working c).

(** [existing_products] as [process_products] reads it from a database. *)
Definition existing_products_of (d : db) : gmap string Z :=
  dict_of_rows (select_products d).

(** [brand_ids] as [transaction] builds it from a database. *)
Definition brand_ids_of (v : script) (d : db) : gmap string Z :=
  map_ids (BRAND_MAP v) (dict_of_rows (select_brands d)).

(** [location_ids] as [transaction] builds it from a database. *)
Definition location_ids_of (v : script) (d : db) : gmap string Z :=
  map_ids (LOCATION_MAP v) (dict_of_rows (select_locations d)).

(** The brands, locations and products of two databases are the same. *)
Definition same_catalog (d d' : db) : Prop :=
  brands d' = brands d /\ locations d' = locations d /\ products d' = products d.

(** Every row of the frame, duplicates of a UPC apart, has its UPC in
    the products table of [d], or a brand that does not resolve. *)
Definition products_settled (brand_ids : gmap string Z) (df : DataFrame) (d : db) : Prop :=
  forall r, r ∈ drop_duplicates df ->
    is_Some (existing_products_of d !! upc_key r)
    \/ falsy (dict_get brand_ids (Brand r)) = true.

(** The text does not start with a blank. *)
Definition no_leading_space (s : string) : Prop :=
  match s with
  | String a _ => is_space a = false
  | EmptyString => True
  end.

(** A run of the transaction that ends, stage by stage: the season is
    obtained, then the four stages return in turn, each from the
    connection the one before left, and the totals of the season are
    updated last. *)
Definition run_of (v : script) (df : DataFrame) (c : connection)
    (s : summary) (c' : connection) : Prop :=
  exists c1 product_ids c2 order_map c3 c4,
    get_season v c = (Ok (season_id s), c1)
    /\ process_products (season_id s) (brand_ids_of v (working c1)) df c1
       = (Ok (product_ids, products_created s), c2)
    /\ create_orders v (season_id s) (brand_ids_of v (working c1))
         (location_ids_of v (working c1)) df c2
       = (Ok (order_map, orders_created s), c3)
    /\ add_order_items product_ids order_map df c3
       = (Ok (items_added s, items_skipped s), c4)
    /\ c' = mk_connection (committed c4)
              (update_order_totals (season_id s) (working c4)).2.

(** The test of [order_step]: the brand and the gym of the group both
    have an identifier. *)
Definition survives (brand_ids location_ids : gmap string Z) (k : key) : bool :=
  negb (falsy (dict_get brand_ids k.1.1) || falsy (dict_get location_ids k.1.2)).

(** *** The stages, exactly

    The notions in which the outcome of each stage, and of a whole run,
    is stated in full. *)

(** The name of the season of a script. *)
Definition SEASON (v : script) : string :=
  match v with
  | F25 => "Fall 2025"
  | S26 => "Spring 2026"
  end.

(** [x] is the last element of [l] that [f] sends to [name]. *)
Definition last_with {A} (f : A -> string) (name : string) (l : list A) (x : A) : Prop :=
  exists l1 l2, l = l1 ++ x :: l2 /\ f x = name /\ Forall (fun y => f y <> name) l2.

(** [x] is the first element of [l] with the value of [x] under [f]. *)
Definition first_with {A B} (f : A -> B) (l : list A) (x : A) : Prop :=
  exists l1 l2, l = l1 ++ x :: l2 /\ Forall (fun y => f y <> f x) l1.

(** The cell holds a text. *)
Definition is_text (x : value) : Prop := exists u, x = VStr u.

(** The test of the product loop for a row it visits: the UPC is not in
    the products table and the brand of the row has an id. *)
Definition is_created (existing brand_ids : gmap string Z) (r : row) : bool :=
  bool_decide (existing !! upc_key r = None) && negb (falsy (dict_get brand_ids (Brand r))).

(** The product row made of a spreadsheet row. *)
Definition product_made (sid : Z) (brand_ids : gmap string Z) (r : row) (p : product) : Prop :=
  exists bid, dict_get brand_ids (Brand r) = Some bid /\ bid <> 0
    /\ p = product_of_row (upc_key r) r bid sid (p_id p).

(** The strict order of the values of group keys. *)
Definition vlt (a b : value) : Prop := vleb a b = true /\ veqb a b = false.

(** The strict order in which group keys are visited. *)
Definition key_lt (a b : key) : Prop := key_leb a b = true /\ key_eqb a b = false.

(** A list of keys in strictly increasing order. *)
Fixpoint increasing (ks : list key) : Prop :=
  match ks with
  | [] => True
  | k :: ks' => Forall (key_lt k) ks' /\ increasing ks'
  end.

(** The strict order of floats, nan apart. *)
Definition flt (x y : pyfloat) : Prop := float_leb x y = true /\ float_eqb x y = false.

(** The strict order of texts. *)
Definition slt (s t : string) : Prop := String.leb s t = true /\ bool_decide (s = t) = false.

(** The entry of [order_map] and the order row made for a group. *)
Definition order_entry (v : script) (sid : Z) (brand_ids location_ids : gmap string Z)
    (kv : key * Z) (o : order) : Prop :=
  kv.2 = o_id o
  /\ order_of_group v kv.1 o
  /\ dict_get brand_ids kv.1.1.1 = Some (o_brand_id o)
  /\ dict_get location_ids kv.1.1.2 = Some (o_location_id o)
  /\ o_season_id o = Some sid /\ o_order_type o = "preseason" /\ o_status o = "draft"
  /\ o_created_by o = 1 /\ o_current_total o = None.

(** The ids of the rows [new], added one by one after the rows [old]:
    each is the fresh id of the table it was added to. *)
Definition numbered {A} (id : A -> Z) (old new : list A) : Prop :=
  forall l1 x l2, new = l1 ++ x :: l2 -> id x = fresh_id (map id (old ++ l1)).

(** The ids of the rows [new] are new: none is 0, none is the id of a
    row of [old], and no two of them are the same. *)
Definition new_ids {A} (id : A -> Z) (old new : list A) : Prop :=
  Forall (fun x => id x <> 0 /\ id x ∉ map id old) new /\ NoDup (map id new).

(** Whether a run on the database [d] makes an order for the group of a
    row: the three key cells hold a value, and the brand and the gym
    have an id. *)
Definition has_order (v : script) (d : db) (r : row) : bool :=
  negb (key_isna (key_of r))
  && survives (brand_ids_of v d) (location_ids_of v d) (key_of r).

(** Whether a run of the sheet [df] on the database [d] finds or makes a
    product for the UPC of a row: the UPC is in the products table under
    an id that is not 0, or it is not and the brand of the first row of
    the sheet with this UPC has an id. *)
Definition has_product (v : script) (d : db) (df : DataFrame) (r : row) : bool :=
  match existing_products_of d !! upc_key r with
  | Some i => negb (i =? 0)
  | None =>
      match find (fun r0 => bool_decide (upc_key r0 = upc_key r)) df with
      | Some r0 => negb (falsy (dict_get (brand_ids_of v d) (Brand r0)))
      | None => false
      end
  end.

(** The database of a run before its last statement, the update of the
    totals: the seasons as the season stage left them and the rows that
    the three loops added. *)
Definition before_totals (d : db) (ss : list season) (newP : list product)
    (newO : list order) (newI : list order_item) : db :=
  mk_db ss (brands d) (locations d) (products d ++ newP) (orders d ++ newO)
        (order_items d ++ newI).

(** The seasons after the season stage. *)
Definition seasons_after (v : script) (sid : Z) (d : db) : list season :=
  match select_season (SEASON v) d with
  | Some _ => seasons d
  | None => seasons d ++ [mk_season sid (SEASON v) "ordering"]
  end.

(** The item of a row, by its values: the quantity of the row, its unit
    cost and their product. *)
Definition item_for (r : row) (it : order_item) : Prop :=
  exists q u,
    Quantity r = VInt q /\ unit_cost_of r = Ok u
    /\ i_quantity it = q /\ i_unit_cost it = u
    /\ i_line_total it = Some (fmul u (float_of_int q)).

(** The item of the row [r] in the database [d'] that a run of the
    sheet [df] on the database [d] left, [news] being the orders the run
    appended, one per group with ids and in the order of the groups: the
    item has the quantity of the row, its unit cost and their product,
    the id of a product of [d'] that has the UPC of the row, and the id
    of the order that stands in [news] at the place of the group of the
    row, which no other order of [d'] has. *)
Definition item_in (v : script) (d d' : db) (df : DataFrame) (news : list order)
    (r : row) (it : order_item) : Prop :=
  exists q u k o p,
    Quantity r = VInt q /\ unit_cost_of r = Ok u
    /\ it = mk_order_item (o_id o) (p_id p) q u (Some (fmul u (float_of_int q)))
    /\ p ∈ products d' /\ p_upc p = Some (upc_key r)
    /\ (k, o) ∈ zip (filter (fun k => survives (brand_ids_of v d) (location_ids_of v d) k = true)
                             (groupby df)) news
    /\ key_eqb k (key_of r) = true
    /\ (forall o', o' ∈ orders d' -> o_id o' = o_id o -> o' = o).

(** An order of the database before a run and the same order after it:
    an order of the season of the run has its total computed again from
    the items it had, any other order is left as it was. *)
Definition order_after (sid : Z) (d : db) (o o' : order) : Prop :=
  if bool_decide (o_season_id o = Some sid)
  then o' = set_current_total (Some (sum_of_line_totals (o_id o) d)) o
  else o' = o.

(** The line total of a row: its unit cost times its quantity, when
    both convert. *)
Definition line_total_of (r : row) : option pyfloat :=
  match int (Quantity r), unit_cost_of r with
  | Ok q, Ok u => Some (fmul u (float_of_int q))
  | _, _ => None
  end.

(** The rows of the sheet that belong to the group [k] and have a
    product. *)
Definition rows_of_group (v : script) (d : db) (df : DataFrame) (k : key) : list row :=
  filter (fun r => has_product v d df r && key_eqb k (key_of r) = true) df.

(** Every item of the database belongs to an order of the database. *)
Definition items_have_orders (d : db) : Prop :=
  forall it, it ∈ order_items d -> exists o, o ∈ orders d /\ o_id o = i_order_id it.

(** The order of the group [k] in the database that a run of the sheet
    [df] on the database [d] left: it is made for the group, carries
    the ids of its brand and location and the season of the run, and its
    total is the sum of the line totals of the rows of the group that
    have a product. *)
Definition order_in (v : script) (sid : Z) (d : db) (df : DataFrame)
    (k : key) (o : order) : Prop :=
  order_of_group v k o
  /\ dict_get (brand_ids_of v d) k.1.1 = Some (o_brand_id o)
  /\ dict_get (location_ids_of v d) k.1.2 = Some (o_location_id o)
  /\ o_season_id o = Some sid /\ o_order_type o = "preseason" /\ o_status o = "draft"
  /\ o_created_by o = 1
  /\ o_current_total o = Some (sum_floats (omap line_total_of (rows_of_group v d df k))).

(** ** Sample inputs

    The rows and databases at which the properties below are evaluated. *)

(** The row of the specification's scenario: Prana, SLC, Aug, five units
    at 10.0, UPC 012345. *)
Definition prana_row : row :=
  mk_row (VStr "012345") (VStr "Prana") (VStr "SLC") (VStr "Aug") (VInt 5)
         (VStr "Pants") None None None (Some (VFloat (ffin (10 # 1)))) None.

(** A row with blanks for a UPC and a negative quantity. *)
Definition blank_upc_row : row :=
  mk_row (VStr "   ") (VStr "Prana") (VStr "SLC") (VStr "Aug") (VInt (-3))
         (VStr "Pants") None None None None None.

(** A row without a gym. *)
Definition no_gym_row : row :=
  mk_row (VStr "012346") (VStr "Prana") NaN (VStr "Aug") (VInt 1)
         (VStr "Shirt") None None None None None.

(** The database of the scenario after its first order was deleted and
    the second, numbered with a counter, was kept. *)
Definition db_with_suffixed_order : db :=
  mk_db [mk_season 1 "Fall 2025" "ordering"] [mk_brand 1 "Prana"] [mk_location 1 "SLC"] []
        [mk_order 2 "AUG25-PRA-SLC-2" (Some 1) 1 1 "2025-08-01" "preseason" "draft" 1
                  (Some fzero)] [].

(** The row of the scenario with a text that is no number for a
    wholesale cost. *)
Definition text_cost_row : row :=
  mk_row (VStr "012345") (VStr "Prana") (VStr "SLC") (VStr "Aug") (VInt 5)
         (VStr "Pants") None None None (Some (VStr "abc")) None.

(** The product and order dicts of the scenario at the items stage. *)
Definition scenario_product_ids : gmap string Z := {[ "012345" := 1 ]}.
Definition scenario_order_map : list (key * Z) :=
  [((VStr "Prana", VStr "SLC", VStr "Aug"), 1)].

(** A database with one order of season 1 and two items for it, and one
    order of the season without an item. *)
Definition db_two_items : db :=
  mk_db [mk_season 1 "Fall 2025" "ordering"] [mk_brand 1 "Prana"] [mk_location 1 "SLC"] []
        [mk_order 1 "AUG25-PRA-SLC" (Some 1) 1 1 "2025-08-01" "preseason" "draft" 1 None;
         mk_order 2 "SEP25-PRA-SLC" (Some 1) 1 1 "2025-09-01" "preseason" "draft" 1 None]
        [mk_order_item 1 1 5 (ffin (10 # 1)) (Some (ffin (50 # 1)));
         mk_order_item 1 2 1 (ffin (25 # 2)) (Some (ffin (25 # 2)))].

(** A database that has a product with the UPC of the scenario, under
    another name, cost and season. *)
Definition db_with_product : db :=
  mk_db [mk_season 1 "Fall 2024" "closed"] [mk_brand 1 "Prana"] [mk_location 1 "SLC"]
        [mk_product 7 (Some "012345") (Some (VStr "Old pants")) (Some (VStr "P-1"))
                    (Some (VStr "Blue")) (Some (VStr "M")) (Some (VFloat (ffin (8 # 1))))
                    (Some (VFloat (ffin (20 # 1)))) (Some 1) (Some 1) false]
        [] [].

(** A row whose brand is in no brand table. *)
Definition unknown_brand_row : row :=
  mk_row (VStr "999") (VStr "Unknown") (VStr "SLC") (VStr "Aug") (VInt 2)
         (VStr "Thing") None None None None None.

(** A database with the brand and the location of the scenario and
    nothing else. *)
Definition empty_db : db :=
  mk_db [] [mk_brand 1 "Prana"] [mk_location 1 "SLC"] [] [] [].

(** A row of the scenario with a number for a ship month, as in the S26
    sheet. *)
Definition number_month_row : row :=
  mk_row (VStr "012345") (VStr "Prana") (VStr "SLC") (VInt 126) (VInt 5)
         (VStr "Pants") None None None None None.

(** A row of the scenario with an empty Wholesale cell. *)
Definition empty_cost_row : row :=
  mk_row (VStr "012345") (VStr "Prana") (VStr "SLC") (VStr "Aug") (VInt 5)
         (VStr "Pants") None None None (Some NaN) None.

(** * Properties *)

(** ** Text *)

Section Text.

Implicit Types (s t : string) (a : ascii).

Lemma lstrip_no_leading_space s : no_leading_space (lstrip s).
Proof.
  induction s as [|a s IH]; simpl; [exact I|].
  destruct (is_space a) eqn:Ha; [exact IH|]. simpl. exact Ha.
Qed.

Lemma lstrip_fixed s : no_leading_space s -> lstrip s = s.
Proof. destruct s as [|a s]; simpl; [reflexivity|]. now intros ->. Qed.

Lemma rstrip_no_leading_space s : no_leading_space s -> no_leading_space (rstrip s).
Proof.
  destruct s as [|a s]; simpl; [trivial|]. intros Ha.
  destruct (rstrip s); [rewrite Ha|]; simpl; exact Ha.
Qed.

Lemma rstrip_idemp s : rstrip (rstrip s) = rstrip s.
Proof.
  induction s as [|a s IH]; simpl; [reflexivity|].
  destruct (rstrip s) as [|b r] eqn:Hr.
  - destruct (is_space a) eqn:Ha; simpl; [reflexivity|]. now rewrite Ha.
  - change (rstrip (String a (String b r))) with
      (match rstrip (String b r) with
       | EmptyString => if is_space a then EmptyString else String a EmptyString
       | r' => String a r'
       end).
    now rewrite IH.
Qed.

(** Trimming a trimmed text changes nothing. *)
Lemma strip_idemp s : strip (strip s) = strip s.
Proof.
  unfold strip.
  rewrite (lstrip_fixed (rstrip (lstrip s))).
  - apply rstrip_idemp.
  - apply rstrip_no_leading_space, lstrip_no_leading_space.
Qed.

End Text.

(** ** The Loader *)

Section LoaderFacts.

Import Loader.

Lemma dropna_spec df r :
  r ∈ dropna df <->
  r ∈ df /\ isna (UPC r) = false /\ isna (Brand r) = false
         /\ isna (Gym r) = false /\ isna (Quantity r) = false.
Proof.
  unfold dropna. rewrite list_elem_of_filter. unfold complete.
  rewrite !andb_true_iff, !negb_true_iff. tauto.
Qed.

Lemma int_Quantity_Ok df df' :
  int_Quantity df = Ok df' ->
  Forall2 (fun r r' => exists n, int (Quantity r) = Ok n /\ r' = set_Quantity (VInt n) r)
          df df'.
Proof.
  revert df'. induction df as [|r df IH]; simpl; intros df' H.
  - injection H as <-. constructor.
  - destruct (int (Quantity r)) as [n|] eqn:Hn; simpl in H; [|discriminate].
    destruct (int_Quantity df) as [rest|]; simpl in H; [|discriminate].
    injection H as <-. constructor; eauto.
Qed.

(** The conversion of the column fails only on a value that does not
    convert. *)
Lemma int_Quantity_Raise df e :
  int_Quantity df = Raise e -> exists r, r ∈ df /\ int (Quantity r) = Raise e.
Proof.
  induction df as [|r df IH]; simpl; [discriminate|].
  destruct (int (Quantity r)) as [n|e'] eqn:Hn; simpl.
  - destruct (int_Quantity df) as [rest|e'']; simpl; [discriminate|].
    intros [= <-]. destruct IH as (r' & Hr' & He); [reflexivity|].
    exists r'. split; [now apply elem_of_cons; right|exact He].
  - intros [= <-]. exists r. split; [apply elem_of_cons; now left|exact Hn].
Qed.

Lemma cleaned_from_cleaned r r' :
  isna (Brand r) = false -> isna (Gym r) = false ->
  cleaned_from r r' -> cleaned r'.
Proof.
  intros Hb Hg (n & _ & ->). repeat split; simpl.
  - eexists. split; [reflexivity|]. apply strip_idemp.
  - now exists n.
  - exact Hb.
  - exact Hg.
Qed.

Lemma clean_Forall2 df df' :
  clean df = Ok df' -> Forall2 cleaned_from (dropna df) df'.
Proof.
  unfold clean, strip_UPC. intros H. apply int_Quantity_Ok in H.
  remember (dropna df) as kept eqn:Hk. clear Hk.
  revert df' H. induction kept as [|r kept IH]; simpl; intros df' H.
  - inversion H. constructor.
  - inversion H as [|? r' ? rest (n & Hn & Hr') Hrest]; subst.
    constructor; [|now apply IH].
    exists n. split; [exact Hn|reflexivity].
Qed.

Lemma clean_cleaned df df' : clean df = Ok df' -> Forall cleaned df'.
Proof.
  intros H. apply clean_Forall2 in H.
  assert (Hall : Forall (fun r => isna (Brand r) = false /\ isna (Gym r) = false) (dropna df)).
  { apply Forall_forall. intros r Hr. apply dropna_spec in Hr. tauto. }
  induction H as [|r r' kept df' Hrr' _ IH]; [constructor|].
  inversion Hall as [|? ? [Hb Hg] Hall']; subst.
  constructor; [now apply (cleaned_from_cleaned r)|now apply IH].
Qed.

End LoaderFacts.

(** C3 (as amended).  When the cleaning step succeeds, the cleaned rows
    are, in order, the input rows that have a value in each of UPC, Brand,
    Gym and Quantity (every other row is discarded), each with its UPC
    replaced by its text, trimmed, and its Quantity by its conversion to
    an integer.  Nothing makes the integer non-negative or the trimmed
    text non-empty. *)
Theorem clean_keeps_complete_rows (df df' : DataFrame) :
  Loader.clean df = Ok df' ->
  Forall2 cleaned_from (Loader.dropna df) df'
  /\ (forall r, r ∈ Loader.dropna df <->
                r ∈ df /\ isna (UPC r) = false /\ isna (Brand r) = false
                       /\ isna (Gym r) = false /\ isna (Quantity r) = false)
  /\ Forall cleaned df'.
Proof.
  intros H. split; [|split].
  - now apply clean_Forall2.
  - intros r. apply dropna_spec.
  - now apply (clean_cleaned df).
Qed.

Lemma clean_keeps_complete_rows_witness :
  Forall2 cleaned_from (Loader.dropna [prana_row; no_gym_row]) [prana_row]
  /\ (forall r, r ∈ Loader.dropna [prana_row; no_gym_row] <->
                r ∈ [prana_row; no_gym_row] /\ isna (UPC r) = false
                /\ isna (Brand r) = false /\ isna (Gym r) = false
                /\ isna (Quantity r) = false)
  /\ Forall cleaned [prana_row].
Proof.
  apply (clean_keeps_complete_rows [prana_row; no_gym_row] [prana_row]).
  vm_compute. reflexivity.
Defined.

(** C3 (as stated) fails: this row survives the cleaning step with the
    quantity -3 and the empty text for a UPC. *)
Lemma clean_keeps_negative_quantity_and_blank_UPC :
  Loader.clean [blank_upc_row]
  = Ok [mk_row (VStr "") (VStr "Prana") (VStr "SLC") (VStr "Aug") (VInt (-3))
               (VStr "Pants") None None None None None].
Proof. vm_compute. reflexivity. Qed.

(** A quantity that does not convert stops the run before the database
    is reached. *)
Lemma clean_raises_main_raises v df d e :
  Loader.clean df = Raise e -> main v df d = (Raise e, d).
Proof. unfold main. now intros ->. Qed.

(** ** Rules for [wp] *)

Section WpRules.

Context {A B : Type}.
Implicit Types (Q : A -> connection -> Prop) (E : exn -> connection -> Prop).

Lemma wp_ret (a : A) Q E c : Q a c -> wp (mret a) Q E c.
Proof. intros H. exact H. Qed.

Lemma wp_bind (m : M A) (k : A -> M B) (R : B -> connection -> Prop) E c :
  wp m (fun a c' => wp (k a) R E c') E c -> wp (m ≫= k) R E c.
Proof.
  unfold wp. cbv [mbind M_bind]. destruct (m c) as [[a|e] c']; intros H; exact H.
Qed.

Lemma wp_lift (r : result A) Q E c :
  match r with Ok a => Q a c | Raise e => E e c end -> wp (lift r) Q E c.
Proof. intros H. exact H. Qed.

Lemma wp_execute (stmt : db -> A * db) Q E c :
  Q (stmt (working c)).1 (mk_connection (committed c) (stmt (working c)).2) ->
  wp (execute stmt) Q E c.
Proof. unfold wp, execute. destruct (stmt (working c)) as [a d]. intros H. exact H. Qed.

Lemma wp_query (q : db -> A) Q E c :
  Q (q (working c)) (mk_connection (committed c) (working c)) -> wp (query q) Q E c.
Proof. intros H. now apply wp_execute. Qed.

Lemma wp_mono (m : M A) Q Q' E E' c :
  (forall a c', Q a c' -> Q' a c') -> (forall e c', E e c' -> E' e c') ->
  wp m Q E c -> wp m Q' E' c.
Proof.
  unfold wp. intros HQ HE. destruct (m c) as [[a|e] c']; [apply HQ|apply HE].
Qed.

(** What [wp] says of a run whose outcome is known. *)
Lemma wp_Ok (m : M A) Q E c a c' : wp m Q E c -> m c = (Ok a, c') -> Q a c'.
Proof. unfold wp. intros H Hm. now rewrite Hm in H. Qed.

Lemma wp_Raise (m : M A) Q E c e c' : wp m Q E c -> m c = (Raise e, c') -> E e c'.
Proof. unfold wp. intros H Hm. now rewrite Hm in H. Qed.

End WpRules.

(** The loop rule: an invariant indexed by the elements still to visit. *)
Lemma wp_for_each {A X} (body : A -> X -> M A) (I : list X -> A -> connection -> Prop)
    (E : exn -> connection -> Prop) (xs : list X) (acc : A) (c : connection) :
  I xs acc c ->
  (forall x rest a c', I (x :: rest) a c' -> wp (body a x) (I rest) E c') ->
  wp (for_each body acc xs) (I []) E c.
Proof.
  intros H0 Hstep. revert acc c H0.
  induction xs as [|x xs IH]; intros acc c H0; simpl.
  - now apply wp_ret.
  - apply wp_bind. eapply wp_mono; [| |apply (Hstep x xs acc c H0)]; simpl.
    + intros a c' Ha. now apply IH.
    + auto.
Qed.

(** On a connection whose transaction has not written, the connection
    record is what [connect] built. *)
Lemma wp_conj {A} (m : M A) Q1 Q2 E1 E2 c :
  wp m Q1 E1 c -> wp m Q2 E2 c ->
  wp m (fun a c' => Q1 a c' /\ Q2 a c') (fun e c' => E1 e c' /\ E2 e c') c.
Proof. unfold wp. destruct (m c) as [[a|e] c']; now split. Qed.

Lemma connection_eta c : mk_connection (committed c) (working c) = c.
Proof. now destruct c. Qed.

(** ** Ship periods *)

(** C5 (as amended).  A label with no entry in the ship-month table does
    not make resolution fail in the S26 script, which falls back to the
    date 2026-03-01 and the token MAR; in the F25 script a text label
    without an entry falls back to the date 2025-08-01, and its token is
    the first three characters of the trimmed label, upper-cased. *)
Theorem ship_period_unmapped (v : script) (ship_month : value) :
  ship_month_mapped v ship_month = false ->
  match v with
  | S26 => ship_period S26 ship_month = Ok ("2026-03-01", "MAR")
  | F25 =>
      forall s, ship_month = VStr s ->
        ship_period F25 ship_month = Ok ("2025-08-01", upper (slice_to 3 (strip s)))
  end.
Proof.
  destruct v; unfold ship_month_mapped; intros Hm; apply bool_decide_eq_false in Hm.
  - intros s ->. unfold ship_period, dict_get, str_method, result_bind in *.
    destruct (dict_of F25_SHIP_MONTH_MAP !! s) as [d|] eqn:Hd; [|reflexivity].
    exfalso. apply Hm. now exists d.
  - unfold ship_period.
    destruct (int_dict_get S26_SHIP_MONTH_MAP ship_month) as [p|] eqn:Hp; [|reflexivity].
    exfalso. apply Hm. now exists p.
Qed.

Lemma ship_period_unmapped_witness :
  ship_period S26 (VStr "Aug") = Ok ("2026-03-01", "MAR").
Proof.
  apply (ship_period_unmapped S26 (VStr "Aug")). vm_compute. reflexivity.
Defined.

(** C5 (as stated) fails in the F25 script: two labels without an entry
    get two different tokens, so the token is no fixed default. *)
Lemma F25_unmapped_tokens_differ :
  ship_month_mapped F25 (VStr "Foo") = false
  /\ ship_month_mapped F25 (VStr "Bar") = false
  /\ ship_period F25 (VStr "Foo") = Ok ("2025-08-01", "FOO")
  /\ ship_period F25 (VStr "Bar") = Ok ("2025-08-01", "BAR").
Proof. vm_compute. repeat split. Qed.

(** In the F25 script the token comes from the label whether or not the
    table has it, and a label that is a number raises. *)
Lemma F25_token_of_label s :
  exists date, ship_period F25 (VStr s) = Ok (date, upper (slice_to 3 (strip s))).
Proof. unfold ship_period, str_method, result_bind. eauto. Qed.

Lemma F25_number_label_raises n : ship_period F25 (VInt n) = Raise AttributeError.
Proof. reflexivity. Qed.

(** The S26 script resolves every label. *)
Lemma S26_ship_period_total ship_month :
  exists date token, ship_period S26 ship_month = Ok (date, token).
Proof.
  unfold ship_period.
  destruct (default _ (int_dict_get S26_SHIP_MONTH_MAP ship_month)) as [d t].
  now exists d, t.
Qed.

(** ** Brand and location identifiers *)

Lemma dict_of_rows_elem rows k i :
  dict_of_rows rows !! k = Some i -> (i, k) ∈ rows.
Proof.
  unfold dict_of_rows.
  assert (H : forall acc : gmap string Z,
             foldl (fun acc r => <[r.2 := r.1]> acc) acc rows !! k = Some i ->
                          acc !! k = Some i \/ (i, k) ∈ rows).
  { induction rows as [|[j n] rows IH]; simpl; intros acc H; [now left|].
    apply IH in H as [H|H].
    - destruct (decide (n = k)) as [->|Hne].
      + rewrite lookup_insert_eq in H. injection H as ->. right. apply elem_of_cons. now left.
      + rewrite lookup_insert_ne in H by exact Hne. now left.
    - right. apply elem_of_cons. now right. }
  intros Hk. apply H in Hk as [Hk|Hk]; [|exact Hk]. now rewrite lookup_empty in Hk.
Qed.

(** An identifier is mapped only for a label of the static table, and it
    is the identifier of a database row. *)
Lemma map_ids_elem table db_rows k i :
  map_ids table db_rows !! k = Some i ->
  exists name, (k, name) ∈ table /\ db_rows !! name = Some i.
Proof.
  unfold map_ids.
  set (step := fun (ids : gmap string Z) (entry : string * string) =>
                 match db_rows !! entry.2 with
                 | Some i => <[entry.1 := i]> ids
                 | None => ids
                 end).
  assert (H : forall acc, foldl step acc table !! k = Some i ->
                          acc !! k = Some i
                          \/ exists name, (k, name) ∈ table /\ db_rows !! name = Some i).
  { induction table as [|[l name] table IH]; simpl; intros acc H; [now left|].
    apply IH in H as [H|(name' & Hin & Hl)].
    - unfold step in H; simpl in H.
      destruct (db_rows !! name) as [j|] eqn:Hj; [|now left].
      destruct (decide (l = k)) as [->|Hne].
      + rewrite lookup_insert_eq in H. injection H as ->.
        right. exists name. split; [apply elem_of_cons; now left|exact Hj].
      + rewrite lookup_insert_ne in H by exact Hne. now left.
    - right. exists name'. split; [apply elem_of_cons; now right|exact Hl]. }
  intros Hk. apply H in Hk as [Hk|Hk]; [|exact Hk]. now rewrite lookup_empty in Hk.
Qed.

(** A label of a static table has its code in the dict of the table. *)
Lemma dict_of_elem {A} (table : list (string * A)) k x :
  (k, x) ∈ table -> exists y, dict_of table !! k = Some y /\ (k, y) ∈ table.
Proof.
  intros Hin. unfold dict_of.
  destruct (list_to_map table !! k) as [y|] eqn:Hy.
  - exists y. split; [reflexivity|]. now apply elem_of_list_to_map_2 in Hy.
  - apply not_elem_of_list_to_map_2 in Hy. exfalso. apply Hy.
    apply list_elem_of_fmap. now exists (k, x).
Qed.

(** ** [LIKE] and prefixes *)

Section Like.

Implicit Types (p s t : string).

(** The pattern [%] alone matches every text. *)
Lemma like_percent s : like "%" s = true.
Proof. induction s as [|a s IH]; simpl; [reflexivity|]. exact IH. Qed.

(** A pattern free of special characters, followed by [%], matches the
    texts that start with it. *)
Lemma like_literal_prefix p s :
  literal p = true -> like (p +:+ "%") s = startswith p s.
Proof.
  revert s. induction p as [|c p IH]; intros s Hp.
  - apply like_percent.
  - simpl in Hp. apply andb_true_iff in Hp as [Hc Hp].
    apply andb_true_iff in Hc as [Hc Hc3]. apply andb_true_iff in Hc as [Hc1 Hc2].
    apply negb_true_iff in Hc1, Hc2, Hc3.
    change (String c p +:+ "%") with (String c (p +:+ "%")).
    cbn [like]. rewrite Hc1, Hc2, Hc3.
    destruct s as [|b s]; simpl; [reflexivity|].
    rewrite IH by exact Hp.
    destruct (decide (c = b)) as [->|Hne].
    + now rewrite bool_decide_eq_true_2.
    + rewrite bool_decide_eq_false_2; [reflexivity|congruence].
Qed.

(** [%] may match nothing, or one more character. *)
Lemma like_percent_here p s : like p s = true -> like (String "%" p) s = true.
Proof. destruct s; simpl; intros ->; reflexivity. Qed.

Lemma like_percent_skip p a s :
  like (String "%" p) s = true -> like (String "%" p) (String a s) = true.
Proof. simpl. intros ->. apply orb_true_r. Qed.

(** A pattern without a backslash, followed by [%], matches itself. *)
Lemma like_self p : no_escape p = true -> like (p +:+ "%") p = true.
Proof.
  induction p as [|c p IH]; intros Hp; [reflexivity|].
  simpl in Hp. apply andb_true_iff in Hp as [Hc Hp]. apply negb_true_iff in Hc.
  change (String c p +:+ "%") with (String c (p +:+ "%")).
  destruct (decide (c = "%"%char)) as [->|Hpc].
  - apply like_percent_skip, like_percent_here. now apply IH.
  - cbn [like]. rewrite Hc. rewrite (bool_decide_eq_false_2 _ Hpc).
    destruct (bool_decide (c = "_"%char)); [now apply IH|].
    rewrite bool_decide_eq_true_2 by reflexivity. now apply IH.
Qed.

Lemma count_orders_like_zero pat d o :
  count_orders_like pat d = 0 -> o ∈ orders d -> like pat (o_order_number o) = false.
Proof.
  unfold count_orders_like. intros H Ho.
  destruct (like pat (o_order_number o)) eqn:Hl; [|reflexivity].
  assert (Hin : o ∈ filter (fun o => like pat (o_order_number o) = true) (orders d)).
  { apply list_elem_of_filter. split; assumption. }
  destruct (filter _ (orders d)); [now apply elem_of_nil in Hin|]. simpl in H. lia.
Qed.

Lemma count_orders_literal prefix d :
  literal prefix = true ->
  count_orders_like (prefix +:+ "%") d = count_orders_with_prefix prefix d.
Proof.
  intros Hp. unfold count_orders_like, count_orders_with_prefix. do 2 f_equal.
  apply list_filter_iff. intros o. now rewrite like_literal_prefix.
Qed.

End Like.

(** ** Orders *)

Lemma falsy_false x : falsy x = false -> exists i, x = Some i /\ i <> 0.
Proof.
  destruct x as [i|]; simpl; [|discriminate].
  intros H. exists i. split; [reflexivity|]. now apply Z.eqb_neq.
Qed.

Lemma dict_get_Some {A} (d : gmap string A) v x :
  dict_get d v = Some x -> exists s, v = VStr s /\ d !! s = Some x.
Proof. destruct v; simpl; try discriminate. eauto. Qed.

(** No code of a location table is the fallback UNK. *)
Lemma location_code_not_UNK v code : location_code v code -> code <> "UNK".
Proof.
  intros [gym Hin] ->. apply list_elem_of_In in Hin.
  destruct v; simpl in Hin; intuition congruence.
Qed.

(** A group whose brand or gym has no identifier is passed over. *)
Lemma order_step_skip v sid brand_ids location_ids acc brand gym ship_month c :
  falsy (dict_get brand_ids brand) || falsy (dict_get location_ids gym) = true ->
  order_step v sid brand_ids location_ids acc (brand, gym, ship_month) c = (Ok acc, c).
Proof. unfold order_step. destruct acc as [om n]. now intros ->. Qed.

(** A group that survives and whose ship period resolves gets one order. *)
Lemma order_step_insert v sid brand_ids db_locations om n brand gym ship_month date token c :
  falsy (dict_get brand_ids brand)
  || falsy (dict_get (map_ids (LOCATION_MAP v) db_locations) gym) = false ->
  ship_period v ship_month = Ok (date, token) ->
  exists b g code bid lid,
    brand = VStr b /\ gym = VStr g
    /\ dict_of (LOCATION_MAP v) !! g = Some code /\ location_code v code
    /\ brand_ids !! b = Some bid
    /\ map_ids (LOCATION_MAP v) db_locations !! g = Some lid
    /\ order_step v sid brand_ids (map_ids (LOCATION_MAP v) db_locations) (om, n)
         (brand, gym, ship_month) c
       = (Ok (((brand, gym, ship_month), fresh_id (map o_id (orders (working c)))) :: om, S n),
          mk_connection (committed c)
            (set_orders
               (orders (working c)
                ++ [new_order v sid bid lid date token b code (working c)])
               (working c))).
Proof.
  intros Hf Hs. pose proof Hf as Hf'. apply orb_false_iff in Hf' as [Hb Hl].
  apply falsy_false in Hb as (bid & Hb & _). apply falsy_false in Hl as (lid & Hl & _).
  destruct (dict_get_Some _ _ _ Hb) as (b & -> & Hb').
  destruct (dict_get_Some _ _ _ Hl) as (g & -> & Hl').
  destruct (map_ids_elem _ _ _ _ Hl') as (name & Hin & _).
  destruct (dict_of_elem _ _ _ Hin) as (code & Hcode & Hin').
  exists b, g, code, bid, lid. repeat split; try assumption; [now exists g|].
  unfold order_step. rewrite Hf, Hb, Hl.
  cbv [mbind M_bind mret M_ret lift]. rewrite Hs.
  cbn [slice result_bind dict_get]. rewrite Hcode.
  cbv [query execute]. cbn [default fst snd working committed].
  reflexivity.
Qed.

(** C6 (as amended).  For a group that survives brand and location
    resolution and whose ship period resolves, the loop body inserts one
    order.  Its number is the token, the year suffix, the first three
    characters of the brand label upper-cased and the code of the gym in
    the location table, joined as TOKEN YY - BRAND - CODE; when the count
    of order numbers matching the pattern made of this number and [%] is
    positive, [-] and the count plus one are appended.  The count is that
    of the order numbers starting with the number when the number holds
    none of [%], [_] and backslash; with a zero count and no backslash in
    it the number is that of no order yet.  Nothing makes a number with a
    counter differ from the numbers there are. *)
Theorem order_number_synthesis (v : script) (sid : Z) (brand_ids db_locations : gmap string Z)
    (om : list (key * Z)) (n : nat) (brand gym ship_month : value)
    (date token : string) (c : connection) :
  falsy (dict_get brand_ids brand)
  || falsy (dict_get (map_ids (LOCATION_MAP v) db_locations) gym) = false ->
  ship_period v ship_month = Ok (date, token) ->
  exists b g code bid lid i,
    brand = VStr b /\ gym = VStr g /\ dict_of (LOCATION_MAP v) !! g = Some code
    /\ let number := token +:+ YEAR_SUFFIX v +:+ "-" +:+ upper (slice_to 3 b) +:+ "-" +:+ code in
       let count := count_orders_like (number +:+ "%") (working c) in
       let run := order_step v sid brand_ids (map_ids (LOCATION_MAP v) db_locations)
                    (om, n) (brand, gym, ship_month) c in
       run.1 = Ok (((brand, gym, ship_month), i) :: om, S n)
       /\ orders (working run.2)
          = (orders (working c)
             ++ [mk_order i
                   (if 0 <? count then number +:+ "-" +:+ str_of_int (count + 1) else number)
                   (Some sid) bid lid date "preseason" "draft" 1 None])%list
       /\ (literal number = true -> count = count_orders_with_prefix number (working c))
       /\ (no_escape number = true -> count = 0 ->
           forall o, o ∈ orders (working c) -> o_order_number o <> number).
Proof.
  intros Hf Hs.
  destruct (order_step_insert v sid brand_ids db_locations om n brand gym ship_month
              date token c Hf Hs) as (b & g & code & bid & lid & -> & -> & Hcode & _ & _ & _ & Hrun).
  exists b, g, code, bid, lid, (fresh_id (map o_id (orders (working c)))).
  repeat split; try assumption.
  - cbv zeta. now rewrite Hrun.
  - cbv zeta. now rewrite Hrun.
  - apply count_orders_literal.
  - intros Hesc Hcount o Ho Heq.
    pose proof (count_orders_like_zero _ _ o Hcount Ho) as Hl.
    rewrite Heq, like_self in Hl by exact Hesc. discriminate.
Qed.

Lemma order_number_synthesis_witness :
  exists b g code bid lid i,
    VStr "Prana" = VStr b /\ VStr "SLC" = VStr g /\ dict_of (LOCATION_MAP F25) !! g = Some code
    /\ let number := "AUG" +:+ YEAR_SUFFIX F25 +:+ "-" +:+ upper (slice_to 3 b) +:+ "-" +:+ code in
       let count := count_orders_like (number +:+ "%") (working (connect empty_db)) in
       let run := order_step F25 1 (dict_of [("Prana", 1)])
                    (map_ids (LOCATION_MAP F25) (dict_of [("SLC", 1)]))
                    ([], 0%nat) (VStr "Prana", VStr "SLC", VStr "Aug") (connect empty_db) in
       run.1 = Ok (((VStr "Prana", VStr "SLC", VStr "Aug"), i) :: [], 1%nat)
       /\ orders (working run.2)
          = (orders (working (connect empty_db))
             ++ [mk_order i
                   (if 0 <? count then number +:+ "-" +:+ str_of_int (count + 1) else number)
                   (Some 1) bid lid "2025-08-01" "preseason" "draft" 1 None])%list
       /\ (literal number = true ->
           count = count_orders_with_prefix number (working (connect empty_db)))
       /\ (no_escape number = true -> count = 0 ->
           forall o, o ∈ orders (working (connect empty_db)) -> o_order_number o <> number).
Proof.
  apply (order_number_synthesis F25 1 (dict_of [("Prana", 1)]) (dict_of [("SLC", 1)])
           [] 0%nat (VStr "Prana") (VStr "SLC") (VStr "Aug") "2025-08-01" "AUG"
           (connect empty_db)); vm_compute; reflexivity.
Defined.

(** C6 (as stated) fails: with one order numbered AUG25-PRA-SLC-2 in the
    table, the count for the prefix AUG25-PRA-SLC is one, and the order
    made for the group (Prana, SLC, Aug) is numbered AUG25-PRA-SLC-2 as
    well. *)
Lemma suffixed_order_number_collides :
  let run := main F25 [prana_row] db_with_suffixed_order in
  map o_order_number (orders db_with_suffixed_order) = ["AUG25-PRA-SLC-2"]
  /\ (exists s, run.1 = Ok s /\ orders_created s = 1%nat)
  /\ map o_order_number (orders run.2) = ["AUG25-PRA-SLC-2"; "AUG25-PRA-SLC-2"].
Proof. vm_compute. split; [reflexivity|]. split; [eexists; split; reflexivity|reflexivity]. Qed.

(** A group that survives and whose ship period does not resolve stops
    the loop, and the run. *)
Lemma order_step_raise v sid brand_ids location_ids acc brand gym ship_month e c :
  falsy (dict_get brand_ids brand) || falsy (dict_get location_ids gym) = false ->
  ship_period v ship_month = Raise e ->
  order_step v sid brand_ids location_ids acc (brand, gym, ship_month) c = (Raise e, c).
Proof.
  intros Hf Hs. unfold order_step. destruct acc as [om n]. rewrite Hf.
  cbv [mbind M_bind lift]. now rewrite Hs.
Qed.

Lemma db_eta d :
  mk_db (seasons d) (brands d) (locations d) (products d) (orders d) (order_items d) = d.
Proof. now destruct d. Qed.

Lemma orders_added_refl c : orders_added c c [].
Proof.
  split; [reflexivity|]. unfold set_orders. rewrite app_nil_r. symmetry. apply db_eta.
Qed.

Lemma orders_added_trans c1 c2 c3 new1 new2 :
  orders_added c1 c2 new1 -> orders_added c2 c3 new2 -> orders_added c1 c3 (new1 ++ new2).
Proof.
  intros [Hc1 Hw1] [Hc2 Hw2]. split; [congruence|].
  rewrite Hw2, Hw1. unfold set_orders; simpl. now rewrite app_assoc.
Qed.

Lemma new_order_of_group v sid bid lid date token b g code ship_month d :
  dict_of (LOCATION_MAP v) !! g = Some code -> location_code v code ->
  ship_period v ship_month = Ok (date, token) ->
  order_of_group v (VStr b, VStr g, ship_month) (new_order v sid bid lid date token b code d).
Proof.
  intros Hcode Hloc Hs.
  exists b, g, code, date, token,
    (count_orders_like (order_number_of v token (upper (slice_to 3 b)) code +:+ "%") d).
  repeat split; assumption.
Qed.

Lemma made_for_cons v sid k ks new :
  Forall (made_for v sid ks) new -> Forall (made_for v sid (k :: ks)) new.
Proof.
  intros Hall. eapply Forall_impl; [exact Hall|].
  intros o ((k' & Hk' & Ho) & Hrest). split; [|exact Hrest].
  exists k'. split; [apply elem_of_cons; now right|exact Ho].
Qed.

(** The orders loop only appends to the orders table, and each order it
    appends is the order of one of the groups; it raises only when the
    ship period of a surviving group does. *)
Lemma create_orders_loop v sid brand_ids db_locations ks acc c :
  wp (for_each (order_step v sid brand_ids (map_ids (LOCATION_MAP v) db_locations)) acc ks)
     (fun acc' c' => exists new, orders_added c c' new /\ Forall (made_for v sid ks) new
                                 /\ acc'.2 = (acc.2 + length new)%nat)
     (fun e c' => (exists new, orders_added c c' new /\ Forall (made_for v sid ks) new)
                  /\ exists k, k ∈ ks /\ ship_period v k.2 = Raise e)
     c.
Proof.
  revert acc c.
  induction ks as [|[[brand gym] ship_month] ks IH]; intros [om n] c; cbn [for_each].
  - apply wp_ret. exists []. split; [apply orders_added_refl|]. split; [constructor|simpl; lia].
  - apply wp_bind.
    destruct (falsy (dict_get brand_ids brand)
              || falsy (dict_get (map_ids (LOCATION_MAP v) db_locations) gym)) eqn:Hf.
    + unfold wp at 1. rewrite order_step_skip by exact Hf.
      eapply wp_mono; [| |apply IH].
      * intros acc' c' (new & Hadd & Hall & Hn). exists new.
        split; [exact Hadd|]. split; [now apply made_for_cons|exact Hn].
      * intros e c' [(new & Hadd & Hall) (k & Hk & He)]. split.
        -- exists new. split; [exact Hadd|now apply made_for_cons].
        -- exists k. split; [apply elem_of_cons; now right|exact He].
    + destruct (ship_period v ship_month) as [[date token]|e] eqn:Hs.
      * destruct (order_step_insert v sid brand_ids db_locations om n brand gym ship_month
                    date token c Hf Hs)
          as (b & g & code & bid & lid & -> & -> & Hcode & Hloc & _ & _ & Hrun).
        unfold wp at 1. rewrite Hrun.
        set (o := new_order v sid bid lid date token b code (working c)).
        set (c1 := mk_connection _ _).
        assert (Hadd1 : orders_added c c1 [o]) by (split; reflexivity).
        assert (Ho : made_for v sid ((VStr b, VStr g, ship_month) :: ks) o).
        { split; [|split; reflexivity]. exists (VStr b, VStr g, ship_month).
          split; [apply elem_of_cons; now left|now apply new_order_of_group]. }
        eapply wp_mono; [| |apply IH].
        -- intros acc' c' (new & Hadd & Hall & Hn). exists (o :: new).
           split; [apply (orders_added_trans c c1 c' [o] new); assumption|].
           split; [constructor; [exact Ho|now apply made_for_cons]|].
           simpl in *. lia.
        -- intros e c' [(new & Hadd & Hall) (k & Hk & He)]. split.
           ++ exists (o :: new).
              split; [apply (orders_added_trans c c1 c' [o] new); assumption|].
              constructor; [exact Ho|now apply made_for_cons].
           ++ exists k. split; [apply elem_of_cons; now right|exact He].
      * unfold wp at 1. rewrite (order_step_raise _ _ _ _ _ _ _ _ e) by assumption.
        split.
        -- exists []. split; [apply orders_added_refl|constructor].
        -- exists (brand, gym, ship_month). split; [apply elem_of_cons; now left|exact Hs].
Qed.

(** C10.  A surviving group has its gym in the location table, so the
    lookup of the location code never takes its fallback; and every order
    the orders loop inserts, whether the loop ends or raises, is numbered
    with the code that the table gives for the gym of its group, which is
    not UNK. *)
Theorem location_code_never_fallback (v : script) (sid : Z)
    (brand_ids db_locations : gmap string Z) (df : DataFrame) (c : connection) :
  let location_ids := map_ids (LOCATION_MAP v) db_locations in
  let canonical := fun c' =>
    exists new, orders_added c c' new
      /\ Forall (fun o => exists k g code token brand_code count,
                   k ∈ groupby df /\ k.1.2 = VStr g
                   /\ dict_of (LOCATION_MAP v) !! g = Some code
                   /\ code <> "UNK"
                   /\ o_order_number o
                      = disambiguate (order_number_of v token brand_code code) count) new in
  (forall brand gym,
      falsy (dict_get brand_ids brand) || falsy (dict_get location_ids gym) = false ->
      exists code, dict_get (dict_of (LOCATION_MAP v)) gym = Some code
                   /\ default "UNK" (dict_get (dict_of (LOCATION_MAP v)) gym) = code
                   /\ code <> "UNK")
  /\ wp (create_orders v sid brand_ids location_ids df)
        (fun _ c' => canonical c') (fun _ c' => canonical c') c.
Proof.
  intros location_ids canonical. split.
  - intros brand gym Hf. apply orb_false_iff in Hf as [_ Hl].
    apply falsy_false in Hl as (lid & Hl & _).
    destruct (dict_get_Some _ _ _ Hl) as (g & -> & Hl').
    destruct (map_ids_elem _ _ _ _ Hl') as (name & Hin & _).
    destruct (dict_of_elem _ _ _ Hin) as (code & Hcode & Hin').
    exists code. simpl. rewrite Hcode. repeat split.
    apply (location_code_not_UNK v). now exists g.
  - assert (Hcan : forall new, Forall (made_for v sid (groupby df)) new ->
              Forall (fun o => exists k g code token brand_code count,
                   k ∈ groupby df /\ k.1.2 = VStr g
                   /\ dict_of (LOCATION_MAP v) !! g = Some code
                   /\ code <> "UNK"
                   /\ o_order_number o
                      = disambiguate (order_number_of v token brand_code code) count) new).
    { intros new Hall. eapply Forall_impl; [exact Hall|].
      intros o ((k & Hk & (b & g & code & date & token & count
                           & Hb & Hg & Hcode & Hloc & Hs & Hd & Hnum)) & _).
      exists k, g, code, token, (upper (slice_to 3 b)), count.
      repeat split; try assumption. now apply (location_code_not_UNK v). }
    unfold create_orders.
    eapply wp_mono; [| |apply create_orders_loop].
    + intros acc' c' (new & Hadd & Hall & _). exists new. split; [exact Hadd|now apply Hcan].
    + intros e c' [(new & Hadd & Hall) _]. exists new. split; [exact Hadd|now apply Hcan].
Qed.

(** ** Order items *)

Lemma item_step_skip pids om a s r c :
  falsy (pids !! upc_key r) || falsy (order_map_get om (key_of r)) = true ->
  item_step pids om (a, s) r c = (Ok (a, S s), c).
Proof. unfold item_step, upc_key. cbv zeta. now intros ->. Qed.

Lemma item_step_insert pids om a s r c pid oid q u :
  pids !! upc_key r = Some pid -> pid <> 0 ->
  order_map_get om (key_of r) = Some oid -> oid <> 0 ->
  int (Quantity r) = Ok q -> unit_cost_of r = Ok u ->
  item_step pids om (a, s) r c
  = (Ok (S a, s),
     mk_connection (committed c)
       (set_order_items
          (order_items (working c)
           ++ [mk_order_item oid pid q u (Some (fmul u (float_of_int q)))])
          (working c))).
Proof.
  unfold item_step, upc_key. intros Hpid Hp Hoid Ho Hq Hu. cbv zeta.
  rewrite Hpid, Hoid. cbn [falsy default].
  apply Z.eqb_neq in Hp, Ho. rewrite Hp, Ho. cbn [orb].
  cbv [mbind M_bind mret M_ret lift]. rewrite Hq, Hu. reflexivity.
Qed.

Lemma item_step_raise pids om a s r c e :
  falsy (pids !! upc_key r) || falsy (order_map_get om (key_of r)) = false ->
  result_bind (int (Quantity r)) (fun _ => unit_cost_of r) = Raise e ->
  item_step pids om (a, s) r c = (Raise e, c).
Proof.
  unfold item_step, upc_key. cbv zeta. intros -> He.
  cbv [mbind M_bind mret M_ret lift].
  destruct (int (Quantity r)) as [q|e1]; simpl in He; [|congruence].
  destruct (unit_cost_of r) as [u|e2]; congruence.
Qed.

(** The unit cost is zero when the sheet has no Wholesale column and when
    the value is zero or the empty text; else it is the value converted
    to a float, and only a text that is no numeric literal fails to
    convert. *)
Lemma unit_cost_of_missing r : Wholesale r = None -> unit_cost_of r = Ok fzero.
Proof. unfold unit_cost_of. now intros ->. Qed.

Lemma unit_cost_of_false r w :
  Wholesale r = Some w -> truthy w = false -> unit_cost_of r = Ok fzero.
Proof. unfold unit_cost_of, or_else. intros -> Hw. simpl. now rewrite Hw. Qed.

Lemma unit_cost_of_true r w :
  Wholesale r = Some w -> truthy w = true -> unit_cost_of r = float w.
Proof. unfold unit_cost_of, or_else. intros -> Hw. simpl. now rewrite Hw. Qed.

Lemma unit_cost_of_Raise r e :
  unit_cost_of r = Raise e ->
  exists t, Wholesale r = Some (VStr t) /\ float_of_str t = Raise e.
Proof.
  unfold unit_cost_of, or_else. destruct (Wholesale r) as [w|]; simpl; [|discriminate].
  destruct (truthy w); [|discriminate].
  destruct w as [n|x|t]; simpl; try discriminate. eauto.
Qed.

(** C4 (as amended).  For a cleaned row whose product and order both
    resolved, and whose Wholesale cell is not empty: when the cost
    converts, one item is inserted with the row's quantity, the unit cost
    and the line total unit cost times quantity, where the unit cost is 0
    if the sheet has no Wholesale column or the value is zero or the empty
    text, and the value converted to a float otherwise; when the cost does
    not convert, which only a text that is no numeric literal does, the
    item step raises and inserts nothing. *)
Theorem item_line_total (product_ids : gmap string Z) (order_map : list (key * Z))
    (a s : nat) (r : row) (c : connection) (pid oid q : Z) :
  product_ids !! upc_key r = Some pid -> pid <> 0 ->
  order_map_get order_map (key_of r) = Some oid -> oid <> 0 ->
  Quantity r = VInt q ->
  (forall w, Wholesale r = Some w -> isna w = false) ->
  match unit_cost_of r with
  | Ok u =>
      item_step product_ids order_map (a, s) r c
      = (Ok (S a, s),
         mk_connection (committed c)
           (set_order_items
              (order_items (working c)
               ++ [mk_order_item oid pid q u (Some (fmul u (float_of_int q)))])
              (working c)))
      /\ (Wholesale r = None -> u = fzero)
      /\ (forall w, Wholesale r = Some w -> truthy w = false -> u = fzero)
      /\ (forall w, Wholesale r = Some w -> truthy w = true -> float w = Ok u)
  | Raise e =>
      item_step product_ids order_map (a, s) r c = (Raise e, c)
      /\ exists t, Wholesale r = Some (VStr t) /\ float_of_str t = Raise e
  end.
Proof.
  intros Hpid Hp Hoid Ho Hq _.
  assert (Hint : int (Quantity r) = Ok q) by now rewrite Hq.
  destruct (unit_cost_of r) as [u|e] eqn:Hu.
  - split; [now apply item_step_insert|]. split; [|split].
    + intros Hw. rewrite (unit_cost_of_missing r Hw) in Hu. congruence.
    + intros w Hw Ht. rewrite (unit_cost_of_false r w Hw Ht) in Hu. congruence.
    + intros w Hw Ht. now rewrite <- (unit_cost_of_true r w Hw Ht).
  - split; [|now apply unit_cost_of_Raise].
    apply item_step_raise.
    + rewrite Hpid, Hoid. simpl. apply Z.eqb_neq in Hp, Ho. now rewrite Hp, Ho.
    + now rewrite Hint.
Qed.

Lemma item_line_total_witness :
  item_step scenario_product_ids scenario_order_map (0%nat, 0%nat) prana_row
            (connect empty_db)
  = (Ok (1%nat, 0%nat),
     mk_connection empty_db
       (set_order_items
          [mk_order_item 1 1 5 (ffin (10 # 1))
             (Some (fmul (ffin (10 # 1)) (float_of_int 5)))]
          empty_db)).
Proof.
  refine (proj1 (item_line_total scenario_product_ids scenario_order_map 0 0 prana_row
                   (connect empty_db) 1 1 5 _ _ _ _ _ _)).
  - vm_compute. reflexivity.
  - lia.
  - vm_compute. reflexivity.
  - lia.
  - reflexivity.
  - intros w [= <-]. reflexivity.
Defined.

(** C4 (as stated) fails: the wholesale text abc does not default to 0;
    the conversion raises at the item step, with the product and the
    order of the row resolved, and the run of the scenario fails. *)
Lemma non_numeric_wholesale_raises :
  item_step scenario_product_ids scenario_order_map (0%nat, 0%nat) text_cost_row
            (connect empty_db)
  = (Raise ValueError, connect empty_db)
  /\ main F25 [text_cost_row] empty_db = (Raise ValueError, empty_db).
Proof. vm_compute. split; reflexivity. Qed.

Lemma db_eta_items d : set_order_items (order_items d ++ []) d = d.
Proof. unfold set_order_items. rewrite app_nil_r. apply db_eta. Qed.

Lemma items_appended_refl c : items_appended c c [].
Proof. split; [reflexivity|]. symmetry. apply db_eta_items. Qed.

Lemma items_appended_trans c1 c2 c3 new1 new2 :
  items_appended c1 c2 new1 -> items_appended c2 c3 new2 ->
  items_appended c1 c3 (new1 ++ new2).
Proof.
  intros [Hc1 Hw1] [Hc2 Hw2]. split; [congruence|].
  rewrite Hw2, Hw1. unfold set_order_items; simpl. now rewrite app_assoc.
Qed.

(** The items loop: every row either adds one item or one to the skipped
    counter; the loop raises only when a conversion of a resolved row
    does. *)
Lemma add_order_items_loop pids om df a s c :
  wp (for_each (item_step pids om) (a, s) df)
     (fun acc' c' =>
        exists new,
          items_appended c c' new
          /\ Forall2 (item_of_row pids om) (filter (fun r => unresolved pids om r = false) df) new
          /\ acc'.1 = (a + length new)%nat
          /\ acc'.2 = (s + length (filter (fun r => unresolved pids om r = true) df))%nat)
     (fun e c' =>
        exists r, r ∈ df /\ unresolved pids om r = false
                  /\ result_bind (int (Quantity r)) (fun _ => unit_cost_of r) = Raise e)
     c.
Proof.
  revert a s c. induction df as [|r df IH]; intros a s c; cbn [for_each].
  - apply wp_ret. exists []. split; [apply items_appended_refl|].
    split; [constructor|]. simpl. split; lia.
  - apply wp_bind. destruct (unresolved pids om r) eqn:Hun.
    + unfold wp at 1. rewrite item_step_skip by exact Hun.
      eapply wp_mono; [| |apply IH].
      * intros [a' s'] c' (new & Happ & Hall & Ha & Hs). exists new.
        rewrite filter_cons_False by (rewrite Hun; discriminate).
        rewrite filter_cons_True by exact Hun.
        repeat split; try apply Happ; try assumption. simpl in *. lia.
      * intros e c' (r' & Hin & Hr'). exists r'. split; [apply elem_of_cons; now right|exact Hr'].
    + destruct (result_bind (int (Quantity r)) (fun _ => unit_cost_of r)) as [u|e] eqn:Hconv.
      * destruct (int (Quantity r)) as [q|] eqn:Hq; simpl in Hconv; [|discriminate].
        pose proof Hun as Hun'. unfold unresolved in Hun'.
        apply orb_false_iff in Hun' as [Hp Ho].
        apply falsy_false in Hp as (pid & Hpid & Hp). apply falsy_false in Ho as (oid & Hoid & Ho).
        unfold wp at 1.
        rewrite (item_step_insert pids om a s r c pid oid q u) by assumption.
        set (it := mk_order_item oid pid q u (Some (fmul u (float_of_int q)))).
        set (c1 := mk_connection _ _).
        assert (Happ1 : items_appended c c1 [it]) by (split; reflexivity).
        assert (Hit : item_of_row pids om r it).
        { exists q, u. rewrite Hpid, Hoid. repeat split; assumption. }
        eapply wp_mono; [| |apply IH].
        -- intros [a' s'] c' (new & Happ & Hall & Ha & Hs). exists (it :: new).
           rewrite filter_cons_True by exact Hun.
           rewrite filter_cons_False by (rewrite Hun; discriminate).
           split; [apply (items_appended_trans c c1 c' [it] new); assumption|].
           split; [now constructor|]. simpl in *. split; lia.
        -- intros e c' (r' & Hin & Hr'). exists r'.
           split; [apply elem_of_cons; now right|exact Hr'].
      * unfold wp at 1. rewrite (item_step_raise pids om a s r c e) by assumption.
        exists r. split; [apply elem_of_cons; now left|]. split; assumption.
Qed.

(** The rows that are skipped and the rows that are not add up. *)
(** Where the loop stands when it raises: at a row with a product and an
    order whose quantity or cost does not convert, the items of the rows
    before it inserted, and nothing for the row itself. *)
Lemma add_order_items_loop_raise pids om df a s c :
  wp (for_each (item_step pids om) (a, s) df)
     (fun _ _ => True)
     (fun e c' =>
        exists l1 r l2 new,
          df = l1 ++ r :: l2
          /\ unresolved pids om r = false
          /\ result_bind (int (Quantity r)) (fun _ => unit_cost_of r) = Raise e
          /\ items_appended c c' new
          /\ Forall2 (item_of_row pids om)
                     (filter (fun r => unresolved pids om r = false) l1) new)
     c.
Proof.
  revert a s c. induction df as [|r df IH]; intros a s c; cbn [for_each].
  - apply wp_ret. exact I.
  - apply wp_bind. destruct (unresolved pids om r) eqn:Hun.
    + unfold wp at 1. rewrite item_step_skip by exact Hun.
      eapply wp_mono; [| |apply IH]; [auto|].
      intros e c' (l1 & r' & l2 & new & -> & Hun' & Hraise & Happ & Hall).
      exists (r :: l1), r', l2, new. split; [reflexivity|].
      rewrite filter_cons_False by (rewrite Hun; discriminate).
      repeat split; try apply Happ; assumption.
    + destruct (result_bind (int (Quantity r)) (fun _ => unit_cost_of r)) as [u|e] eqn:Hconv.
      * destruct (int (Quantity r)) as [q|] eqn:Hq; simpl in Hconv; [|discriminate].
        pose proof Hun as Hun'. unfold unresolved in Hun'.
        apply orb_false_iff in Hun' as [Hp Ho].
        apply falsy_false in Hp as (pid & Hpid & Hp). apply falsy_false in Ho as (oid & Hoid & Ho).
        unfold wp at 1.
        rewrite (item_step_insert pids om a s r c pid oid q u) by assumption.
        set (it := mk_order_item oid pid q u (Some (fmul u (float_of_int q)))).
        set (c1 := mk_connection _ _).
        assert (Happ1 : items_appended c c1 [it]) by (split; reflexivity).
        assert (Hit : item_of_row pids om r it).
        { exists q, u. rewrite Hpid, Hoid. repeat split; assumption. }
        eapply wp_mono; [| |apply IH]; [auto|].
        intros e c' (l1 & r' & l2 & new & -> & Hun' & Hraise & Happ & Hall).
        exists (r :: l1), r', l2, (it :: new). split; [reflexivity|].
        rewrite filter_cons_True by exact Hun.
        split; [exact Hun'|]. split; [exact Hraise|].
        split; [apply (items_appended_trans c c1 c' [it] new); assumption|].
        now constructor.
      * unfold wp at 1. rewrite (item_step_raise pids om a s r c e) by assumption.
        exists [], r, df, []. split; [reflexivity|]. split; [exact Hun|].
        split; [exact Hconv|]. split; [apply items_appended_refl|constructor].
Qed.

Lemma length_filter_bool {A} (f : A -> bool) (l : list A) :
  (length (filter (fun x => f x = false) l) + length (filter (fun x => f x = true) l)
   = length l)%nat.
Proof.
  induction l as [|x l IH]; [reflexivity|].
  destruct (f x) eqn:Hx.
  - rewrite filter_cons_False by (rewrite Hx; discriminate).
    rewrite filter_cons_True by exact Hx. simpl. lia.
  - rewrite filter_cons_True by exact Hx.
    rewrite filter_cons_False by (rewrite Hx; discriminate). simpl. lia.
Qed.

(** The two outcomes of the items stage. *)
Lemma add_order_items_Ok pids om df c ia isk c' :
  add_order_items pids om df c = (Ok (ia, isk), c') ->
  exists new,
    items_appended c c' new
    /\ Forall2 (item_of_row pids om) (filter (fun r => unresolved pids om r = false) df) new
    /\ ia = length new
    /\ isk = length (filter (fun r => unresolved pids om r = true) df).
Proof.
  intros Hrun. unfold add_order_items in Hrun.
  destruct (wp_Ok _ _ _ _ _ _ (add_order_items_loop pids om df 0 0 c) Hrun)
    as (new & Happ & Hall & Ha & Hs).
  exists new. simpl in Ha, Hs. repeat split; try apply Happ; assumption.
Qed.

Lemma add_order_items_Raise pids om df c e c' :
  add_order_items pids om df c = (Raise e, c') ->
  exists r, r ∈ df /\ unresolved pids om r = false
            /\ result_bind (int (Quantity r)) (fun _ => unit_cost_of r) = Raise e.
Proof.
  intros Hrun. unfold add_order_items in Hrun.
  exact (wp_Raise _ _ _ _ _ _ (add_order_items_loop pids om df 0 0 c) Hrun).
Qed.

(** C9 (as amended).  The order-item stage, when it returns, has counted
    every row once: the rows without a product or an order under
    [items_skipped], and every other row under [items_added] with
    exactly one item inserted for it, in row order; so the two counters
    add up to the number of rows.  The stage returns unless a conversion
    of a row with a product and an order raises.  Then it raises and
    reports no counter: the items of the rows before that row have been
    inserted, and the row itself is neither inserted nor skipped. *)
Theorem items_added_plus_skipped (product_ids : gmap string Z)
    (order_map : list (key * Z)) (df : DataFrame) (c : connection) :
  wp (add_order_items product_ids order_map df)
     (fun counters c' =>
        let '(items_added, items_skipped) := counters in
        (items_added + items_skipped = length df)%nat
        /\ items_skipped
           = length (filter (fun r => unresolved product_ids order_map r = true) df)
        /\ exists new,
             items_appended c c' new /\ length new = items_added
             /\ Forall2 (item_of_row product_ids order_map)
                        (filter (fun r => unresolved product_ids order_map r = false) df) new)
     (fun e c' =>
        exists before r after new,
          df = before ++ r :: after
          /\ unresolved product_ids order_map r = false
          /\ result_bind (int (Quantity r)) (fun _ => unit_cost_of r) = Raise e
          /\ items_appended c c' new
          /\ Forall2 (item_of_row product_ids order_map)
                     (filter (fun r => unresolved product_ids order_map r = false) before)
                     new)
     c.
Proof.
  unfold add_order_items.
  eapply wp_mono;
    [| |apply (wp_conj _ _ _ _ _ _ (add_order_items_loop product_ids order_map df 0 0 c)
                 (add_order_items_loop_raise product_ids order_map df 0 0 c))].
  - intros [items_added items_skipped] c' [(new & Happ & Hall & Ha & Hs) _].
    simpl in Ha, Hs.
    pose proof (Forall2_length _ _ _ Hall) as Hlen.
    pose proof (length_filter_bool (unresolved product_ids order_map) df) as Hsum.
    split; [rewrite Ha, Hs, <- Hlen; exact Hsum|]. split; [exact Hs|].
    exists new. split; [exact Happ|]. split; [now symmetry|exact Hall].
  - intros e c' [_ H]. exact H.
Qed.

(** Not every run counts every row.  Of two rows with a product and an
    order, the second with a text that is no number for a cost, the
    stage inserts the item of the first and raises at the second, which
    is then neither inserted nor counted as skipped. *)
Lemma raising_row_is_neither_added_nor_skipped :
  let run := add_order_items scenario_product_ids scenario_order_map
               [prana_row; text_cost_row] (connect empty_db) in
  unresolved scenario_product_ids scenario_order_map text_cost_row = false
  /\ run.1 = Raise ValueError
  /\ length (order_items (working run.2)) = 1%nat.
Proof. vm_compute. repeat split. Qed.

(** The scenario, and a sheet of three rows of which one has no gym in
    the location table. *)
Example items_of_scenario :
  (add_order_items scenario_product_ids scenario_order_map [prana_row; prana_row]
                   (connect empty_db)).1
  = Ok (2%nat, 0%nat).
Proof. vm_compute. reflexivity. Qed.

(** ** Order totals *)

Section Totals.

(** Addition of rationals is associative and has 0 for a right unit as
    an equality of fractions, not only up to their value. *)
Lemma Qplus_assoc_eq (p q r : Q) : Qplus (Qplus p q) r = Qplus p (Qplus q r).
Proof.
  destruct p as [a b], q as [a' b'], r as [a'' b'']. unfold Qplus; simpl.
  f_equal; [|apply eq_sym, Pos.mul_assoc].
  rewrite !Pos2Z.inj_mul. ring.
Qed.

Lemma Qplus_0_r_eq (p : Q) : Qplus p (0 # 1) = p.
Proof.
  destruct p as [a b]. unfold Qplus; simpl.
  f_equal; [|apply Pos.mul_1_r]. ring.
Qed.

Lemma fadd_assoc (x y z : pyfloat) : fadd (fadd x y) z = fadd x (fadd y z).
Proof.
  destruct x as [|[]|p], y as [|[]|q], z as [|[]|r]; simpl; try reflexivity.
  f_equal. apply Qplus_assoc_eq.
Qed.

Lemma fadd_0_r (x : pyfloat) : fadd x fzero = x.
Proof.
  destruct x as [|[]|p]; simpl; try reflexivity. f_equal. apply Qplus_0_r_eq.
Qed.

(** [SUM] from a running total. *)
Lemma sql_sum_from (a : pyfloat) (xs : list (option pyfloat)) :
  foldl (fun acc x =>
           match x, acc with
           | None, _ => acc
           | Some v, None => Some v
           | Some v, Some a => Some (fadd a v)
           end) (Some a) xs
  = Some (fadd a (sum_floats (omap id xs))).
Proof.
  revert a. induction xs as [|[v|] xs IH]; intros a; simpl.
  - now rewrite fadd_0_r.
  - rewrite IH. now rewrite fadd_assoc.
  - apply IH.
Qed.

(** [COALESCE(SUM(x), 0)] is the sum of the values that are not NULL. *)
Lemma coalesce_sql_sum (xs : list (option pyfloat)) :
  coalesce (sql_sum xs) fzero = sum_floats (omap id xs).
Proof.
  unfold sql_sum. induction xs as [|[v|] xs IH]; simpl.
  - reflexivity.
  - now rewrite sql_sum_from.
  - exact IH.
Qed.

Lemma omap_id_map {A B} (f : A -> option B) (l : list A) :
  omap id (map f l) = omap f l.
Proof.
  induction l as [|x l IH]; simpl; [reflexivity|].
  destruct (f x); simpl; [f_equal|]; exact IH.
Qed.

(** The update leaves the order items as they are. *)
Lemma update_order_totals_items sid d :
  order_items (update_order_totals sid d).2 = order_items d.
Proof. reflexivity. Qed.

Lemma update_order_totals_orders sid d o :
  o ∈ orders (update_order_totals sid d).2 <->
  exists o0, o0 ∈ orders d
    /\ o = if bool_decide (o_season_id o0 = Some sid)
           then set_current_total (Some (sum_of_line_totals (o_id o0) d)) o0
           else o0.
Proof.
  unfold update_order_totals; simpl. rewrite list_elem_of_In, in_map_iff.
  split; intros (o0 & H1 & H2); exists o0.
  - apply list_elem_of_In in H2. split; [exact H2|]. subst o.
    destruct (bool_decide _); [|reflexivity].
    unfold sum_of_line_totals, items_of, line_totals_of.
    now rewrite coalesce_sql_sum, omap_id_map.
  - apply list_elem_of_In in H1. split; [|exact H1]. subst o.
    destruct (bool_decide _); [|reflexivity].
    unfold sum_of_line_totals, items_of, line_totals_of.
    now rewrite coalesce_sql_sum, omap_id_map.
Qed.

End Totals.

(** The total the update stores in an order of the season. *)
Lemma updated_order_total sid d o :
  o ∈ orders (update_order_totals sid d).2 -> o_season_id o = Some sid ->
  o_current_total o = Some (sum_of_line_totals (o_id o) (update_order_totals sid d).2).
Proof.
  intros Ho Hs. apply update_order_totals_orders in Ho as (o0 & Ho0 & ->).
  destruct (bool_decide (o_season_id o0 = Some sid)) eqn:Hb; [reflexivity|].
  apply bool_decide_eq_false in Hb. contradiction.
Qed.

(** C1.  After the totals update, every order of the season has for its
    stored total the sum of the line totals of its items, and the total 0
    when it has no item. *)
Theorem order_total_is_sum_of_line_totals (sid : Z) (d : db) (o : order) :
  let d' := (update_order_totals sid d).2 in
  o ∈ orders d' -> o_season_id o = Some sid ->
  o_current_total o = Some (sum_of_line_totals (o_id o) d')
  /\ (items_of (o_id o) d' = [] -> o_current_total o = Some fzero).
Proof.
  intros d' Ho Hs.
  assert (Htotal : o_current_total o = Some (sum_of_line_totals (o_id o) d'))
    by now apply updated_order_total.
  split; [exact Htotal|].
  intros Hnone. rewrite Htotal. unfold sum_of_line_totals. now rewrite Hnone.
Qed.

Lemma order_total_is_sum_of_line_totals_witness :
  let o := mk_order 1 "AUG25-PRA-SLC" (Some 1) 1 1 "2025-08-01" "preseason" "draft" 1
                    (Some (ffin (125 # 2))) in
  let d' := (update_order_totals 1 db_two_items).2 in
  o_current_total o = Some (sum_of_line_totals (o_id o) d')
  /\ (items_of (o_id o) d' = [] -> o_current_total o = Some fzero).
Proof.
  intros o d'. apply (order_total_is_sum_of_line_totals 1 db_two_items o).
  - vm_compute. constructor.
  - reflexivity.
Defined.

(** The two orders of [db_two_items] after the update: 62.5 and 0. *)
Example totals_of_db_two_items :
  map o_current_total (orders (update_order_totals 1 db_two_items).2)
  = [Some (ffin (125 # 2)); Some (ffin (0 # 1))].
Proof. vm_compute. reflexivity. Qed.

(** ** Commit and rollback *)

Section Rollback.

Lemma keeps_ret {A} (a : A) : keeps_committed (mret a).
Proof. intros c. reflexivity. Qed.

Lemma keeps_lift {A} (r : result A) : keeps_committed (lift r).
Proof. intros c. reflexivity. Qed.

Lemma keeps_execute {A} (stmt : db -> A * db) : keeps_committed (execute stmt).
Proof. intros c. unfold execute. now destruct (stmt (working c)). Qed.

Lemma keeps_query {A} (q : db -> A) : keeps_committed (query q).
Proof. apply keeps_execute. Qed.

Lemma keeps_bind {A B} (m : M A) (k : A -> M B) :
  keeps_committed m -> (forall a, keeps_committed (k a)) -> keeps_committed (m ≫= k).
Proof.
  intros Hm Hk c. cbv [mbind M_bind]. specialize (Hm c).
  destruct (m c) as [[a|e] c1]; simpl in *; [|exact Hm].
  now rewrite Hk.
Qed.

Lemma keeps_for_each {A X} (body : A -> X -> M A) (acc : A) (xs : list X) :
  (forall a x, keeps_committed (body a x)) -> keeps_committed (for_each body acc xs).
Proof.
  intros Hbody. revert acc. induction xs as [|x xs IH]; intros acc; simpl.
  - apply keeps_ret.
  - apply keeps_bind; [apply Hbody|]. intros a. apply IH.
Qed.

Lemma keeps_get_season v : keeps_committed (get_season v).
Proof.
  destruct v; simpl; [apply keeps_execute|].
  apply keeps_bind; [apply keeps_query|].
  intros [i|]; [apply keeps_ret|apply keeps_execute].
Qed.

Lemma keeps_product_step sid existing brand_ids acc r :
  keeps_committed (product_step sid existing brand_ids acc r).
Proof.
  unfold product_step. destruct acc as [pids n].
  destruct (existing !! _); [apply keeps_ret|].
  destruct (falsy _); [apply keeps_ret|].
  apply keeps_bind; [apply keeps_execute|]. intros i. apply keeps_ret.
Qed.

Lemma keeps_process_products sid brand_ids df :
  keeps_committed (process_products sid brand_ids df).
Proof.
  unfold process_products. apply keeps_bind; [apply keeps_query|].
  intros rows. apply keeps_for_each. intros a x. apply keeps_product_step.
Qed.

Lemma keeps_order_step v sid brand_ids location_ids acc k :
  keeps_committed (order_step v sid brand_ids location_ids acc k).
Proof.
  unfold order_step. destruct acc as [om n], k as [[brand gym] ship_month].
  destruct (_ || _); [apply keeps_ret|].
  apply keeps_bind; [apply keeps_lift|]. intros [date token].
  apply keeps_bind; [apply keeps_lift|]. intros brand_code.
  apply keeps_bind; [apply keeps_query|]. intros count.
  apply keeps_bind; [apply keeps_execute|]. intros order_id. apply keeps_ret.
Qed.

Lemma keeps_item_step pids om acc r : keeps_committed (item_step pids om acc r).
Proof.
  unfold item_step. destruct acc as [a s]. cbv zeta.
  destruct (_ || _); [apply keeps_ret|].
  apply keeps_bind; [apply keeps_lift|]. intros quantity.
  apply keeps_bind; [apply keeps_lift|]. intros unit_cost.
  apply keeps_bind; [apply keeps_execute|]. intros _. apply keeps_ret.
Qed.

(** Nothing in the body of the [try] block commits. *)
Lemma keeps_transaction v df : keeps_committed (transaction v df).
Proof.
  unfold transaction.
  apply keeps_bind; [apply keeps_get_season|]. intros sid.
  apply keeps_bind; [apply keeps_query|]. intros brows.
  apply keeps_bind; [apply keeps_query|]. intros lrows.
  apply keeps_bind; [apply keeps_process_products|]. intros [pids np].
  apply keeps_bind.
  { unfold create_orders. apply keeps_for_each. intros a k. apply keeps_order_step. }
  intros [om no].
  apply keeps_bind.
  { unfold add_order_items. apply keeps_for_each. intros a r. apply keeps_item_step. }
  intros [ia isk].
  apply keeps_bind; [apply keeps_execute|]. intros _. apply keeps_ret.
Qed.

(** A run that fails, at whatever point, leaves the database it found. *)
Lemma main_Raise_unchanged v df d e d' : main v df d = (Raise e, d') -> d' = d.
Proof.
  unfold main. destruct (Loader.clean df) as [df1|e1]; [|now intros [= _ <-]].
  pose proof (keeps_transaction v df1 (connect d)) as Hk.
  destruct (transaction v df1 (connect d)) as [[s|e2] c']; [discriminate|].
  intros [= _ <-]. exact Hk.
Qed.

End Rollback.

(** C2.  When the transactional phase raises, with whatever it had
    written to the working copy of the transaction, the rollback of the
    [except] branch discards it: the connection it leaves holds the
    database the run started from, as the committed database and as the
    working copy as well, and the run ends with the same exception and
    with that database. *)
Theorem failed_transaction_is_rolled_back (v : script) (df df' : DataFrame) (d : db)
    (e : exn) (c' : connection) :
  Loader.clean df = Ok df' ->
  transaction v df' (connect d) = (Raise e, c') ->
  committed (rollback c') = d
  /\ working (rollback c') = d
  /\ main v df d = (Raise e, close (rollback c'))
  /\ main v df d = (Raise e, d).
Proof.
  intros Hclean Hrun. pose proof (keeps_transaction v df' (connect d)) as Hk.
  rewrite Hrun in Hk. cbn [snd connect committed] in Hk.
  unfold main. rewrite Hclean, Hrun. unfold close, rollback. cbn [committed working].
  rewrite Hk. repeat split.
Qed.

Lemma failed_transaction_is_rolled_back_witness :
  let c' := (transaction F25 [number_month_row] (connect empty_db)).2 in
  committed (rollback c') = empty_db
  /\ working (rollback c') = empty_db
  /\ main F25 [number_month_row] empty_db = (Raise AttributeError, close (rollback c'))
  /\ main F25 [number_month_row] empty_db = (Raise AttributeError, empty_db).
Proof.
  apply (failed_transaction_is_rolled_back F25 [number_month_row] [number_month_row] empty_db
           AttributeError (transaction F25 [number_month_row] (connect empty_db)).2).
  - vm_compute. reflexivity.
  - vm_compute. reflexivity.
Defined.

(** In that run the season and the product had been written to the
    working copy when the orders stage raised; the rollback is what
    takes them away. *)
Example working_copy_at_the_raise :
  let c' := (transaction F25 [number_month_row] (connect empty_db)).2 in
  (length (seasons (working c')), length (products (working c')), length (orders (working c')))
  = (1%nat, 1%nat, 0%nat)
  /\ committed c' = empty_db
  /\ working c' <> working (rollback c').
Proof. vm_compute. split; [reflexivity|]. split; [reflexivity|discriminate]. Qed.

(** ** Products *)

Section Products.

Lemma dict_of_rows_is_Some rows k i :
  (i, k) ∈ rows -> is_Some (dict_of_rows rows !! k).
Proof.
  unfold dict_of_rows.
  assert (H : forall acc : gmap string Z,
             is_Some (acc !! k) \/ (exists i, (i, k) ∈ rows) ->
             is_Some (foldl (fun acc r => <[r.2 := r.1]> acc) acc rows !! k)).
  { induction rows as [|[j n] rows IH]; simpl; intros acc [H|[i' H]].
    - exact H.
    - now apply elem_of_nil in H.
    - apply IH. left. destruct (decide (n = k)) as [->|Hne].
      + rewrite lookup_insert_eq. eauto.
      + now rewrite lookup_insert_ne.
    - apply IH. apply elem_of_cons in H as [[= -> ->]|H].
      + left. rewrite lookup_insert_eq. eauto.
      + right. eauto. }
  intros Hin. apply H. right. eauto.
Qed.

(** The UPC dict has a key exactly for the UPCs of the products table,
    and maps it to the id of a product with that UPC. *)
Lemma existing_products_Some d u i :
  existing_products_of d !! u = Some i ->
  exists p, p ∈ products d /\ p_upc p = Some u /\ p_id p = i.
Proof.
  intros H. apply dict_of_rows_elem in H. unfold select_products in H.
  apply list_elem_of_omap in H as (p & Hp & Hrow).
  exists p. destruct (p_upc p) as [u'|]; [|discriminate].
  injection Hrow as <- <-. auto.
Qed.

Lemma existing_products_is_Some d p u :
  p ∈ products d -> p_upc p = Some u -> is_Some (existing_products_of d !! u).
Proof.
  intros Hp Hu. apply (dict_of_rows_is_Some _ _ (p_id p)).
  unfold select_products. apply list_elem_of_omap. exists p. now rewrite Hu.
Qed.

Lemma existing_products_None d u p :
  existing_products_of d !! u = None -> p ∈ products d -> p_upc p <> Some u.
Proof.
  intros Hn Hp Hu. destruct (existing_products_is_Some d p u Hp Hu) as [i Hi]. congruence.
Qed.

(** On a conflict the upsert rewrites the UPC with itself: the table is
    as it was. *)
Lemma insert_product_keeps_rows upc (ps : list product) :
  map (fun q => if bool_decide (p_upc q = Some upc)
                then mk_product (p_id q) (Some upc) (p_name q) (p_sku q)
                       (p_color q) (p_size q) (p_wholesale_cost q)
                       (p_msrp q) (p_brand_id q) (p_season_id q) (p_active q)
                else q) ps = ps.
Proof.
  induction ps as [|q ps IH]; simpl; [reflexivity|]. rewrite IH. f_equal.
  destruct (bool_decide (p_upc q = Some upc)) eqn:Hq; [|reflexivity].
  apply bool_decide_eq_true in Hq. destruct q; simpl in *. now rewrite Hq.
Qed.

Lemma db_eta_products d : set_products (products d ++ []) d = d.
Proof. unfold set_products. rewrite app_nil_r. apply db_eta. Qed.

(** The upsert returns the id of a product with the UPC, and adds a row,
    with that id and UPC, only when the table has none. *)
Lemma insert_product_spec new upc d :
  (forall i, p_upc (new i) = Some upc /\ p_id (new i) = i) ->
  exists added,
    (insert_product new upc d).2 = set_products (products d ++ added) d
    /\ (exists p, p ∈ products d ++ added /\ p_upc p = Some upc
                  /\ p_id p = (insert_product new upc d).1)
    /\ (added = []
        \/ added = [new (insert_product new upc d).1]
           /\ forall q, q ∈ products d -> p_upc q <> Some upc).
Proof.
  intros Hnew. unfold insert_product.
  destruct (find _ (products d)) as [p|] eqn:Hfind; simpl.
  - exists []. rewrite insert_product_keeps_rows, app_nil_r.
    split; [reflexivity|]. split; [|now left].
    apply find_some in Hfind as [Hin Hp]. apply bool_decide_eq_true in Hp.
    exists p. split; [now apply list_elem_of_In|]. split; [exact Hp|reflexivity].
  - eexists. split; [reflexivity|]. split.
    + eexists. split; [apply elem_of_app; right; apply list_elem_of_here|].
      apply Hnew.
    + right. split; [reflexivity|]. intros q Hq Hu.
      apply list_elem_of_In in Hq.
      apply (find_none _ _ Hfind) in Hq. simpl in Hq.
      apply bool_decide_eq_false in Hq. contradiction.
Qed.

Lemma products_appended_refl c : products_appended c c [].
Proof. split; [reflexivity|]. symmetry. apply db_eta_products. Qed.

Lemma products_appended_trans c1 c2 c3 new1 new2 :
  products_appended c1 c2 new1 -> products_appended c2 c3 new2 ->
  products_appended c1 c3 (new1 ++ new2).
Proof.
  intros [Hc1 Hw1] [Hc2 Hw2]. split; [congruence|].
  rewrite Hw2, Hw1. unfold set_products; simpl. now rewrite app_assoc.
Qed.

End Products.

Lemma products_appended_elem c c' new p :
  products_appended c c' new -> p ∈ products (working c) -> p ∈ products (working c').
Proof. intros [_ ->] Hp. simpl. apply elem_of_app. now left. Qed.

(** The products loop never raises.  It only appends to the products
    table, and only rows whose UPC the UPC dict did not have; a row whose
    UPC the dict has gets the id the dict gives; after the loop every row
    it visited has its UPC in the dict or in the table, unless its brand
    did not resolve; and when every row is of one of these two kinds the
    loop writes nothing and creates nothing. *)
Lemma product_loop sid existing brand_ids rows pids n c :
  exists pids' n' new c',
    for_each (product_step sid existing brand_ids) (pids, n) rows c = (Ok (pids', n'), c')
    /\ products_appended c c' new
    /\ Forall (fun p => exists r, r ∈ rows /\ p_upc p = Some (upc_key r)
                                  /\ existing !! upc_key r = None) new
    /\ (forall r i, r ∈ rows -> existing !! upc_key r = Some i -> pids' !! upc_key r = Some i)
    /\ (forall u i, existing !! u = Some i -> pids !! u = Some i -> pids' !! u = Some i)
    /\ (forall r, r ∈ rows ->
          is_Some (existing !! upc_key r)
          \/ falsy (dict_get brand_ids (Brand r)) = true
          \/ exists p, p ∈ products (working c') /\ p_upc p = Some (upc_key r))
    /\ ((forall r, r ∈ rows ->
           is_Some (existing !! upc_key r) \/ falsy (dict_get brand_ids (Brand r)) = true) ->
        c' = c /\ n' = n).
Proof.
  revert pids n c. induction rows as [|r rows IH]; intros pids n c; cbn [for_each].
  - exists pids, n, [], c. split; [reflexivity|]. split; [apply products_appended_refl|].
    split; [constructor|]. split; [intros r i Hr; now apply elem_of_nil in Hr|].
    split; [auto|]. split; [intros r Hr; now apply elem_of_nil in Hr|auto].
  - cbv [mbind M_bind]. unfold product_step at 1. fold (upc_key r).
    destruct (existing !! upc_key r) as [i|] eqn:Hex.
    + (* the UPC is in the dict *)
      cbv [mret M_ret].
      destruct (IH (<[upc_key r := i]> pids) n c)
        as (pids' & n' & new & c' & Hrun & Happ & Hnew & Hreuse & Hstable & Hcover & Hnone).
      exists pids', n', new, c'. split; [exact Hrun|]. split; [exact Happ|].
      split; [|split; [|split; [|split]]].
      * eapply Forall_impl; [exact Hnew|]. intros p (r' & Hr' & Hp).
        exists r'. split; [apply elem_of_cons; now right|exact Hp].
      * intros r' j Hr' Hj. apply elem_of_cons in Hr' as [->|Hr']; [|now apply Hreuse].
        apply Hstable; [exact Hj|]. rewrite Hex in Hj. injection Hj as ->.
        apply lookup_insert_eq.
      * intros u j Hu Hp. apply Hstable; [exact Hu|].
        destruct (decide (upc_key r = u)) as [<-|Hne].
        -- rewrite lookup_insert_eq. congruence.
        -- now rewrite lookup_insert_ne.
      * intros r' Hr'. apply elem_of_cons in Hr' as [->|Hr']; [|now apply Hcover].
        left. now rewrite Hex.
      * intros Hall. apply Hnone. intros r' Hr'. apply Hall. apply elem_of_cons. now right.
    + destruct (falsy (dict_get brand_ids (Brand r))) eqn:Hf.
      * (* the brand did not resolve *)
        cbv [mret M_ret].
        destruct (IH pids n c)
          as (pids' & n' & new & c' & Hrun & Happ & Hnew & Hreuse & Hstable & Hcover & Hnone).
        exists pids', n', new, c'. split; [exact Hrun|]. split; [exact Happ|].
        split; [|split; [|split; [|split]]].
        -- eapply Forall_impl; [exact Hnew|]. intros p (r' & Hr' & Hp).
           exists r'. split; [apply elem_of_cons; now right|exact Hp].
        -- intros r' j Hr' Hj. apply elem_of_cons in Hr' as [->|Hr']; [congruence|].
           now apply Hreuse.
        -- exact Hstable.
        -- intros r' Hr'. apply elem_of_cons in Hr' as [->|Hr']; [|now apply Hcover].
           right. now left.
        -- intros Hall. apply Hnone. intros r' Hr'. apply Hall. apply elem_of_cons. now right.
      * (* a product is upserted *)
        cbv [mbind M_bind mret M_ret execute].
        set (new_row := product_of_row (upc_key r) r (default 0 (dict_get brand_ids (Brand r))) sid).
        destruct (insert_product_spec new_row (upc_key r) (working c))
          as (added & Hdb & (p & Hp & Hpu & Hpid) & Hadded); [intros j; split; reflexivity|].
        destruct (insert_product new_row (upc_key r) (working c)) as [i d1] eqn:Hins.
        simpl in Hdb, Hpid, Hadded. subst d1.
        set (c1 := mk_connection (committed c) _).
        assert (Happ1 : products_appended c c1 added) by (split; reflexivity).
        destruct (IH (<[upc_key r := i]> pids) (S n) c1)
          as (pids' & n' & new & c' & Hrun & Happ & Hnew & Hreuse & Hstable & Hcover & Hnone).
        exists pids', n', (added ++ new), c'. split; [exact Hrun|].
        split; [now apply (products_appended_trans c c1 c')|].
        split; [|split; [|split; [|split]]].
        -- apply Forall_app. split.
           ++ destruct Hadded as [->|[-> _]]; [constructor|].
              constructor; [|constructor]. exists r.
              split; [apply elem_of_cons; now left|]. split; [reflexivity|exact Hex].
           ++ eapply Forall_impl; [exact Hnew|]. intros p' (r' & Hr' & Hp').
              exists r'. split; [apply elem_of_cons; now right|exact Hp'].
        -- intros r' j Hr' Hj. apply elem_of_cons in Hr' as [->|Hr']; [congruence|].
           now apply Hreuse.
        -- intros u j Hu Hpu'. apply Hstable; [exact Hu|].
           rewrite lookup_insert_ne; [exact Hpu'|]. intros <-. congruence.
        -- intros r' Hr'. apply elem_of_cons in Hr' as [->|Hr']; [|now apply Hcover].
           right. right. exists p. split; [|exact Hpu].
           apply (products_appended_elem c1 c' new); [exact Happ|exact Hp].
        -- intros Hall. exfalso.
           destruct (Hall r) as [[j Hj]|Hf']; [apply elem_of_cons; now left|congruence|congruence].
Qed.

(** Dropping duplicates keeps, for every row with a text for a UPC, a row
    with the same UPC; and it keeps only rows of the frame. *)
Lemma drop_duplicates_from_covers seen df r u :
  r ∈ df -> UPC r = VStr u ->
  VStr u ∈ seen \/ exists r', r' ∈ drop_duplicates_from seen df /\ UPC r' = VStr u.
Proof.
  revert seen. induction df as [|r0 df IH]; intros seen Hr Hu; [now apply elem_of_nil in Hr|].
  simpl. destruct (existsb (veqb (UPC r0)) seen) eqn:Hdup.
  - apply elem_of_cons in Hr as [->|Hr]; [|now apply IH].
    left. apply existsb_exists in Hdup as (s & Hs & Heq). rewrite Hu in Heq.
    destruct s; simpl in Heq; try discriminate.
    apply bool_decide_eq_true in Heq. subst. now apply list_elem_of_In.
  - apply elem_of_cons in Hr as [->|Hr].
    + right. exists r0. split; [apply elem_of_cons; now left|exact Hu].
    + destruct (IH (UPC r0 :: seen) Hr Hu) as [Hseen|(r' & Hr' & Hu')].
      * apply elem_of_cons in Hseen as [Heq|Hseen]; [|now left].
        right. exists r0. split; [apply elem_of_cons; now left|now symmetry].
      * right. exists r'. split; [apply elem_of_cons; now right|exact Hu'].
Qed.

Lemma drop_duplicates_covers df r u :
  r ∈ df -> UPC r = VStr u -> exists r', r' ∈ drop_duplicates df /\ UPC r' = VStr u.
Proof.
  intros Hr Hu.
  destruct (drop_duplicates_from_covers [] df r u Hr Hu) as [H|H]; [|exact H].
  now apply elem_of_nil in H.
Qed.

Lemma drop_duplicates_from_elem seen df r : r ∈ drop_duplicates_from seen df -> r ∈ df.
Proof.
  revert seen. induction df as [|r0 df IH]; intros seen; simpl; [trivial|].
  destruct (existsb _ seen).
  - intros H. apply elem_of_cons. right. now apply (IH seen).
  - intros H. apply elem_of_cons in H as [->|H]; apply elem_of_cons; [now left|right].
    now apply (IH (UPC r0 :: seen)).
Qed.

Lemma upc_key_eq r r' : UPC r = UPC r' -> upc_key r = upc_key r'.
Proof. unfold upc_key. now intros ->. Qed.

(** What the product stage does, in one statement. *)
Lemma process_products_spec sid brand_ids df c :
  let existing := existing_products_of (working c) in
  exists pids n new c',
    process_products sid brand_ids df c = (Ok (pids, n), c')
    /\ products_appended c c' new
    /\ Forall (fun p => exists r, r ∈ df /\ p_upc p = Some (upc_key r)
                                  /\ existing !! upc_key r = None) new
    /\ (forall r i, r ∈ drop_duplicates df -> existing !! upc_key r = Some i ->
          pids !! upc_key r = Some i)
    /\ (forall r, r ∈ drop_duplicates df ->
          is_Some (existing !! upc_key r)
          \/ falsy (dict_get brand_ids (Brand r)) = true
          \/ exists p, p ∈ products (working c') /\ p_upc p = Some (upc_key r))
    /\ ((forall r, r ∈ drop_duplicates df ->
           is_Some (existing !! upc_key r) \/ falsy (dict_get brand_ids (Brand r)) = true) ->
        c' = c /\ n = 0%nat).
Proof.
  intros existing. unfold process_products. cbv [mbind M_bind query execute].
  fold (existing_products_of (working c)). fold existing. rewrite connection_eta.
  destruct (product_loop sid existing brand_ids (drop_duplicates df) ∅ 0%nat c)
    as (pids & n & new & c' & Hrun & Happ & Hnew & Hreuse & _ & Hcover & Hnone).
  exists pids, n, new, c'. split; [exact Hrun|]. split; [exact Happ|].
  split; [|split; [exact Hreuse|split; [exact Hcover|exact Hnone]]].
  eapply Forall_impl; [exact Hnew|]. intros p (r & Hr & Hp).
  exists r. split; [now apply (drop_duplicates_from_elem [])|exact Hp].
Qed.

(** C7.  The product stage never raises and leaves every row of the
    products table as it was, in place: it only appends rows, and only
    with UPCs that no row of the table had.  For a row of the sheet whose
    UPC (a text) is the UPC of a product of the table, the id recorded in
    [product_ids] is the id of a product of the table with that UPC. *)
Theorem existing_product_is_reused (sid : Z) (brand_ids : gmap string Z)
    (df : DataFrame) (c : connection) :
  exists product_ids products_created new c',
    process_products sid brand_ids df c = (Ok (product_ids, products_created), c')
    /\ committed c' = committed c
    /\ products (working c') = products (working c) ++ new
    /\ Forall (fun p => forall q, q ∈ products (working c) -> p_upc q <> p_upc p) new
    /\ forall r u p,
         r ∈ df -> UPC r = VStr u ->
         p ∈ products (working c) -> p_upc p = Some (upc_key r) ->
         exists p', p' ∈ products (working c) /\ p_upc p' = Some (upc_key r)
                    /\ product_ids !! upc_key r = Some (p_id p').
Proof.
  destruct (process_products_spec sid brand_ids df c)
    as (pids & n & new & c' & Hrun & [Hcomm Hwork] & Hnew & Hreuse & _ & _).
  exists pids, n, new, c'. split; [exact Hrun|]. split; [exact Hcomm|].
  split; [now rewrite Hwork|]. split.
  - eapply Forall_impl; [exact Hnew|]. intros p (r & _ & Hp & Hnone) q Hq.
    rewrite Hp. now apply (existing_products_None (working c)).
  - intros r u p Hr Hu Hp Hpu.
    destruct (drop_duplicates_covers df r u Hr Hu) as (r' & Hr' & Hu').
    assert (Hkey : upc_key r' = upc_key r) by (apply upc_key_eq; congruence).
    destruct (existing_products_is_Some (working c) p _ Hp Hpu) as [i Hi].
    destruct (existing_products_Some (working c) _ i Hi) as (p' & Hp' & Hpu' & Hid).
    exists p'. split; [exact Hp'|]. split; [exact Hpu'|].
    rewrite Hid, <- Hkey. apply Hreuse; [exact Hr'|]. now rewrite Hkey.
Qed.

(** The product of [db_with_product] is found for the row of the
    scenario and keeps its name, cost, season and flag. *)
Example product_of_scenario_is_reused :
  let run := process_products 2 (brand_ids_of F25 db_with_product) [prana_row]
                              (connect db_with_product) in
  (exists pids, run.1 = Ok (pids, 0%nat) /\ pids !! "012345" = Some 7)
  /\ products (working run.2) = products db_with_product.
Proof. vm_compute. split; [eexists; split; reflexivity|reflexivity]. Qed.

(** ** The whole transaction *)

Section Transaction.

Lemma wp_of_run {A} (m : M A) Q E c a c' : m c = (Ok a, c') -> Q a c' -> wp m Q E c.
Proof. unfold wp. now intros ->. Qed.

Lemma same_catalog_refl d : same_catalog d d.
Proof. repeat split. Qed.

Lemma same_catalog_trans d1 d2 d3 :
  same_catalog d1 d2 -> same_catalog d2 d3 -> same_catalog d1 d3.
Proof. unfold same_catalog. intuition congruence. Qed.

(** Obtaining the season never raises and touches the seasons only. *)
Lemma get_season_spec v c :
  exists sid c',
    get_season v c = (Ok sid, c')
    /\ committed c' = committed c
    /\ same_catalog (working c) (working c')
    /\ orders (working c') = orders (working c)
    /\ order_items (working c') = order_items (working c).
Proof.
  destruct v; simpl.
  - unfold execute, upsert_season.
    destruct (find _ (seasons (working c))); eexists _, _; (split; [reflexivity|]);
      repeat split.
  - cbv [mbind M_bind query execute]. simpl. unfold select_season, insert_season.
    destruct (find _ (seasons (working c))); simpl; eexists _, _; (split; [reflexivity|]);
      repeat split.
Qed.

Lemma orders_added_catalog c c' new :
  orders_added c c' new -> same_catalog (working c) (working c').
Proof. intros [_ ->]. repeat split. Qed.

Lemma items_appended_catalog c c' new :
  items_appended c c' new -> same_catalog (working c) (working c').
Proof. intros [_ ->]. repeat split. Qed.

Lemma existing_products_of_ext d d' :
  products d' = products d -> existing_products_of d' = existing_products_of d.
Proof. unfold existing_products_of, select_products. now intros ->. Qed.

Lemma brand_ids_of_ext v d d' : brands d' = brands d -> brand_ids_of v d' = brand_ids_of v d.
Proof. unfold brand_ids_of, select_brands. now intros ->. Qed.

End Transaction.

Section TransactionProducts.

Lemma existing_products_iff d u :
  is_Some (existing_products_of d !! u) <-> exists p, p ∈ products d /\ p_upc p = Some u.
Proof.
  split.
  - intros [i Hi]. destruct (existing_products_Some d u i Hi) as (p & Hp & Hu & _). eauto.
  - intros (p & Hp & Hu). now apply (existing_products_is_Some d p).
Qed.

(** What a run of the transaction that ends does to the catalog: brands
    and locations are kept, products are only appended; afterwards the
    products are settled for the sheet; and on a database where they
    were settled already no product is appended or counted as created. *)
Lemma transaction_products v df c :
  wp (transaction v df)
     (fun s c' =>
        brands (working c') = brands (working c)
        /\ locations (working c') = locations (working c)
        /\ products_settled (brand_ids_of v (working c)) df (working c')
        /\ exists new,
             products (working c') = products (working c) ++ new
             /\ (products_settled (brand_ids_of v (working c)) df (working c) ->
                 new = [] /\ products_created s = 0%nat))
     any_exn c.
Proof.
  unfold transaction.
  apply wp_bind.
  destruct (get_season_spec v c) as (sid & c1 & Hrun1 & _ & (Hb1 & Hl1 & Hp1) & _ & _).
  apply (wp_of_run _ _ _ _ _ _ Hrun1).
  apply wp_bind, wp_query. apply wp_bind, wp_query. simpl committed. simpl working.
  rewrite connection_eta.
  fold (brand_ids_of v (working c1)).
  apply wp_bind.
  destruct (process_products_spec sid (brand_ids_of v (working c1)) df c1)
    as (pids & n & new & c2 & Hrun2 & Happ2 & _ & _ & Hcover & Hnone).
  apply (wp_of_run _ _ _ _ _ _ Hrun2).
  apply wp_bind. unfold create_orders.
  eapply wp_mono; [| |apply create_orders_loop]; [|unfold any_exn; auto].
  intros [om no] c3 (new_orders & Hadd3 & _ & _).
  apply wp_bind. unfold add_order_items.
  eapply wp_mono; [| |apply add_order_items_loop]; [|unfold any_exn; auto].
  intros [ia isk] c4 (new_items & Happ4 & _ & _ & _).
  apply wp_bind, wp_execute. apply wp_ret. simpl.
  destruct (orders_added_catalog _ _ _ Hadd3) as (Hb3 & Hl3 & Hp3).
  destruct (items_appended_catalog _ _ _ Happ4) as (Hb4 & Hl4 & Hp4).
  destruct Happ2 as [_ Hw2].
  assert (Hprod : products (working c4) = products (working c) ++ new).
  { rewrite Hp4, Hp3, Hw2. simpl. now rewrite Hp1. }
  assert (Hbr : brand_ids_of v (working c1) = brand_ids_of v (working c))
    by now apply brand_ids_of_ext.
  split; [rewrite Hb4, Hb3, Hw2; simpl; exact Hb1|].
  split; [rewrite Hl4, Hl3, Hw2; simpl; exact Hl1|].
  split.
  - intros r Hr. rewrite <- Hbr.
    destruct (Hcover r Hr) as [Hex|[Hf|(p & Hp & Hu)]]; [|now right|].
    + left. apply existing_products_iff in Hex as (p & Hp & Hu).
      apply existing_products_iff. exists p. split; [|exact Hu].
      simpl. rewrite Hprod. apply elem_of_app. left. now rewrite <- Hp1.
    + left. apply existing_products_iff. exists p. split; [|exact Hu].
      simpl. now rewrite Hp4, Hp3.
  - exists new. split; [exact Hprod|]. intros Hsettled.
    destruct Hnone as [Hc2 Hn].
    { intros r Hr. rewrite Hbr, (existing_products_of_ext (working c) (working c1) Hp1).
      now apply Hsettled. }
    split; [|exact Hn]. subst c2.
    assert (Heq : products (working c1) ++ [] = products (working c1) ++ new).
    { rewrite app_nil_r. rewrite Hw2 at 1. reflexivity. }
    now apply app_inv_head in Heq.
Qed.

End TransactionProducts.

(** A run that succeeds leaves what its transaction wrote. *)
Lemma main_Ok v df d s d' :
  main v df d = (Ok s, d') ->
  exists df' c',
    Loader.clean df = Ok df'
    /\ transaction v df' (connect d) = (Ok s, c') /\ d' = working c'.
Proof.
  unfold main. destruct (Loader.clean df) as [df'|]; [|discriminate].
  destruct (transaction v df' (connect d)) as [[s'|] c'] eqn:Hrun; [|discriminate].
  intros [= -> <-]. exists df', c'. split; [reflexivity|]. split; [exact Hrun|reflexivity].
Qed.

(** The transaction returns exactly when its stages return in turn. *)
Lemma transaction_Ok v df c s c' :
  transaction v df c = (Ok s, c') <-> run_of v df c s c'.
Proof.
  unfold transaction, run_of. cbv [mbind M_bind query execute mret M_ret].
  destruct (get_season v c) as [[sid|e] c1] eqn:H1; cbn [committed working fst snd].
  2:{ split; [discriminate|]. intros (? & ? & ? & ? & ? & ? & [=] & _). }
  rewrite connection_eta.
  fold (brand_ids_of v (working c1)). fold (location_ids_of v (working c1)).
  destruct (process_products sid (brand_ids_of v (working c1)) df c1)
    as [[[pids np]|e] c2] eqn:H2.
  2:{ split; [discriminate|].
      intros (? & ? & ? & ? & ? & ? & [= <- <-] & Hp & _). congruence. }
  destruct (create_orders v sid (brand_ids_of v (working c1))
              (location_ids_of v (working c1)) df c2) as [[[om no]|e] c3] eqn:H3.
  2:{ split; [discriminate|].
      intros (? & ? & ? & ? & ? & ? & [= <- <-] & Hp & Ho & _).
      rewrite H2 in Hp. injection Hp as <- _ <-. congruence. }
  destruct (add_order_items pids om df c3) as [[[ia isk]|e] c4] eqn:H4.
  2:{ split; [discriminate|].
      intros (? & ? & ? & ? & ? & ? & [= <- <-] & Hp & Ho & Hi & _).
      rewrite H2 in Hp. injection Hp as <- _ <-.
      rewrite H3 in Ho. injection Ho as <- _ <-. congruence. }
  simpl. split.
  - intros [= <- <-]. exists c1, pids, c2, om, c3, c4. simpl. repeat split; assumption.
  - intros (c1' & pids' & c2' & om' & c3' & c4' & Hs & Hp & Ho & Hi & ->).
    injection Hs as Hsid <-. destruct s as [sid' np' no' ia' isk']; simpl in *. subst sid'.
    rewrite H2 in Hp. injection Hp as <- <- <-.
    rewrite H3 in Ho. injection Ho as <- <- <-.
    rewrite H4 in Hi. injection Hi as <- <- <-. reflexivity.
Qed.

Lemma main_run_of v df d s d' :
  main v df d = (Ok s, d') ->
  exists df' c', Loader.clean df = Ok df' /\ run_of v df' (connect d) s c' /\ d' = working c'.
Proof.
  intros Hrun. destruct (main_Ok _ _ _ _ _ Hrun) as (df' & c' & Hclean & Htx & ->).
  exists df', c'. split; [exact Hclean|]. split; [|reflexivity].
  now apply transaction_Ok.
Qed.

(** C1 for a whole run: in the database that a run that succeeded
    leaves, every order of the season of the run has the sum of the line
    totals of its items for a total. *)
Corollary run_leaves_order_totals v df d s d' o :
  main v df d = (Ok s, d') ->
  o ∈ orders d' -> o_season_id o = Some (season_id s) ->
  o_current_total o = Some (sum_of_line_totals (o_id o) d').
Proof.
  intros Hrun Ho Hs.
  destruct (main_run_of _ _ _ _ _ Hrun)
    as (df' & c' & _ & (c1 & pids & c2 & om & c3 & c4 & _ & _ & _ & _ & ->) & ->).
  simpl in *.
  now apply (updated_order_total (season_id s) (working c4) o).
Qed.

(** C9 for a whole run: the counters of the summary add up to the number
    of cleaned rows, and the run appended [items_added] order items. *)
Corollary run_counts_every_row v df d s d' :
  main v df d = (Ok s, d') ->
  exists df' new,
    Loader.clean df = Ok df'
    /\ (items_added s + items_skipped s = length df')%nat
    /\ order_items d' = order_items d ++ new /\ length new = items_added s.
Proof.
  intros Hrun.
  destruct (main_run_of _ _ _ _ _ Hrun)
    as (df' & c' & Hclean & (c1 & pids & c2 & om & c3 & c4 & Hs & Hp & Ho & Hi & ->) & ->).
  destruct (add_order_items_Ok _ _ _ _ _ _ _ Hi) as (new & [_ Hw4] & Hitems & Hia & Hisk).
  exists df', new. split; [exact Hclean|]. split.
  { rewrite Hia, Hisk, <- (Forall2_length _ _ _ Hitems).
    exact (length_filter_bool (unresolved pids om) df'). }
  split; [|now symmetry].
  destruct (get_season_spec v (connect d)) as (sid & c1' & Hrun1 & _ & _ & _ & Hi1).
  rewrite Hs in Hrun1. injection Hrun1 as <- <-.
  destruct (process_products_spec (season_id s) (brand_ids_of v (working c1)) df' c1)
    as (pids' & n' & newp & c2' & Hrun2 & [_ Hw2] & _).
  rewrite Hp in Hrun2. injection Hrun2 as <- <- <-.
  pose proof (wp_Ok _ _ _ _ _ _
                (create_orders_loop v (season_id s) (brand_ids_of v (working c1))
                   (dict_of_rows (select_locations (working c1))) (groupby df') ([], 0%nat) c2)
                Ho) as (newo & [_ Hw3] & _).
  simpl. rewrite Hw4, Hw3, Hw2. simpl. now rewrite Hi1.
Qed.

(** ** The second run *)

Section SecondRun.

Lemma fresh_id_pos ids : 0 < fresh_id ids.
Proof.
  unfold fresh_id. assert (0 <= foldr Z.max 0 ids); [|lia].
  induction ids as [|i ids IH]; simpl; lia.
Qed.

Lemma insert_product_id_pos new upc d :
  (forall q, q ∈ products d -> p_upc q = Some upc -> 0 < p_id q) ->
  0 < (insert_product new upc d).1.
Proof.
  intros H. unfold insert_product.
  destruct (find _ (products d)) as [p|] eqn:Hfind; simpl; [|apply fresh_id_pos].
  apply find_some in Hfind as [Hin Hp]. apply bool_decide_eq_true in Hp.
  apply H; [now apply list_elem_of_In|exact Hp].
Qed.

(** Where the ids of [product_ids] come from: from the UPC dict, or,
    for a UPC the dict does not have, from the upsert, which returns a
    positive id; a key once written stays; and a product is in the table
    after the loop only if it was there before or its UPC was written. *)
Lemma product_loop_ids sid existing brand_ids rows pids n c pids' n' c' :
  (forall q u, q ∈ products (working c) -> p_upc q = Some u -> existing !! u = None ->
               0 < p_id q) ->
  for_each (product_step sid existing brand_ids) (pids, n) rows c = (Ok (pids', n'), c') ->
  (forall u i, pids' !! u = Some i ->
     pids !! u = Some i \/ existing !! u = Some i \/ (existing !! u = None /\ 0 < i))
  /\ (forall u, is_Some (pids !! u) -> is_Some (pids' !! u))
  /\ (forall p, p ∈ products (working c') ->
        p ∈ products (working c) \/ exists u, p_upc p = Some u /\ is_Some (pids' !! u))
  /\ ((forall r, r ∈ rows ->
         is_Some (existing !! upc_key r) \/ falsy (dict_get brand_ids (Brand r)) = true) ->
      forall u i, pids' !! u = Some i -> pids !! u = Some i \/ existing !! u = Some i).
Proof.
  revert pids n c. induction rows as [|r rows IH]; intros pids n c Hpos; cbn [for_each].
  - intros [= <- <- <-]. repeat split; auto.
  - cbv [mbind M_bind]. unfold product_step at 1. fold (upc_key r).
    destruct (existing !! upc_key r) as [i|] eqn:Hex.
    + cbv [mret M_ret]. intros Hrun.
      destruct (IH _ _ _ Hpos Hrun) as (Ha & Hb & Hc & Hd).
      split; [|split; [|split]].
      * intros u j Hj. destruct (Ha u j Hj) as [H|H]; [|now right].
        destruct (decide (upc_key r = u)) as [<-|Hne].
        -- rewrite lookup_insert_eq in H. right. left. congruence.
        -- rewrite lookup_insert_ne in H by exact Hne. now left.
      * intros u Hu. apply Hb. destruct (decide (upc_key r = u)) as [<-|Hne].
        -- rewrite lookup_insert_eq. eauto.
        -- now rewrite lookup_insert_ne.
      * exact Hc.
      * intros Hall u j Hj.
        destruct (Hd (fun r' Hr' => Hall r' (proj2 (elem_of_cons _ _ _) (or_intror Hr'))) u j Hj)
          as [H|H]; [|now right].
        destruct (decide (upc_key r = u)) as [<-|Hne].
        -- rewrite lookup_insert_eq in H. right. congruence.
        -- rewrite lookup_insert_ne in H by exact Hne. now left.
    + destruct (falsy (dict_get brand_ids (Brand r))) eqn:Hf.
      * cbv [mret M_ret]. intros Hrun.
        destruct (IH _ _ _ Hpos Hrun) as (Ha & Hb & Hc & Hd).
        split; [exact Ha|]. split; [exact Hb|]. split; [exact Hc|].
        intros Hall. apply Hd. intros r' Hr'. apply Hall. apply elem_of_cons. now right.
      * cbv [mbind M_bind mret M_ret execute].
        set (new_row := product_of_row (upc_key r) r (default 0 (dict_get brand_ids (Brand r))) sid).
        pose proof (insert_product_id_pos new_row (upc_key r) (working c)) as Hipos.
        destruct (insert_product_spec new_row (upc_key r) (working c))
          as (added & Hdb & _ & Hadded); [intros j; split; reflexivity|].
        destruct (insert_product new_row (upc_key r) (working c)) as [i d1] eqn:Hins.
        simpl in Hdb, Hadded, Hipos. subst d1.
        assert (Hi : 0 < i).
        { apply Hipos. intros q Hq Hu. now apply (Hpos q (upc_key r)). }
        intros Hrun.
        assert (Hpos1 : forall q u,
                   q ∈ products (set_products (products (working c) ++ added) (working c)) ->
                   p_upc q = Some u -> existing !! u = None -> 0 < p_id q).
        { intros q u Hq Hu Hn. simpl in Hq.
          apply elem_of_app in Hq as [Hq|Hq]; [now apply (Hpos q u)|].
          destruct Hadded as [->|[-> _]]; [now apply elem_of_nil in Hq|].
          apply list_elem_of_singleton in Hq. subst q. exact Hi. }
        destruct (IH _ _ (mk_connection (committed c) _) Hpos1 Hrun) as (Ha & Hb & Hc & Hd).
        split; [|split; [|split]].
        -- intros u j Hj. destruct (Ha u j Hj) as [H|H]; [|now right].
           destruct (decide (upc_key r = u)) as [<-|Hne].
           ++ rewrite lookup_insert_eq in H. injection H as <-. right. right. now split.
           ++ rewrite lookup_insert_ne in H by exact Hne. now left.
        -- intros u Hu. apply Hb. destruct (decide (upc_key r = u)) as [<-|Hne].
           ++ rewrite lookup_insert_eq. eauto.
           ++ now rewrite lookup_insert_ne.
        -- intros p Hp. destruct (Hc p Hp) as [H|H]; [|now right].
           simpl in H. apply elem_of_app in H as [H|H]; [now left|].
           destruct Hadded as [->|[-> _]]; [now apply elem_of_nil in H|].
           apply list_elem_of_singleton in H. subst p. right. exists (upc_key r).
           split; [reflexivity|]. apply Hb. rewrite lookup_insert_eq. eauto.
        -- intros Hall. exfalso.
           destruct (Hall r) as [[j Hj]|Hf']; [apply elem_of_cons; now left|congruence|congruence].
Qed.

(** The dict of rows read in two batches: the later batch wins. *)
Lemma dict_of_rows_app rows1 rows2 k :
  dict_of_rows (rows1 ++ rows2) !! k
  = match dict_of_rows rows2 !! k with
    | Some i => Some i
    | None => dict_of_rows rows1 !! k
    end.
Proof.
  unfold dict_of_rows. induction rows2 as [|[i n] rows2 IH] using rev_ind.
  - rewrite app_nil_r. simpl. now rewrite lookup_empty.
  - rewrite app_assoc, !foldl_snoc. simpl.
    destruct (decide (n = k)) as [->|Hne].
    + now rewrite !lookup_insert_eq.
    + rewrite !lookup_insert_ne by exact Hne. exact IH.
Qed.

Lemma select_products_app d new :
  select_products (set_products (products d ++ new) d)
  = select_products d ++ select_products (set_products new d).
Proof. unfold select_products. simpl. apply omap_app. Qed.

(** Appending products with other UPCs does not change what the UPC dict
    gives for a UPC. *)
Lemma existing_products_of_app d new u :
  (forall p, p ∈ new -> p_upc p <> Some u) ->
  existing_products_of (set_products (products d ++ new) d) !! u
  = existing_products_of d !! u.
Proof.
  intros Hnew. unfold existing_products_of. rewrite select_products_app, dict_of_rows_app.
  destruct (dict_of_rows (select_products (set_products new d)) !! u) as [i|] eqn:Hi;
    [|reflexivity].
  exfalso. destruct (existing_products_Some _ _ _ Hi) as (p & Hp & Hu & _).
  now apply (Hnew p).
Qed.

Lemma Forall2_elem_l {A B} (P : A -> B -> Prop) l k x :
  Forall2 P l k -> x ∈ l -> exists y, y ∈ k /\ P x y.
Proof.
  induction 1 as [|a b l k Hab _ IH]; intros Hx; [now apply elem_of_nil in Hx|].
  apply elem_of_cons in Hx as [->|Hx].
  - exists b. split; [apply elem_of_cons; now left|exact Hab].
  - destruct (IH Hx) as (y & Hy & HP). exists y. split; [apply elem_of_cons; now right|exact HP].
Qed.

(** With no zero id in it, the order dict gives a false value exactly
    for the keys it does not have. *)
Lemma falsy_order_map_get om k :
  Forall (fun kv : key * Z => kv.2 <> 0) om ->
  falsy (order_map_get om k) = negb (existsb (fun k' => key_eqb k' k) (map fst om)).
Proof.
  unfold order_map_get. induction 1 as [|[k' i] om Hi _ IH]; simpl; [reflexivity|].
  destruct (key_eqb k' k); simpl; [|exact IH]. now apply Z.eqb_neq.
Qed.

(** The keys of the order dict after the orders loop are the surviving
    groups, latest first, and its ids are not zero; the ship period of
    every surviving group resolved.  The loop raises only on a surviving
    group whose ship period does not resolve. *)
Lemma create_orders_loop_keys v sid brand_ids db_locations ks om n c :
  let location_ids := map_ids (LOCATION_MAP v) db_locations in
  Forall (fun kv : key * Z => kv.2 <> 0) om ->
  wp (for_each (order_step v sid brand_ids location_ids) (om, n) ks)
     (fun acc' _ =>
        map fst acc'.1
        = rev (filter (fun k => survives brand_ids location_ids k = true) ks) ++ map fst om
        /\ Forall (fun kv : key * Z => kv.2 <> 0) acc'.1
        /\ forall k, k ∈ ks -> survives brand_ids location_ids k = true ->
                     exists dt, ship_period v k.2 = Ok dt)
     (fun e _ => exists k, k ∈ ks /\ survives brand_ids location_ids k = true
                           /\ ship_period v k.2 = Raise e)
     c.
Proof.
  intros location_ids. revert om n c.
  induction ks as [|[[brand gym] ship_month] ks IH]; intros om n c Hom; cbn [for_each].
  - apply wp_ret. simpl. split; [reflexivity|]. split; [exact Hom|].
    intros k Hk. now apply elem_of_nil in Hk.
  - apply wp_bind.
    destruct (falsy (dict_get brand_ids brand) || falsy (dict_get location_ids gym)) eqn:Hf.
    + assert (Hsv : survives brand_ids location_ids (brand, gym, ship_month) = false)
        by (unfold survives; simpl; now rewrite Hf).
      unfold wp at 1. rewrite order_step_skip by exact Hf.
      eapply wp_mono; [| |apply (IH om n c Hom)].
      * intros [om' n'] c' (Hkeys & Hids & Hship).
        rewrite filter_cons_False by (rewrite Hsv; discriminate).
        split; [exact Hkeys|]. split; [exact Hids|].
        intros k Hk Hs. apply elem_of_cons in Hk as [->|Hk]; [congruence|now apply Hship].
      * intros e c' (k & Hk & Hs). exists k. split; [apply elem_of_cons; now right|exact Hs].
    + assert (Hsv : survives brand_ids location_ids (brand, gym, ship_month) = true)
        by (unfold survives; simpl; now rewrite Hf).
      destruct (ship_period v ship_month) as [[date token]|e] eqn:Hs.
      * destruct (order_step_insert v sid brand_ids db_locations om n brand gym ship_month
                    date token c Hf Hs)
          as (b & g & code & bid & lid & -> & -> & _ & _ & _ & _ & Hrun).
        unfold wp at 1. fold location_ids in Hrun. rewrite Hrun.
        eapply wp_mono; [| |apply IH].
        -- intros [om' n'] c' (Hkeys & Hids & Hship).
           rewrite filter_cons_True by exact Hsv.
           split; [simpl in *; rewrite Hkeys, <- app_assoc; reflexivity|].
           split; [exact Hids|].
           intros k Hk Hsk. apply elem_of_cons in Hk as [->|Hk]; [|now apply Hship].
           simpl. rewrite Hs. eauto.
        -- intros e c' (k & Hk & Hsk). exists k. split; [apply elem_of_cons; now right|exact Hsk].
        -- constructor; [|exact Hom]. simpl.
           pose proof (fresh_id_pos (map o_id (orders (working c)))). lia.
      * unfold wp at 1. rewrite (order_step_raise _ _ _ _ _ _ _ _ e) by assumption.
        exists (brand, gym, ship_month). split; [apply elem_of_cons; now left|].
        split; [exact Hsv|exact Hs].
Qed.

Lemma process_products_unfold sid brand_ids df c :
  process_products sid brand_ids df c
  = for_each (product_step sid (existing_products_of (working c)) brand_ids)
             (∅, 0%nat) (drop_duplicates df) c.
Proof.
  unfold process_products. cbv [mbind M_bind query execute].
  cbn [committed working fst snd]. now rewrite connection_eta.
Qed.

Lemma location_ids_of_ext v d d' :
  locations d' = locations d -> location_ids_of v d' = location_ids_of v d.
Proof. unfold location_ids_of, select_locations. now intros ->. Qed.

Lemma cleaned_UPC r : cleaned r -> exists u, UPC r = VStr u.
Proof. intros ((u & Hu & _) & _). eauto. Qed.

(** What the second run needs to know of a first run that ended. *)
Lemma first_run_facts v df d s c' :
  Forall cleaned df ->
  transaction v df (connect d) = (Ok s, c') ->
  exists pids om,
    same_catalog d (set_products (products d) (working c')) /\
    (exists new, products (working c') = products d ++ new)
    /\ products_settled (brand_ids_of v d) df (working c')
    /\ (forall r, r ∈ df ->
          falsy (existing_products_of (working c') !! upc_key r) = false ->
          falsy (pids !! upc_key r) = false)
    /\ Forall (fun kv : key * Z => kv.2 <> 0) om
    /\ map fst om
       = rev (filter (fun k => survives (brand_ids_of v d) (location_ids_of v d) k = true)
                     (groupby df))
    /\ (forall k, k ∈ groupby df ->
          survives (brand_ids_of v d) (location_ids_of v d) k = true ->
          exists dt, ship_period v k.2 = Ok dt)
    /\ (forall r, r ∈ df -> unresolved pids om r = false ->
          exists q u, int (Quantity r) = Ok q /\ unit_cost_of r = Ok u).
Proof.
  intros Hclean Htx.
  pose proof (wp_Ok _ _ _ _ _ _ (transaction_products v df (connect d)) Htx)
    as (Hb & Hl & Hsettled & newp0 & Hprod0 & _).
  simpl in Hb, Hl, Hsettled, Hprod0.
  apply transaction_Ok in Htx
    as (c1 & pids & c2 & om & c3 & c4 & Hs & Hp & Ho & Hi & ->).
  destruct (get_season_spec v (connect d)) as (sid & c1' & Hrun1 & _ & (Hb1 & Hl1 & Hp1) & _).
  rewrite Hs in Hrun1. injection Hrun1 as <- <-. simpl in Hb1, Hl1, Hp1.
  assert (Hbr : brand_ids_of v (working c1) = brand_ids_of v d) by now apply brand_ids_of_ext.
  assert (Hlo : location_ids_of v (working c1) = location_ids_of v d)
    by now apply location_ids_of_ext.
  rewrite Hbr in Hp, Ho. rewrite Hlo in Ho.
  set (existing := existing_products_of (working c1)).
  destruct (process_products_spec (season_id s) (brand_ids_of v d) df c1)
    as (pids' & n' & newp & c2' & Hrun2 & [_ Hw2] & Hnew & Hreuse & _).
  rewrite Hp in Hrun2. injection Hrun2 as <- <- <-. fold existing in Hnew, Hreuse.
  assert (Hpos : forall q u, q ∈ products (working c1) -> p_upc q = Some u ->
                             existing !! u = None -> 0 < p_id q).
  { intros q u Hq Hu Hn. exfalso.
    destruct (existing_products_is_Some (working c1) q u Hq Hu) as [i Hi'].
    unfold existing in Hn. congruence. }
  rewrite process_products_unfold in Hp. fold existing in Hp.
  destruct (product_loop_ids _ _ _ _ _ _ _ _ _ _ Hpos Hp) as (Hprov & _ & Hadded & _).
  pose proof (wp_Ok _ _ _ _ _ _
                (create_orders_loop v (season_id s) (brand_ids_of v d)
                   (dict_of_rows (select_locations d)) (groupby df) ([], 0%nat) c2)
                Ho) as (newo & [_ Hw3] & _).
  pose proof (wp_Ok _ _ _ _ _ _
                (create_orders_loop_keys v (season_id s) (brand_ids_of v d)
                   (dict_of_rows (select_locations d)) (groupby df) [] 0%nat c2
                   (Forall_nil_2 _))
                Ho) as (Hkeys & Hids & Hship).
  simpl in Hkeys. rewrite app_nil_r in Hkeys.
  destruct (add_order_items_Ok _ _ _ _ _ _ _ Hi) as (newi & [_ Hw4] & Hitems & _).
  assert (Hprod : products (working c4) = products (working c1) ++ newp).
  { rewrite Hw4, Hw3, Hw2. reflexivity. }
  exists pids, om. simpl.
  split; [repeat split; assumption|]. split; [exists newp0; exact Hprod0|].
  split; [exact Hsettled|].
  split; [|split; [exact Hids|split; [exact Hkeys|split; [exact Hship|]]]].
  - intros r Hr Hex. apply falsy_false in Hex as (i & Hex & Hi0).
    assert (Hex2 : existing_products_of
                     (set_products (products (working c1) ++ newp) (working c1))
                   !! upc_key r = Some i).
    { rewrite <- Hex. apply (f_equal (fun m : gmap string Z => m !! upc_key r)).
      apply existing_products_of_ext. simpl. now rewrite Hprod. }
    destruct (existing !! upc_key r) as [j|] eqn:Hj.
    + (* the UPC was in the table before the first run *)
      rewrite existing_products_of_app in Hex2.
      2:{ intros p Hp' Hu. rewrite Forall_forall in Hnew.
          destruct (Hnew p Hp') as (r' & _ & Hu' & Hnone). congruence. }
      fold existing in Hex2. rewrite Hj in Hex2. injection Hex2 as ->.
      rewrite Forall_forall in Hclean.
      destruct (cleaned_UPC r (Hclean r Hr)) as (u & Hu).
      destruct (drop_duplicates_covers df r u Hr Hu) as (r' & Hr' & Hu').
      assert (Hkey : upc_key r' = upc_key r) by (apply upc_key_eq; congruence).
      rewrite <- Hkey, (Hreuse r' i Hr') by now rewrite Hkey.
      simpl. now apply Z.eqb_neq.
    + (* the first run inserted it *)
      destruct (existing_products_Some _ _ _ Hex2) as (p & Hp' & Hu & _). simpl in Hp'.
      destruct (Hadded p) as [Hold|(u' & Hu' & [j Hj'])].
      { rewrite Hw2. exact Hp'. }
      { exfalso. destruct (existing_products_is_Some (working c1) p _ Hold Hu) as [j' Hj'].
        fold existing in Hj'. congruence. }
      assert (u' = upc_key r) by congruence. subst u'.
      rewrite Hj'. simpl. apply Z.eqb_neq.
      destruct (Hprov _ _ Hj') as [H|[H|[_ H]]]; [now rewrite lookup_empty in H|congruence|lia].
  - intros r Hr Hun.
    assert (Hin : r ∈ filter (fun r => unresolved pids om r = false) df)
      by (apply list_elem_of_filter; now split).
    destruct (Forall2_elem_l _ _ _ _ Hitems Hin) as (it & _ & q & u & Hq & Hu & _).
    eauto.
Qed.

(** After a run that ended, the transaction of a second run on the same
    rows ends as well. *)
Lemma second_transaction_returns v df d s c' :
  Forall cleaned df ->
  transaction v df (connect d) = (Ok s, c') ->
  exists s2 c2, transaction v df (connect (working c')) = (Ok s2, c2).
Proof.
  intros Hclean Htx.
  destruct (first_run_facts v df d s c' Hclean Htx)
    as (pids & om & (Hb & Hl & _) & _ & Hsettled & Hpids & Hids & Hkeys & Hship & Hconv).
  simpl in Hb, Hl. set (d1 := working c') in *.
  destruct (get_season_spec v (connect d1)) as (sid2 & c1 & Hrun1 & _ & (Hb1 & Hl1 & Hp1) & _).
  simpl in Hb1, Hl1, Hp1.
  assert (Hbr : brand_ids_of v (working c1) = brand_ids_of v d)
    by (rewrite (brand_ids_of_ext v d1 (working c1) Hb1); now apply brand_ids_of_ext).
  assert (Hlo : location_ids_of v (working c1) = location_ids_of v d)
    by (rewrite (location_ids_of_ext v d1 (working c1) Hl1); now apply location_ids_of_ext).
  assert (Hex : existing_products_of (working c1) = existing_products_of d1)
    by now apply existing_products_of_ext.
  (* products *)
  destruct (process_products_spec sid2 (brand_ids_of v d) df c1)
    as (pids2 & n2 & newp & c2 & Hrun2 & _ & _ & _ & _ & Hnone).
  destruct Hnone as [-> ->].
  { intros r Hr. rewrite Hex. now apply Hsettled. }
  pose proof Hrun2 as Hloop. rewrite process_products_unfold in Hloop.
  assert (Hpos : forall q u, q ∈ products (working c1) -> p_upc q = Some u ->
                             existing_products_of (working c1) !! u = None -> 0 < p_id q).
  { intros q u Hq Hu Hn. exfalso.
    destruct (existing_products_is_Some (working c1) q u Hq Hu) as [i Hi']. congruence. }
  destruct (product_loop_ids _ _ _ _ _ _ _ _ _ _ Hpos Hloop) as (_ & _ & _ & Hprov).
  assert (Hprov2 : forall u i, pids2 !! u = Some i -> existing_products_of d1 !! u = Some i).
  { intros u i Hi. rewrite <- Hex.
    destruct (Hprov (fun r Hr => ltac:(rewrite Hex; now apply Hsettled)) u i Hi) as [H|H];
      [now rewrite lookup_empty in H|exact H]. }
  (* orders *)
  pose proof (create_orders_loop_keys v sid2 (brand_ids_of v d)
                (dict_of_rows (select_locations d)) (groupby df) [] 0%nat c1
                (Forall_nil_2 _)) as Hwp.
  fold (location_ids_of v d) in Hwp.
  change (for_each (order_step v sid2 (brand_ids_of v d) (location_ids_of v d))
                   ([], 0%nat) (groupby df))
    with (create_orders v sid2 (brand_ids_of v d) (location_ids_of v d) df) in Hwp.
  unfold wp in Hwp.
  destruct (create_orders v sid2 (brand_ids_of v d) (location_ids_of v d) df c1)
    as [[[om2 no2]|e] c3] eqn:Ho2.
  2:{ exfalso. destruct Hwp as (k & Hk & Hsv & Hraise).
      destruct (Hship k Hk Hsv) as [dt Hdt]. congruence. }
  destruct Hwp as (Hkeys2 & Hids2 & _). simpl in Hkeys2. rewrite app_nil_r in Hkeys2.
  (* items *)
  destruct (add_order_items pids2 om2 df c3) as [[[ia2 isk2]|e] c4] eqn:Hi2.
  2:{ exfalso. destruct (add_order_items_Raise _ _ _ _ _ _ Hi2) as (r & Hr & Hun & Hraise).
      assert (Hun1 : unresolved pids om r = false).
      { unfold unresolved in *. apply orb_false_iff in Hun as [Hp2 Ho2'].
        apply orb_false_iff. split.
        - apply Hpids; [exact Hr|].
          apply falsy_false in Hp2 as (i & Hi & Hi0). rewrite (Hprov2 _ _ Hi).
          simpl. now apply Z.eqb_neq.
        - rewrite falsy_order_map_get in Ho2' |- * by assumption.
          now rewrite Hkeys, <- Hkeys2. }
      destruct (Hconv r Hr Hun1) as (q & u & Hq & Hu).
      rewrite Hq, Hu in Hraise. discriminate. }
  (* the whole transaction *)
  exists (mk_summary sid2 0 no2 ia2 isk2),
         (mk_connection (committed c4) (update_order_totals sid2 (working c4)).2).
  apply transaction_Ok. exists c1, pids2, c1, om2, c3, c4. simpl.
  rewrite Hbr, Hlo. repeat split; assumption.
Qed.

End SecondRun.

(** C8 (as amended).  After a run that succeeded, a second run on the
    same sheet and on the database the first run left succeeds as well,
    reports no product as created and leaves the products table as it
    found it: every UPC of the sheet is then either found in the
    existing-products dict and reused, or belongs to a row whose brand
    does not resolve and is passed over again. *)
Theorem second_run_creates_no_product (v : script) (df : DataFrame) (d : db)
    (s1 : summary) (d1 : db) :
  main v df d = (Ok s1, d1) ->
  exists s2 d2,
    main v df d1 = (Ok s2, d2)
    /\ products_created s2 = 0%nat
    /\ products d2 = products d1
    /\ exists df', Loader.clean df = Ok df'
                   /\ products_settled (brand_ids_of v d1) df' d1.
Proof.
  intros Hrun1. destruct (main_Ok _ _ _ _ _ Hrun1) as (df' & c1 & Hclean & Htx1 & ->).
  pose proof (wp_Ok _ _ _ _ _ _ (transaction_products v df' (connect d)) Htx1)
    as (Hb & _ & Hsettled & _).
  simpl in Hb, Hsettled.
  assert (Hbr : brand_ids_of v (working c1) = brand_ids_of v d) by now apply brand_ids_of_ext.
  rewrite <- Hbr in Hsettled.
  destruct (second_transaction_returns v df' d s1 c1 (clean_cleaned df df' Hclean) Htx1)
    as (s2 & c2 & Htx2).
  pose proof (wp_Ok _ _ _ _ _ _ (transaction_products v df' (connect (working c1))) Htx2)
    as (_ & _ & _ & new & Hprod & Hnone).
  destruct (Hnone Hsettled) as [-> Hn]. simpl in Hprod. rewrite app_nil_r in Hprod.
  exists s2, (working c2). split; [|split; [exact Hn|split; [exact Hprod|]]].
  - unfold main. rewrite Hclean, Htx2. reflexivity.
  - exists df'. split; [exact Hclean|exact Hsettled].
Qed.

Lemma second_run_creates_no_product_witness :
  let d1 := (main F25 [prana_row; unknown_brand_row] empty_db).2 in
  exists s2 d2,
    main F25 [prana_row; unknown_brand_row] d1 = (Ok s2, d2)
    /\ products_created s2 = 0%nat
    /\ products d2 = products d1
    /\ exists df', Loader.clean [prana_row; unknown_brand_row] = Ok df'
                   /\ products_settled (brand_ids_of F25 d1) df' d1.
Proof.
  intros d1.
  refine (second_run_creates_no_product F25 [prana_row; unknown_brand_row] empty_db
            (mk_summary 1 1 1 1 1) d1 _).
  vm_compute. reflexivity.
Defined.

(** C8 (as stated) fails in one part: on the re-run the UPC 999 of a row
    whose brand is in no table is not found in the existing-products
    dict; the row is passed over as in the first run.  (No product row is
    created all the same.) *)
Lemma unresolved_brand_UPC_is_not_found :
  let run1 := main F25 [prana_row; unknown_brand_row] empty_db in
  let run2 := main F25 [prana_row; unknown_brand_row] run1.2 in
  run1.1 = Ok (mk_summary 1 1 1 1 1)
  /\ upc_key unknown_brand_row = "999"
  /\ existing_products_of run1.2 !! "999" = None
  /\ run2.1 = Ok (mk_summary 1 0 1 1 1)
  /\ map p_upc (products run2.2) = [Some "012345"].
Proof. vm_compute. repeat split. Qed.

(** The totals update changes no order number. *)
Lemma update_order_totals_numbers sid d :
  map o_order_number (orders (update_order_totals sid d).2) = map o_order_number (orders d).
Proof.
  unfold update_order_totals; simpl. rewrite map_map. apply map_ext.
  intros o. now destruct (bool_decide _).
Qed.

(** C10 for a whole run: the order numbers a run that succeeded leaves
    are those it found, followed by one number per order it made, each
    with the code that the location table gives for the gym of a group of
    the sheet, which is not UNK. *)
Corollary run_orders_have_location_codes v df d s d' :
  main v df d = (Ok s, d') ->
  exists df' new,
    Loader.clean df = Ok df'
    /\ map o_order_number (orders d') = map o_order_number (orders d) ++ new
    /\ length new = orders_created s
    /\ Forall (fun number => exists k g code token brand_code count,
                 k ∈ groupby df' /\ k.1.2 = VStr g
                 /\ dict_of (LOCATION_MAP v) !! g = Some code
                 /\ code <> "UNK"
                 /\ number = disambiguate (order_number_of v token brand_code code) count) new.
Proof.
  intros Hrun.
  destruct (main_run_of _ _ _ _ _ Hrun)
    as (df' & c' & Hclean & (c1 & pids & c2 & om & c3 & c4 & Hs & Hp & Ho & Hi & ->) & ->).
  destruct (get_season_spec v (connect d)) as (sid & c1' & Hrun1 & _ & _ & Ho1 & _).
  rewrite Hs in Hrun1. injection Hrun1 as <- <-. simpl in Ho1.
  destruct (process_products_spec (season_id s) (brand_ids_of v (working c1)) df' c1)
    as (pids' & n' & newp & c2' & Hrun2 & [_ Hw2] & _).
  rewrite Hp in Hrun2. injection Hrun2 as <- <- <-.
  pose proof (wp_Ok _ _ _ _ _ _
                (create_orders_loop v (season_id s) (brand_ids_of v (working c1))
                   (dict_of_rows (select_locations (working c1))) (groupby df') ([], 0%nat) c2)
                Ho) as (newo & [_ Hw3] & Hmade & Hn).
  destruct (add_order_items_Ok _ _ _ _ _ _ _ Hi) as (newi & [_ Hw4] & _).
  exists df', (map o_order_number newo). split; [exact Hclean|]. split; [|split].
  - cbn [working]. rewrite update_order_totals_numbers, Hw4, Hw3, Hw2. simpl.
    now rewrite map_app, Ho1.
  - rewrite length_map. simpl in Hn. now symmetry.
  - apply Forall_forall. intros number Hnum.
    apply list_elem_of_In, in_map_iff in Hnum as (o & <- & Hin).
    apply list_elem_of_In in Hin. rewrite Forall_forall in Hmade.
    destruct (Hmade o Hin) as ((k & Hk & (b & g & code & date & token & count
                                          & Hb & Hg & Hcode & Hloc & Hsp & Hd & Hnumber)) & _).
    exists k, g, code, token, (upper (slice_to 3 b)), count.
    repeat split; try assumption. now apply (location_code_not_UNK v).
Qed.

(** C7 for a whole run: the products a run that succeeded leaves are
    those it found, as they were, followed by those it created. *)
Corollary run_keeps_products v df d s d' :
  main v df d = (Ok s, d') -> exists new, products d' = products d ++ new.
Proof.
  intros Hrun. destruct (main_Ok _ _ _ _ _ Hrun) as (df' & c' & _ & Htx & ->).
  pose proof (wp_Ok _ _ _ _ _ _ (transaction_products v df' (connect d)) Htx)
    as (_ & _ & _ & new & Hprod & _).
  now exists new.
Qed.

(** The scenario of the specification: on a database with the brand and
    the location and nothing else, the row makes the season Fall 2025, one
    product, the order AUG25-PRA-SLC shipping on 2025-08-01 and one item
    of five units at 10.0; the total of the order is 50.0. *)
Example scenario_run :
  main F25 [prana_row] empty_db
  = (Ok (mk_summary 1 1 1 1 0),
     mk_db [mk_season 1 "Fall 2025" "ordering"] [mk_brand 1 "Prana"] [mk_location 1 "SLC"]
           [mk_product 1 (Some "012345") (Some (VStr "Pants")) (Some (VStr ""))
                       (Some (VStr "")) (Some (VStr "")) (Some (VFloat (ffin (10 # 1))))
                       (Some (VInt 0)) (Some 1) (Some 1) true]
           [mk_order 1 "AUG25-PRA-SLC" (Some 1) 1 1 "2025-08-01" "preseason" "draft" 1
                     (Some (ffin (50 # 1)))]
           [mk_order_item 1 1 5 (ffin (10 # 1)) (Some (ffin (50 # 1)))]).
Proof. vm_compute. reflexivity. Qed.

(** Two rows of one group make one order with two items, and the total
    of the order is the sum of the two line totals. *)
Example two_rows_one_group :
  let d' := (main F25 [prana_row; prana_row] empty_db).2 in
  (length (orders d'), length (order_items d')) = (1%nat, 2%nat)
  /\ map o_current_total (orders d') = [Some (ffin (100 # 1))].
Proof. vm_compute. split; reflexivity. Qed.

(** A row whose gym is not in the location table makes no order and no
    item, and is counted as skipped. *)
Example unmapped_gym_is_skipped :
  let run := main F25 [mk_row (VStr "012345") (VStr "Prana") (VStr "Provo") (VStr "Aug")
                              (VInt 5) (VStr "Pants") None None None None None] empty_db in
  run.1 = Ok (mk_summary 1 1 0 0 1) /\ orders run.2 = [] /\ order_items run.2 = [].
Proof. vm_compute. repeat split. Qed.

(** * The stages and the whole run, exactly

    The properties above follow the specification.  Those below state
    what each stage of [main], and a whole run, does in full: which rows
    are made, with which values, and which are left alone. *)

Section LoaderMore.

Import Loader.

Lemma row_eta r :
  mk_row (UPC r) (Brand r) (Gym r) (Ship_Month r) (Quantity r) (Description r)
         (Product_Number r) (Color r) (Size r) (Wholesale r) (Retail r) = r.
Proof. now destruct r. Qed.

Lemma clean_of_cleaned df : Forall cleaned df -> clean df = Ok df.
Proof.
  unfold clean, dropna. induction 1 as [|r df Hr _ IH]; [reflexivity|].
  destruct Hr as ((u & Hu & Hs) & (n & Hn) & Hb & Hg).
  unfold DataFrame in *. rewrite filter_cons_True.
  2: { unfold complete. rewrite Hu, Hn, Hb, Hg. reflexivity. }
  cbn [strip_UPC map int_Quantity]. unfold strip_UPC in IH.
  cbn [set_UPC Quantity]. rewrite Hn. cbn [int result_bind]. rewrite IH.
  cbn [result_bind]. do 2 f_equal.
  unfold set_Quantity. cbn. rewrite Hu. cbn [str]. rewrite Hs, <- Hu, <- Hn.
  apply row_eta.
Qed.

Lemma int_Quantity_total df :
  Forall (fun r => exists n, int (Quantity r) = Ok n) df -> exists df', int_Quantity df = Ok df'.
Proof.
  induction 1 as [|r df [n Hn] _ [df' IH]]; [now exists []|].
  cbn [int_Quantity]. rewrite Hn, IH. cbn. eauto.
Qed.

Lemma strip_UPC_Quantity df :
  Forall2 (fun r r' => Quantity r' = Quantity r) df (strip_UPC df).
Proof. induction df as [|r df IH]; constructor; [reflexivity|exact IH]. Qed.

End LoaderMore.

(** X1.  Cleaning is idempotent: a sheet that the cleaning step returned
    is returned unchanged when it is cleaned again. *)
Theorem clean_idempotent (df df' : DataFrame) :
  Loader.clean df = Ok df' -> Loader.clean df' = Ok df'.
Proof. intros H. apply clean_of_cleaned. exact (clean_cleaned _ _ H). Qed.

Lemma clean_idempotent_witness : Loader.clean [prana_row] = Ok [prana_row].
Proof. apply (clean_idempotent [prana_row; no_gym_row]). vm_compute. reflexivity. Defined.

(** X2.  The cleaning step returns exactly when the Quantity of every row
    that has a value in each of UPC, Brand, Gym and Quantity converts to
    an integer: the quantity of a row that is dropped is never looked
    at, and one row whose quantity does not convert fails the whole
    run. *)
Theorem clean_returns_iff (df : DataFrame) :
  (exists df', Loader.clean df = Ok df')
  <-> Forall (fun r => exists n, int (Quantity r) = Ok n) (Loader.dropna df).
Proof.
  split.
  - intros [df' H]. apply clean_Forall2 in H.
    induction H as [|r r' l l' (n & Hn & _) _ IH]; constructor; eauto.
  - intros H. apply int_Quantity_total.
    pose proof (strip_UPC_Quantity (Loader.dropna df)) as H2.
    induction H2 as [|r r' l l' Hq _ IH]; [constructor|].
    inversion H as [|? ? Hr Hl]; subst. constructor; [now rewrite Hq|now apply IH].
Qed.

(** ** The season *)

Section Season.

Lemma upsert_season_keeps_rows name (ss : list season) :
  map (fun t => if bool_decide (s_name t = name)
                then mk_season (s_id t) name (s_status t) else t) ss = ss.
Proof.
  induction ss as [|t ss IH]; [reflexivity|]. cbn [map]. rewrite IH. f_equal.
  destruct (bool_decide (s_name t = name)) eqn:Hn; [|reflexivity].
  apply bool_decide_eq_true in Hn. subst name. now destruct t.
Qed.

Lemma db_eta_seasons d : set_seasons (seasons d) d = d.
Proof. apply db_eta. Qed.

(** The upsert of the F25 script does what the select and the insert of
    the S26 script do. *)
Lemma upsert_season_select_or_insert name status d :
  upsert_season name status d
  = match select_season name d with
    | Some i => (i, d)
    | None => insert_season name status d
    end.
Proof.
  unfold upsert_season, select_season, insert_season.
  destruct (find _ (seasons d)) as [s0|]; cbn [fmap option_fmap option_map]; [|reflexivity].
  now rewrite upsert_season_keeps_rows, db_eta_seasons.
Qed.

Lemma get_season_select_or_insert v c :
  get_season v c
  = match select_season (SEASON v) (working c) with
    | Some i => (Ok i, c)
    | None =>
        (Ok (insert_season (SEASON v) "ordering" (working c)).1,
         mk_connection (committed c) (insert_season (SEASON v) "ordering" (working c)).2)
    end.
Proof.
  destruct v; cbn [get_season SEASON].
  - unfold execute. rewrite upsert_season_select_or_insert.
    destruct (select_season _ _); cbn; [now rewrite connection_eta|reflexivity].
  - cbv [mbind M_bind query execute]. rewrite connection_eta.
    destruct (select_season _ _); cbn; [reflexivity|reflexivity].
Qed.

Lemma fresh_id_above ids i : i ∈ ids -> i < fresh_id ids.
Proof.
  unfold fresh_id. induction ids as [|j ids IH]; intros Hi; [inversion Hi|].
  apply elem_of_cons in Hi as [->|Hi]; cbn [foldr]; [lia|]. specialize (IH Hi). lia.
Qed.

Lemma find_app_None {A} (f : A -> bool) l x :
  find f l = None -> find f (l ++ [x]) = if f x then Some x else None.
Proof.
  induction l as [|y l IH]; cbn [find app]; [reflexivity|].
  destruct (f y); [discriminate|exact IH].
Qed.

Lemma select_season_after_insert name status d :
  select_season name d = None ->
  select_season name (insert_season name status d).2 = Some (insert_season name status d).1.
Proof.
  unfold select_season, insert_season. cbn [snd fst seasons set_seasons].
  destruct (find _ (seasons d)) eqn:Hf; [discriminate|]. intros _.
  rewrite (find_app_None _ _ _ Hf). cbn [s_name].
  rewrite bool_decide_eq_true_2 by reflexivity. reflexivity.
Qed.

End Season.

(** X3.  The season stage, in both scripts: it returns the id of the
    first season row that has the name of the script's season and, when
    there is such a row, changes nothing (the status of the row
    included); when there is none it appends one row with that name, the
    status [ordering] and an id no season row had, and returns this id.
    It never raises, and leaves the committed database alone. *)
Theorem season_is_found_or_created (v : script) (c : connection) :
  exists sid c',
    get_season v c = (Ok sid, c')
    /\ committed c' = committed c
    /\ select_season (SEASON v) (working c') = Some sid
    /\ match select_season (SEASON v) (working c) with
       | Some i => sid = i /\ working c' = working c
       | None =>
           working c'
           = set_seasons (seasons (working c) ++ [mk_season sid (SEASON v) "ordering"])
                         (working c)
           /\ sid ∉ map s_id (seasons (working c))
       end.
Proof.
  rewrite get_season_select_or_insert.
  destruct (select_season (SEASON v) (working c)) as [i|] eqn:Hsel.
  - exists i, c. repeat split; assumption.
  - eexists _, _. split; [reflexivity|]. cbn [committed working].
    split; [reflexivity|]. split; [now apply select_season_after_insert|].
    split; [reflexivity|].
    intros Hin. apply fresh_id_above in Hin. cbn [insert_season fst] in Hin. lia.
Qed.

(** X4.  Obtaining the season is idempotent: run again on the connection
    it left, the season stage returns the same id and changes nothing. *)
Theorem season_stage_idempotent (v : script) (c c' : connection) (sid : Z) :
  get_season v c = (Ok sid, c') -> get_season v c' = (Ok sid, c').
Proof.
  rewrite !get_season_select_or_insert.
  destruct (select_season (SEASON v) (working c)) as [i|] eqn:Hsel; intros [= <- <-].
  - now rewrite Hsel.
  - pose proof (select_season_after_insert _ "ordering" _ Hsel) as H.
    cbn [insert_season fst snd] in H. cbn [working]. now rewrite H.
Qed.

Lemma season_stage_idempotent_witness :
  let c' := mk_connection empty_db
              (set_seasons [mk_season 1 "Spring 2026" "ordering"] empty_db) in
  get_season S26 c' = (Ok 1, c').
Proof. apply (season_stage_idempotent S26 (connect empty_db)). vm_compute. reflexivity. Defined.

(** ** Brand and location identifiers, exactly *)

Section Ids.

Lemma dict_of_rows_snoc rows r : dict_of_rows (rows ++ [r]) = <[r.2 := r.1]> (dict_of_rows rows).
Proof. unfold dict_of_rows. now rewrite foldl_snoc. Qed.

(** The dict of a query result holds, for a key, the id of the last row
    that has the key. *)
Lemma dict_of_rows_last rows k i :
  dict_of_rows rows !! k = Some i
  <-> exists l1 l2, rows = l1 ++ (i, k) :: l2 /\ Forall (fun r : Z * string => r.2 <> k) l2.
Proof.
  induction rows as [|[j k'] rows IH] using rev_ind.
  - split; [discriminate|]. intros (l1 & l2 & H & _). now destruct l1.
  - rewrite dict_of_rows_snoc. cbn [fst snd]. destruct (decide (k' = k)) as [->|Hne].
    + rewrite lookup_insert_eq. split.
      * intros [= ->]. exists rows, []. split; [reflexivity|constructor].
      * intros (l1 & l2 & H & Hl2).
        destruct l2 as [|x l2 _] using rev_ind.
        -- apply app_inj_tail in H as [_ [= ->]]. reflexivity.
        -- rewrite app_comm_cons, app_assoc in H. apply app_inj_tail in H as [_ <-].
           apply Forall_app in Hl2 as [_ Hx]. inversion Hx; subst. now cbn in *.
    + rewrite lookup_insert_ne by exact Hne. rewrite IH. split.
      * intros (l1 & l2 & -> & Hl2). exists l1, (l2 ++ [(j, k')]).
        split; [now rewrite <- app_assoc|]. apply Forall_app. split; [exact Hl2|].
        constructor; [exact Hne|constructor].
      * intros (l1 & l2 & H & Hl2).
        destruct l2 as [|x l2 _] using rev_ind.
        -- apply app_inj_tail in H as [_ [= _ ->]]. contradiction.
        -- rewrite app_comm_cons, app_assoc in H. apply app_inj_tail in H as [-> _].
           apply Forall_app in Hl2 as [Hl2 _]. eauto.
Qed.

Lemma map_ids_from table (db_rows acc : gmap string Z) k :
  NoDup (map fst table) ->
  foldl (fun ids (entry : string * string) =>
           match db_rows !! entry.2 with
           | Some i => <[entry.1 := i]> ids
           | None => ids
           end) acc table !! k
  = match dict_of table !! k ≫= (fun name => db_rows !! name) with
    | Some i => Some i
    | None => acc !! k
    end.
Proof.
  revert acc. induction table as [|[k0 n0] table IH]; intros acc Hnd; [reflexivity|].
  cbn [map fst] in Hnd. apply NoDup_cons in Hnd as [Hk0 Hnd].
  cbn [foldl fst snd]. rewrite (IH _ Hnd). unfold dict_of. cbn [list_to_map foldr].
  destruct (decide (k0 = k)) as [->|Hne].
  - rewrite lookup_insert_eq.
    assert (Hnone : (list_to_map table : gmap string string) !! k = None).
    { apply not_elem_of_list_to_map_1. exact Hk0. }
    unfold dict_of in *. rewrite Hnone. cbn [mbind option_bind].
    cbn [snd]. destruct (db_rows !! n0) as [i|]; [now rewrite lookup_insert_eq|reflexivity].
  - rewrite lookup_insert_ne by exact Hne.
    destruct (list_to_map table !! k ≫= _) as [i|]; [reflexivity|].
    destruct (db_rows !! n0) as [i|]; [now rewrite lookup_insert_ne by exact Hne|reflexivity].
Qed.

(** With a table whose labels are all different, a label has the id
    that its name has among the database rows. *)
Lemma map_ids_lookup table (db_rows : gmap string Z) k :
  NoDup (map fst table) ->
  map_ids table db_rows !! k = dict_of table !! k ≫= (fun name => db_rows !! name).
Proof.
  intros Hnd. unfold map_ids. rewrite (map_ids_from _ _ _ _ Hnd).
  now destruct (dict_of table !! k ≫= _).
Qed.

Lemma tables_NoDup v : NoDup (map fst (BRAND_MAP v)) /\ NoDup (map fst (LOCATION_MAP v)).
Proof.
  destruct v; split; cbn [BRAND_MAP LOCATION_MAP map fst];
    apply (bool_decide_unpack _); vm_compute; reflexivity.
Qed.

Lemma dict_of_lookup {A} (table : list (string * A)) k x :
  NoDup (map fst table) -> dict_of table !! k = Some x <-> (k, x) ∈ table.
Proof.
  intros Hnd. unfold dict_of. split.
  - apply elem_of_list_to_map_2.
  - apply elem_of_list_to_map_1. exact Hnd.
Qed.

Lemma last_with_rows {A} (f : A -> string) (g : A -> Z) (l : list A) name i :
  dict_of_rows (map (fun x => (g x, f x)) l) !! name = Some i
  <-> exists x, last_with f name l x /\ g x = i.
Proof.
  rewrite dict_of_rows_last. split.
  - intros (l1 & l2 & H & Hl2).
    apply map_eq_app in H as (m1 & m2 & -> & <- & H).
    apply map_eq_cons in H as (x & m3 & -> & [= <- <-] & <-).
    exists x. split; [|reflexivity]. exists m1, m3. split; [reflexivity|]. split; [reflexivity|].
    rewrite Forall_forall in Hl2. apply Forall_forall. intros y Hy. apply (Hl2 (g y, f y)).
    apply list_elem_of_In, in_map_iff. exists y. split; [reflexivity|now apply list_elem_of_In].
  - intros (x & (l1 & l2 & -> & Hx & Hl2) & <-). subst name.
    exists (map (fun x => (g x, f x)) l1), (map (fun x => (g x, f x)) l2).
    split; [now rewrite map_app|].
    rewrite Forall_forall in Hl2. apply Forall_forall. intros y Hy.
    apply list_elem_of_In, in_map_iff in Hy as (z & <- & Hz).
    apply Hl2. now apply list_elem_of_In.
Qed.

End Ids.

(** X5.  What the identifier dicts hold.  A spreadsheet brand label has
    an id exactly when the brand table of the script gives it a database
    name and the brands of the database have a row of that name; the id
    is that of the last such row.  The same holds of gym labels,
    location codes and the locations of the database. *)
Theorem ids_are_those_of_the_named_rows (v : script) (d : db) :
  (forall b i,
      brand_ids_of v d !! b = Some i
      <-> exists name br, (b, name) ∈ BRAND_MAP v
                          /\ last_with b_name name (brands d) br /\ b_id br = i)
  /\ (forall g i,
        location_ids_of v d !! g = Some i
        <-> exists code l, (g, code) ∈ LOCATION_MAP v
                           /\ last_with l_code code (locations d) l /\ l_id l = i).
Proof.
  destruct (tables_NoDup v) as [Hb Hl].
  split; intros k i.
  - unfold brand_ids_of, select_brands. rewrite (map_ids_lookup _ _ _ Hb). split.
    + destruct (dict_of (BRAND_MAP v) !! k) as [name|] eqn:Hk; [|discriminate].
      cbn [mbind option_bind]. intros Hi.
      apply (dict_of_lookup _ _ _ Hb) in Hk. apply last_with_rows in Hi as (br & Hbr & Hid).
      eauto.
    + intros (name & br & Hk & Hbr & Hid). apply (dict_of_lookup _ _ _ Hb) in Hk.
      rewrite Hk. cbn [mbind option_bind]. apply last_with_rows. eauto.
  - unfold location_ids_of, select_locations. rewrite (map_ids_lookup _ _ _ Hl). split.
    + destruct (dict_of (LOCATION_MAP v) !! k) as [code|] eqn:Hk; [|discriminate].
      cbn [mbind option_bind]. intros Hi.
      apply (dict_of_lookup _ _ _ Hl) in Hk. apply last_with_rows in Hi as (l & Hl' & Hid).
      eauto.
    + intros (code & l & Hk & Hl' & Hid). apply (dict_of_lookup _ _ _ Hl) in Hk.
      rewrite Hk. cbn [mbind option_bind]. apply last_with_rows. eauto.
Qed.

(** X6.  Two spellings of a gym that the location table sends to the
    same code (as [SLC] with and without a trailing blank, or [Ogden]
    and [OGden], in the F25 script) get the same location id, or both
    none. *)
Theorem gym_spellings_share_the_id (v : script) (d : db) (g1 g2 code : string) :
  (g1, code) ∈ LOCATION_MAP v -> (g2, code) ∈ LOCATION_MAP v ->
  location_ids_of v d !! g1 = location_ids_of v d !! g2.
Proof.
  destruct (tables_NoDup v) as [_ Hl]. intros H1 H2.
  unfold location_ids_of. rewrite !(map_ids_lookup _ _ _ Hl).
  apply (dict_of_lookup _ _ _ Hl) in H1, H2. now rewrite H1, H2.
Qed.

Lemma gym_spellings_share_the_id_witness :
  location_ids_of F25 empty_db !! "SLC" = location_ids_of F25 empty_db !! "SLC ".
Proof.
  apply (gym_spellings_share_the_id F25 empty_db "SLC" "SLC " "SLC");
    apply list_elem_of_In; vm_compute; tauto.
Defined.

(** ** The first row of each UPC *)

Section DropDuplicates.

Lemma existsb_veqb_text x seen :
  is_text x -> existsb (veqb x) seen = true <-> x ∈ seen.
Proof.
  intros [u ->]. rewrite existsb_exists. split.
  - intros (y & Hy & He). destruct y; try discriminate.
    apply bool_decide_eq_true in He. subst. now apply list_elem_of_In.
  - intros Hin. exists (VStr u). split; [now apply list_elem_of_In|].
    cbn. now apply bool_decide_eq_true_2.
Qed.

Lemma drop_duplicates_from_first seen df r' :
  Forall (fun r => is_text (UPC r)) df ->
  r' ∈ drop_duplicates_from seen df
  <-> (UPC r' ∉ seen) /\ first_with UPC df r'.
Proof.
  intros Htext. revert seen. induction Htext as [|r df Hr _ IH]; intros seen.
  - cbn. split; [intros H; inversion H|]. intros (_ & l1 & l2 & H & _). now destruct l1.
  - cbn [drop_duplicates_from].
    destruct (existsb (veqb (UPC r)) seen) eqn:Hex.
    + apply (existsb_veqb_text _ _ Hr) in Hex. rewrite IH. split.
      * intros (Hs & l1 & l2 & -> & Hl1). split; [exact Hs|].
        exists (r :: l1), l2. split; [reflexivity|]. constructor; [congruence|exact Hl1].
      * intros (Hs & l1 & l2 & H & Hl1). split; [exact Hs|].
        destruct l1 as [|x l1]; cbn in H; inversion H; subst; [contradiction|].
        inversion Hl1; subst. now exists l1, l2.
    + assert (Hnot : UPC r ∉ seen).
      { intros Hin. apply (existsb_veqb_text _ _ Hr) in Hin. congruence. }
      rewrite elem_of_cons, IH, not_elem_of_cons. split.
      * intros [->|((Hne & Hs) & l1 & l2 & -> & Hl1)].
        -- split; [exact Hnot|]. exists [], df. split; [reflexivity|constructor].
        -- split; [exact Hs|]. exists (r :: l1), l2. split; [reflexivity|].
           constructor; [congruence|exact Hl1].
      * intros (Hs & l1 & l2 & H & Hl1).
        destruct l1 as [|x l1]; cbn in H; inversion H; subst; [now left|].
        inversion Hl1; subst. right. split; [split; [congruence|exact Hs]|].
        now exists l1, l2.
Qed.

Lemma drop_duplicates_from_NoDup seen df :
  Forall (fun r => is_text (UPC r)) df ->
  NoDup (map UPC (drop_duplicates_from seen df)).
Proof.
  intros Htext. revert seen. induction Htext as [|r df Hr Htext IH]; intros seen.
  - constructor.
  - cbn [drop_duplicates_from]. destruct (existsb _ seen); [apply IH|].
    cbn [map]. apply NoDup_cons. split; [|apply IH].
    intros Hin. apply list_elem_of_In, in_map_iff in Hin as (r' & He & Hin).
    apply list_elem_of_In, (drop_duplicates_from_first _ _ _ Htext) in Hin as [Hs _].
    apply Hs. rewrite He. apply list_elem_of_here.
Qed.

Lemma cleaned_upc_key r : cleaned r -> UPC r = VStr (upc_key r).
Proof. intros ((u & Hu & Hs) & _). unfold upc_key. rewrite Hu. cbn [str]. now rewrite Hs. Qed.

Lemma cleaned_is_text df : Forall cleaned df -> Forall (fun r => is_text (UPC r)) df.
Proof.
  intros H. eapply Forall_impl; [exact H|].
  intros r Hr. exists (upc_key r). now apply cleaned_upc_key.
Qed.

Lemma drop_duplicates_cleaned df r :
  Forall cleaned df -> r ∈ drop_duplicates df -> cleaned r.
Proof.
  intros Hc Hr. apply drop_duplicates_from_elem in Hr.
  rewrite Forall_forall in Hc. now apply Hc.
Qed.

Lemma upc_key_inj r r' : cleaned r -> cleaned r' -> upc_key r = upc_key r' -> UPC r = UPC r'.
Proof. intros H H' He. rewrite (cleaned_upc_key _ H), (cleaned_upc_key _ H'). now rewrite He. Qed.

Lemma drop_duplicates_keys_NoDup df :
  Forall cleaned df -> NoDup (map upc_key (drop_duplicates df)).
Proof.
  intros Hc.
  pose proof (drop_duplicates_from_NoDup [] df (cleaned_is_text _ Hc)) as Hnd.
  assert (Hall : Forall cleaned (drop_duplicates df)).
  { apply Forall_forall. intros r. now apply drop_duplicates_cleaned. }
  unfold drop_duplicates in *. induction (drop_duplicates_from [] df) as [|r l IH]; [constructor|].
  cbn [map] in *. apply NoDup_cons in Hnd as [Hr Hnd]. inversion Hall as [|? ? Hcr Hcl]; subst.
  apply NoDup_cons. split; [|now apply IH].
  intros Hin. apply Hr. apply list_elem_of_In, in_map_iff in Hin as (r' & He & Hin).
  apply list_elem_of_In, in_map_iff. exists r'. split; [|exact Hin].
  apply upc_key_inj; [|exact Hcr|exact He].
  rewrite Forall_forall in Hcl. apply Hcl. now apply list_elem_of_In.
Qed.

End DropDuplicates.

Lemma drop_duplicates_first df r :
  Forall cleaned df -> r ∈ drop_duplicates df <-> first_with upc_key df r.
Proof.
  intros Hc. unfold drop_duplicates.
  rewrite (drop_duplicates_from_first _ _ _ (cleaned_is_text _ Hc)). split.
  - intros (_ & l1 & l2 & -> & Hl1). exists l1, l2. split; [reflexivity|].
    apply Forall_app in Hc as [Hc1 Hc2]. inversion Hc2; subst.
    rewrite Forall_forall in Hl1, Hc1. apply Forall_forall. intros x Hx He.
    apply (Hl1 x Hx). apply upc_key_inj; auto.
  - intros (l1 & l2 & -> & Hl1). split; [apply not_elem_of_nil|].
    exists l1, l2. split; [reflexivity|].
    rewrite Forall_forall in Hl1. apply Forall_forall. intros x Hx He.
    apply (Hl1 x Hx). now apply upc_key_eq.
Qed.

(** X7.  The rows the product loop visits, for a cleaned sheet: a row is
    visited exactly when it is the first row of the sheet with its UPC,
    so every UPC of the sheet is visited once, with the cells of its
    first row. *)
Theorem first_row_of_each_UPC (df : DataFrame) :
  Forall cleaned df ->
  NoDup (map upc_key (drop_duplicates df))
  /\ (forall r, r ∈ drop_duplicates df <-> first_with upc_key df r)
  /\ (forall r, r ∈ df -> exists r', r' ∈ drop_duplicates df /\ upc_key r' = upc_key r).
Proof.
  intros Hc. split; [now apply drop_duplicates_keys_NoDup|]. split.
  - intros r. now apply drop_duplicates_first.
  - intros r Hr. rewrite Forall_forall in Hc.
    destruct (drop_duplicates_covers df r (upc_key r) Hr (cleaned_upc_key _ (Hc _ Hr)))
      as (r' & Hr' & Hu).
    exists r'. split; [exact Hr'|]. apply upc_key_eq. rewrite Hu.
    symmetry. apply cleaned_upc_key. now apply Hc.
Qed.

Lemma first_row_of_each_UPC_witness :
  NoDup (map upc_key (drop_duplicates [prana_row; prana_row]))
  /\ (forall r, r ∈ drop_duplicates [prana_row; prana_row]
                <-> first_with upc_key [prana_row; prana_row] r)
  /\ (forall r, r ∈ [prana_row; prana_row] ->
        exists r', r' ∈ drop_duplicates [prana_row; prana_row] /\ upc_key r' = upc_key r).
Proof.
  apply (first_row_of_each_UPC [prana_row; prana_row]).
  apply (clean_cleaned [prana_row; prana_row]). vm_compute. reflexivity.
Defined.

(** ** The products a run creates *)

Section ProductsExactly.

Lemma numbered_nil {A} (id : A -> Z) old : numbered id old [].
Proof. intros l1 x l2 H. now destruct l1. Qed.

Lemma numbered_cons {A} (id : A -> Z) old x new :
  id x = fresh_id (map id old) -> numbered id (old ++ [x]) new -> numbered id old (x :: new).
Proof.
  intros Hx Hnew l1 y l2 H. destruct l1 as [|z l1]; cbn in H; inversion H; subst.
  - now rewrite app_nil_r.
  - rewrite (Hnew l1 y l2 eq_refl), <- app_assoc. reflexivity.
Qed.

Lemma numbered_pos {A} (id : A -> Z) old new x : numbered id old new -> x ∈ new -> 0 < id x.
Proof.
  intros Hnum Hx. apply list_elem_of_split in Hx as (l1 & l2 & ->).
  rewrite (Hnum l1 x l2 eq_refl). apply fresh_id_pos.
Qed.

Lemma numbered_above {A} (id : A -> Z) old new x y :
  numbered id old new -> x ∈ old -> y ∈ new -> id x < id y.
Proof.
  intros Hnum Hx Hy. apply list_elem_of_split in Hy as (l1 & l2 & ->).
  rewrite (Hnum l1 y l2 eq_refl). apply fresh_id_above.
  apply list_elem_of_In, in_map, list_elem_of_In, elem_of_app. now left.
Qed.

Lemma numbered_tail {A} (id : A -> Z) old x new :
  numbered id old (x :: new) -> numbered id (old ++ [x]) new.
Proof.
  intros H l1 y l2 ->. rewrite (H (x :: l1) y l2 eq_refl), <- app_assoc. reflexivity.
Qed.

Lemma numbered_NoDup {A} (id : A -> Z) old new : numbered id old new -> NoDup (map id new).
Proof.
  revert old. induction new as [|x new IH]; intros old Hnum; [constructor|].
  cbn [map]. apply NoDup_cons. split; [|apply (IH _ (numbered_tail _ _ _ _ Hnum))].
  intros Hin. apply list_elem_of_In, in_map_iff in Hin as (y & He & Hy).
  apply list_elem_of_In in Hy.
  assert (Hlt : id x < id y).
  { apply (numbered_above id (old ++ [x]) new); [now apply numbered_tail| |exact Hy].
    apply elem_of_app. right. apply list_elem_of_here. }
  lia.
Qed.

Lemma numbered_new_ids {A} (id : A -> Z) old new :
  numbered id old new -> new_ids id old new.
Proof.
  intros Hnum. split; [|exact (numbered_NoDup _ _ _ Hnum)].
  apply Forall_forall. intros x Hx. split.
  - pose proof (numbered_pos _ _ _ _ Hnum Hx). lia.
  - intros Hin. apply list_elem_of_In, in_map_iff in Hin as (y & He & Hy).
    apply list_elem_of_In in Hy. pose proof (numbered_above _ _ _ _ _ Hnum Hy Hx). lia.
Qed.

Lemma NoDup_map_eq {A B} (f : A -> B) (l : list A) a b :
  NoDup (map f l) -> a ∈ l -> b ∈ l -> f a = f b -> a = b.
Proof.
  induction l as [|x l IH]; cbn [map]; intros Hnd Ha Hb He; [inversion Ha|].
  apply NoDup_cons in Hnd as [Hx Hnd].
  assert (Hin : forall y, y ∈ l -> f y ∈ map f l).
  { intros y Hy. apply list_elem_of_In, in_map. now apply list_elem_of_In. }
  apply elem_of_cons in Ha as [->|Ha]; apply elem_of_cons in Hb as [->|Hb].
  - reflexivity.
  - exfalso. apply Hx. rewrite He. now apply Hin.
  - exfalso. apply Hx. rewrite <- He. now apply Hin.
  - now apply IH.
Qed.

Lemma find_None {A} (f : A -> bool) l : (forall x, x ∈ l -> f x = false) -> find f l = None.
Proof.
  induction l as [|y l IH]; intros H; [reflexivity|]. cbn [find].
  rewrite (H y) by apply list_elem_of_here. apply IH. intros x Hx. apply H.
  now apply list_elem_of_further.
Qed.

Lemma insert_product_new new upc d :
  (forall p, p ∈ products d -> p_upc p <> Some upc) ->
  insert_product new upc d
  = (fresh_id (map p_id (products d)),
     set_products (products d ++ [new (fresh_id (map p_id (products d)))]) d).
Proof.
  intros H. unfold insert_product. rewrite find_None; [reflexivity|].
  intros p Hp. apply bool_decide_eq_false_2. now apply H.
Qed.

Lemma product_loop_exact sid (existing brand_ids : gmap string Z) rows :
  forall (pids : gmap string Z) n c,
  NoDup (map upc_key rows) ->
  (forall r p, r ∈ rows -> p ∈ products (working c) -> existing !! upc_key r = None ->
               p_upc p <> Some (upc_key r)) ->
  exists pids' n' new c',
    for_each (product_step sid existing brand_ids) (pids, n) rows c = (Ok (pids', n'), c')
    /\ n' = (n + length new)%nat
    /\ products_appended c c' new
    /\ numbered p_id (products (working c)) new
    /\ Forall2 (fun r p => product_made sid brand_ids r p
                           /\ pids' !! upc_key r = Some (p_id p))
               (filter (fun r => is_created existing brand_ids r = true) rows) new
    /\ (forall u, u ∉ map upc_key rows -> pids' !! u = pids !! u)
    /\ (forall r i, r ∈ rows -> existing !! upc_key r = Some i -> pids' !! upc_key r = Some i)
    /\ (forall r, r ∈ rows -> existing !! upc_key r = None ->
          falsy (dict_get brand_ids (Brand r)) = true -> pids' !! upc_key r = pids !! upc_key r).
Proof.
  induction rows as [|r rows IH]; intros pids n c Hnd Hfree.
  - exists pids, n, [], c. split; [reflexivity|]. split; [cbn; lia|].
    split; [apply products_appended_refl|]. split; [apply numbered_nil|].
    split; [constructor|].
    split; [reflexivity|]. split; [intros r i Hr|intros r Hr]; inversion Hr.
  - cbn [map] in Hnd. apply NoDup_cons in Hnd as [Hkey Hnd].
    assert (Hother : forall r', r' ∈ rows -> upc_key r' <> upc_key r).
    { intros r' Hr' He. apply Hkey. rewrite <- He.
      apply list_elem_of_In, in_map. now apply list_elem_of_In. }
    cbn [for_each]. cbv [mbind M_bind]. unfold product_step at 1. fold (upc_key r).
    destruct (existing !! upc_key r) as [i|] eqn:Hex.
    + (* the UPC is in the table *)
      cbv [mret M_ret].
      destruct (IH (<[upc_key r := i]> pids) n c Hnd) as
        (pids' & n' & new & c' & Hrun & Hn & Happ & Hnum & Hnew & Hframe & Hsome & Hnone).
      { intros r' p Hr'. apply Hfree. now apply list_elem_of_further. }
      exists pids', n', new, c'. split; [exact Hrun|]. split; [exact Hn|].
      split; [exact Happ|]. split; [exact Hnum|]. split.
      { rewrite filter_cons_False; [exact Hnew|].
        unfold is_created. rewrite Hex. cbn. discriminate. }
      split.
      { intros u Hu. apply not_elem_of_cons in Hu as [Hne Hu].
        rewrite (Hframe u Hu). now apply lookup_insert_ne. }
      split.
      { intros r' i' Hr' Hi'. apply elem_of_cons in Hr' as [->|Hr']; [|now apply Hsome].
        rewrite (Hframe _ Hkey), lookup_insert_eq. congruence. }
      intros r' Hr' Hn' Hf'. apply elem_of_cons in Hr' as [->|Hr']; [congruence|].
      rewrite (Hnone r' Hr' Hn' Hf'). apply lookup_insert_ne. intros He. now apply (Hother r').
    + destruct (falsy (dict_get brand_ids (Brand r))) eqn:Hbrand.
      * (* the brand has no id *)
        cbv [mret M_ret].
        destruct (IH pids n c Hnd) as
          (pids' & n' & new & c' & Hrun & Hn & Happ & Hnum & Hnew & Hframe & Hsome & Hnone).
        { intros r' p Hr'. apply Hfree. now apply list_elem_of_further. }
        exists pids', n', new, c'. split; [exact Hrun|]. split; [exact Hn|].
        split; [exact Happ|]. split; [exact Hnum|]. split.
        { rewrite filter_cons_False; [exact Hnew|].
          unfold is_created. rewrite Hbrand, andb_false_r. discriminate. }
        split.
        { intros u Hu. apply not_elem_of_cons in Hu as [Hne Hu]. now apply Hframe. }
        split.
        { intros r' i' Hr' Hi'. apply elem_of_cons in Hr' as [->|Hr']; [congruence|].
          now apply Hsome. }
        intros r' Hr' Hn' Hf'. apply elem_of_cons in Hr' as [->|Hr']; [|now apply Hnone].
        now apply Hframe.
      * (* a product is made *)
        destruct (falsy_false _ Hbrand) as (bid & Hbid & Hbid0).
        cbv [mbind M_bind execute]. rewrite insert_product_new.
        2: { intros p Hp. apply Hfree; [apply list_elem_of_here|exact Hp|exact Hex]. }
        cbv [mret M_ret]. cbn [committed working].
        set (i := fresh_id (map p_id (products (working c)))).
        set (p0 := product_of_row (upc_key r) r (default 0 (dict_get brand_ids (Brand r))) sid i).
        set (c1 := mk_connection (committed c)
                     (set_products (products (working c) ++ [p0]) (working c))).
        destruct (IH (<[upc_key r := i]> pids) (S n) c1 Hnd) as
          (pids' & n' & new & c' & Hrun & Hn & Happ & Hnum & Hnew & Hframe & Hsome & Hnone).
        { intros r' p Hr' Hp Hn'. unfold c1 in Hp. cbn [working set_products products] in Hp.
          apply elem_of_app in Hp as [Hp|Hp].
          - apply Hfree; [now apply list_elem_of_further|exact Hp|exact Hn'].
          - apply list_elem_of_singleton in Hp. subst p. unfold p0. cbn [p_upc product_of_row].
            intros [= He]. now apply (Hother r'). }
        exists pids', n', (p0 :: new), c'. split; [exact Hrun|].
        split; [cbn [length]; lia|]. split.
        { apply (products_appended_trans c c1 c' [p0] new); [|exact Happ].
          split; reflexivity. }
        split; [apply numbered_cons; [reflexivity|exact Hnum]|].
        split.
        { rewrite filter_cons_True.
          2: { unfold is_created. rewrite Hex, Hbrand. reflexivity. }
          constructor; [|exact Hnew]. split.
          - exists bid. split; [exact Hbid|]. split; [exact Hbid0|].
            unfold p0. rewrite Hbid. reflexivity.
          - rewrite (Hframe _ Hkey), lookup_insert_eq. reflexivity. }
        split.
        { intros u Hu. apply not_elem_of_cons in Hu as [Hne Hu].
          rewrite (Hframe u Hu). now apply lookup_insert_ne. }
        split.
        { intros r' i' Hr' Hi'. apply elem_of_cons in Hr' as [->|Hr']; [congruence|].
          now apply Hsome. }
        intros r' Hr' Hn' Hf'. apply elem_of_cons in Hr' as [->|Hr']; [congruence|].
        rewrite (Hnone r' Hr' Hn' Hf'). apply lookup_insert_ne. intros He.
        now apply (Hother r').
Qed.

End ProductsExactly.

Lemma process_products_exact sid brand_ids df c :
  Forall cleaned df ->
  let existing := existing_products_of (working c) in
  exists pids new c',
    process_products sid brand_ids df c = (Ok (pids, length new), c')
    /\ products_appended c c' new
    /\ numbered p_id (products (working c)) new
    /\ Forall2 (fun r p => product_made sid brand_ids r p
                           /\ pids !! upc_key r = Some (p_id p))
               (filter (fun r => is_created existing brand_ids r = true) (drop_duplicates df))
               new
    /\ (forall r i, r ∈ drop_duplicates df -> existing !! upc_key r = Some i ->
          pids !! upc_key r = Some i)
    /\ (forall r, r ∈ drop_duplicates df -> existing !! upc_key r = None ->
          falsy (dict_get brand_ids (Brand r)) = true -> pids !! upc_key r = None)
    /\ (forall u, u ∉ map upc_key df -> pids !! u = None).
Proof.
  intros Hc existing. rewrite process_products_unfold. fold existing.
  destruct (product_loop_exact sid existing brand_ids (drop_duplicates df) ∅ 0%nat c)
    as (pids & n & new & c' & Hrun & Hn & Happ & Hnum & Hnew & Hframe & Hsome & Hnone).
  { now apply drop_duplicates_keys_NoDup. }
  { intros r p _ Hp Hex. now apply (existing_products_None (working c)). }
  exists pids, new, c'. cbn in Hn. subst n. split; [exact Hrun|]. split; [exact Happ|].
  split; [exact Hnum|]. split; [exact Hnew|]. split; [exact Hsome|]. split.
  - intros r Hr Hex Hf. rewrite (Hnone r Hr Hex Hf). apply lookup_empty.
  - intros u Hu. rewrite Hframe; [apply lookup_empty|].
    intros Hin. apply Hu. apply list_elem_of_In, in_map_iff in Hin as (r & <- & Hr).
    apply list_elem_of_In, in_map. apply list_elem_of_In.
    apply list_elem_of_In in Hr. now apply drop_duplicates_from_elem in Hr.
Qed.

(** X8.  The products stage on a cleaned sheet, when it returns.  The
    rows it has added to the products table are, in sheet order, one
    for each first row of a UPC that is not in the table and whose brand
    has an id, made of the cells of that row (description, and number,
    colour, size, costs or their defaults), of the id of the brand and
    of the season of the run, each under a new id; [products_created] is
    their number.  The product dict holds the id found in the table for
    a UPC that is there, the id of the new row for one that was
    created, and nothing for any other UPC. *)
Theorem products_stage_on_a_cleaned_sheet (sid : Z) (brand_ids : gmap string Z)
    (df : DataFrame) (c : connection) (product_ids : gmap string Z)
    (products_created : nat) (c' : connection) :
  Forall cleaned df ->
  process_products sid brand_ids df c = (Ok (product_ids, products_created), c') ->
  let existing := existing_products_of (working c) in
  exists new,
    committed c' = committed c
    /\ working c' = set_products (products (working c) ++ new) (working c)
    /\ products_created = length new
    /\ new_ids p_id (products (working c)) new
    /\ Forall2 (fun r p => product_made sid brand_ids r p
                           /\ product_ids !! upc_key r = Some (p_id p))
               (filter (fun r => is_created existing brand_ids r = true) (drop_duplicates df))
               new
    /\ (forall r i, r ∈ drop_duplicates df -> existing !! upc_key r = Some i ->
          product_ids !! upc_key r = Some i)
    /\ (forall r, r ∈ drop_duplicates df -> existing !! upc_key r = None ->
          falsy (dict_get brand_ids (Brand r)) = true -> product_ids !! upc_key r = None)
    /\ (forall u, u ∉ map upc_key df -> product_ids !! u = None).
Proof.
  intros Hc Hrun existing.
  destruct (process_products_exact sid brand_ids df c Hc)
    as (pids & new & c0 & Hrun0 & [Hcom Hwork] & Hnum & H).
  rewrite Hrun in Hrun0. injection Hrun0 as -> -> ->.
  exists new. split; [exact Hcom|]. split; [exact Hwork|]. split; [reflexivity|].
  split; [now apply numbered_new_ids|]. exact H.
Qed.

Lemma products_stage_on_a_cleaned_sheet_witness :
  let df := [prana_row; unknown_brand_row; prana_row] in
  let c := connect empty_db in
  let brand_ids := brand_ids_of F25 empty_db in
  let run := process_products 1 brand_ids df c in
  let product_ids := match run.1 with Ok acc => acc.1 | Raise _ => ∅ end in
  let existing := existing_products_of (working c) in
  exists new,
    committed run.2 = committed c
    /\ working run.2 = set_products (products (working c) ++ new) (working c)
    /\ 1%nat = length new
    /\ new_ids p_id (products (working c)) new
    /\ Forall2 (fun r p => product_made 1 brand_ids r p
                           /\ product_ids !! upc_key r = Some (p_id p))
               (filter (fun r => is_created existing brand_ids r = true) (drop_duplicates df))
               new
    /\ (forall r i, r ∈ drop_duplicates df -> existing !! upc_key r = Some i ->
          product_ids !! upc_key r = Some i)
    /\ (forall r, r ∈ drop_duplicates df -> existing !! upc_key r = None ->
          falsy (dict_get brand_ids (Brand r)) = true -> product_ids !! upc_key r = None)
    /\ (forall u, u ∉ map upc_key df -> product_ids !! u = None).
Proof.
  apply (products_stage_on_a_cleaned_sheet 1 (brand_ids_of F25 empty_db)
           [prana_row; unknown_brand_row; prana_row] (connect empty_db)).
  - apply (clean_cleaned [prana_row; unknown_brand_row; prana_row]). vm_compute. reflexivity.
  - vm_compute. reflexivity.
Defined.

(** ** Group keys *)

Section KeyOrder.

Ltac qprop :=
  repeat match goal with
    | H : Qeq_bool _ _ = true |- _ => apply Qeq_bool_iff in H
    | H : Qle_bool _ _ = true |- _ => apply Qle_bool_iff in H
    | H : Qeq_bool _ _ = false |- _ => apply not_true_iff_false in H; rewrite Qeq_bool_iff in H
    | H : Qle_bool _ _ = false |- _ => apply not_true_iff_false in H; rewrite Qle_bool_iff in H
    | |- Qeq_bool _ _ = true => apply Qeq_bool_iff
    | |- Qle_bool _ _ = true => apply Qle_bool_iff
    | |- Qeq_bool _ _ = false => apply not_true_iff_false; rewrite Qeq_bool_iff
    | |- Qle_bool _ _ = false => apply not_true_iff_false; rewrite Qle_bool_iff
    end.

Ltac fcases :=
  unfold flt; cbn [float_leb float_eqb];
  repeat match goal with
    | b : bool |- _ => destruct b
    end;
  cbn [eqb]; intros;
  repeat match goal with
    | H : _ /\ _ |- _ => destruct H
    end;
  try discriminate; try reflexivity; try (split; reflexivity); try tauto;
  qprop; try (split; qprop); try lra.

Lemma float_eqb_refl x : x <> fnan -> float_eqb x x = true.
Proof. destruct x as [|a|p]; fcases; congruence. Qed.

Lemma float_eqb_sym x y : float_eqb x y = true -> float_eqb y x = true.
Proof. destruct x as [|a|p], y as [|b|q]; fcases. Qed.

Lemma float_eqb_trans x y z :
  float_eqb x y = true -> float_eqb y z = true -> float_eqb x z = true.
Proof. destruct x as [|a|p], y as [|b|q], z as [|c|r]; fcases. Qed.

Lemma flt_trans x y z : flt x y -> flt y z -> flt x z.
Proof. destruct x as [|a|p], y as [|b|q], z as [|c|r]; fcases. Qed.

Lemma float_eqb_flt x y z : float_eqb x y = true -> flt y z -> flt x z.
Proof. destruct x as [|a|p], y as [|b|q], z as [|c|r]; fcases. Qed.

Lemma flt_float_eqb x y z : flt x y -> float_eqb y z = true -> flt x z.
Proof. destruct x as [|a|p], y as [|b|q], z as [|c|r]; fcases. Qed.

Lemma flt_total x y :
  x <> fnan -> y <> fnan -> float_eqb x y = false -> float_leb x y = false -> flt y x.
Proof. destruct x as [|a|p], y as [|b|q]; fcases; congruence. Qed.

Lemma int_eqb_float m n : (m =? n) = float_eqb (float_of_int m) (float_of_int n).
Proof.
  cbn [float_of_int float_eqb]. apply eq_true_iff_eq.
  rewrite Z.eqb_eq, Qeq_bool_iff. unfold Qeq. cbn. lia.
Qed.

Lemma int_leb_float m n : (m <=? n) = float_leb (float_of_int m) (float_of_int n).
Proof.
  cbn [float_of_int float_leb]. apply eq_true_iff_eq.
  rewrite Z.leb_le, Qle_bool_iff. unfold Qle. cbn. lia.
Qed.

(** Texts *)

Lemma string_leb_trans s t u :
  String.leb s t = true -> String.leb t u = true -> String.leb s u = true.
Proof.
  unfold String.leb. revert t u.
  induction s as [|a s IH]; intros [|b t] [|c u]; cbn [String.compare];
    try reflexivity; try discriminate.
  unfold Ascii.compare.
  destruct (N.compare_spec (N_of_ascii a) (N_of_ascii b)) as [Hab|Hab|Hab];
    destruct (N.compare_spec (N_of_ascii b) (N_of_ascii c)) as [Hbc|Hbc|Hbc];
    destruct (N.compare_spec (N_of_ascii a) (N_of_ascii c)) as [Hac|Hac|Hac];
    try discriminate; try reflexivity; try lia.
  apply IH.
Qed.

Lemma slt_trans s t u : slt s t -> slt t u -> slt s u.
Proof.
  intros [H1 N1] [H2 N2]. split; [now apply (string_leb_trans s t u)|].
  apply bool_decide_eq_false in N1, N2. apply bool_decide_eq_false_2. intros ->.
  apply N1. now apply String.leb_antisym.
Qed.

Lemma slt_total s t : bool_decide (s = t) = false -> String.leb s t = false -> slt t s.
Proof.
  intros N H. split.
  - destruct (String.leb_total s t) as [H'|H']; [congruence|exact H'].
  - apply bool_decide_eq_false in N. apply bool_decide_eq_false_2. congruence.
Qed.

(** Values *)

Ltac vnum :=
  unfold vlt; cbn [veqb vleb isna];
  rewrite ?int_eqb_float, ?int_leb_float;
  try discriminate; try tauto; try reflexivity.

Lemma veqb_refl a : isna a = false -> veqb a a = true.
Proof.
  destruct a as [m|x|s]; vnum; intros H.
  - apply float_eqb_refl. discriminate.
  - apply float_eqb_refl. intros ->. discriminate.
  - now apply bool_decide_eq_true_2.
Qed.

Lemma veqb_sym a b : veqb a b = true -> veqb b a = true.
Proof.
  destruct a as [m|x|s], b as [n|y|t]; vnum; try apply float_eqb_sym.
  intros H. apply bool_decide_eq_true in H. now apply bool_decide_eq_true_2.
Qed.

Lemma veqb_trans a b c : veqb a b = true -> veqb b c = true -> veqb a c = true.
Proof.
  destruct a as [m|x|s], b as [n|y|t], c as [k|z|u]; vnum; try apply float_eqb_trans.
  intros H1 H2. apply bool_decide_eq_true in H1, H2. apply bool_decide_eq_true_2. congruence.
Qed.

Lemma vlt_trans a b c : vlt a b -> vlt b c -> vlt a c.
Proof.
  destruct a as [m|x|s], b as [n|y|t], c as [k|z|u]; vnum;
    try apply flt_trans; try apply slt_trans; try (intros [? ?] [? ?]; discriminate).
Qed.

Lemma veqb_vlt a b c : veqb a b = true -> vlt b c -> vlt a c.
Proof.
  destruct a as [m|x|s], b as [n|y|t], c as [k|z|u]; vnum;
    try apply float_eqb_flt; try (intros ? [? ?]; discriminate).
  intros H. apply bool_decide_eq_true in H. now subst.
Qed.

Lemma vlt_veqb a b c : vlt a b -> veqb b c = true -> vlt a c.
Proof.
  destruct a as [m|x|s], b as [n|y|t], c as [k|z|u]; vnum;
    try apply flt_float_eqb; try (intros [? ?] ?; discriminate).
  intros H1 H. apply bool_decide_eq_true in H. now subst.
Qed.

Lemma vlt_total a b :
  isna a = false -> isna b = false -> veqb a b = false -> vleb a b = false -> vlt b a.
Proof.
  destruct a as [m|x|s], b as [n|y|t]; vnum; intros Ha Hb;
    try (apply flt_total; try discriminate; try (intros ->; discriminate)).
  apply slt_total.
Qed.

(** Keys *)

Lemma key_lt_cases a b :
  key_lt a b
  <-> vlt a.1.1 b.1.1
      \/ (veqb a.1.1 b.1.1 = true
          /\ (vlt a.1.2 b.1.2 \/ (veqb a.1.2 b.1.2 = true /\ vlt a.2 b.2))).
Proof.
  unfold key_lt, key_leb, key_eqb, vlt.
  destruct (veqb a.1.1 b.1.1), (veqb a.1.2 b.1.2), (veqb a.2 b.2);
    cbn [andb]; intuition congruence.
Qed.

Lemma key_lt_trans a b c : key_lt a b -> key_lt b c -> key_lt a c.
Proof.
  rewrite !key_lt_cases.
  intros [H1|[E1 [H2|[E2 H3]]]] [K1|[F1 [K2|[F2 K3]]]].
  - left. now apply (vlt_trans _ b.1.1).
  - left. now apply (vlt_veqb _ b.1.1).
  - left. now apply (vlt_veqb _ b.1.1).
  - left. now apply (veqb_vlt _ b.1.1).
  - right. split; [now apply (veqb_trans _ b.1.1)|]. left. now apply (vlt_trans _ b.1.2).
  - right. split; [now apply (veqb_trans _ b.1.1)|]. left. now apply (vlt_veqb _ b.1.2).
  - left. now apply (veqb_vlt _ b.1.1).
  - right. split; [now apply (veqb_trans _ b.1.1)|]. left. now apply (veqb_vlt _ b.1.2).
  - right. split; [now apply (veqb_trans _ b.1.1)|]. right.
    split; [now apply (veqb_trans _ b.1.2)|]. now apply (vlt_trans _ b.2).
Qed.

Lemma key_eqb_refl k : key_isna k = false -> key_eqb k k = true.
Proof.
  unfold key_isna, key_eqb. intros H.
  apply orb_false_elim in H as [H H3]. apply orb_false_elim in H as [H1 H2].
  now rewrite !veqb_refl.
Qed.

Lemma key_eqb_sym a b : key_eqb a b = true -> key_eqb b a = true.
Proof.
  unfold key_eqb. intros H.
  apply andb_prop in H as [H H3]. apply andb_prop in H as [H1 H2].
  now rewrite (veqb_sym _ _ H1), (veqb_sym _ _ H2), (veqb_sym _ _ H3).
Qed.

Lemma key_eqb_trans a b c : key_eqb a b = true -> key_eqb b c = true -> key_eqb a c = true.
Proof.
  unfold key_eqb. intros H K.
  apply andb_prop in H as [H H3]. apply andb_prop in H as [H1 H2].
  apply andb_prop in K as [K K3]. apply andb_prop in K as [K1 K2].
  now rewrite (veqb_trans _ _ _ H1 K1), (veqb_trans _ _ _ H2 K2), (veqb_trans _ _ _ H3 K3).
Qed.

Lemma key_lt_total a b :
  key_isna a = false -> key_isna b = false ->
  key_eqb a b = false -> key_leb a b = false -> key_lt b a.
Proof.
  unfold key_isna. intros Ha Hb.
  apply orb_false_elim in Ha as [Ha Ha3]. apply orb_false_elim in Ha as [Ha1 Ha2].
  apply orb_false_elim in Hb as [Hb Hb3]. apply orb_false_elim in Hb as [Hb1 Hb2].
  rewrite key_lt_cases. unfold key_eqb, key_leb.
  destruct (veqb a.1.1 b.1.1) eqn:E1.
  - destruct (veqb a.1.2 b.1.2) eqn:E2.
    + cbn [andb]. intros E3 L3. right. split; [now apply veqb_sym|]. right.
      split; [now apply veqb_sym|]. now apply vlt_total.
    + cbn [andb]. intros _ L2. right. split; [now apply veqb_sym|]. left.
      now apply vlt_total.
  - cbn [andb]. intros _ L1. left. now apply vlt_total.
Qed.

Lemma insert_key_above k' k ks :
  key_lt k' k -> Forall (key_lt k') ks -> Forall (key_lt k') (insert_key k ks).
Proof.
  intros Hlt. induction ks as [|x ks IH]; cbn [insert_key]; intros Hall.
  - constructor; [exact Hlt|constructor].
  - inversion Hall as [|? ? Hx Hks]; subst.
    destruct (key_eqb k x); [exact Hall|].
    destruct (key_leb k x); [constructor; [exact Hlt|exact Hall]|].
    constructor; [exact Hx|]. now apply IH.
Qed.

(** [insert_key] keeps a list of keys in strictly increasing order. *)
Lemma insert_key_increasing k ks :
  key_isna k = false -> Forall (fun x => key_isna x = false) ks ->
  increasing ks -> increasing (insert_key k ks).
Proof.
  intros Hk. induction ks as [|k' ks IH]; cbn [insert_key increasing].
  - intros _ _. split; [constructor|exact I].
  - intros Hks [Hall Hs]. inversion Hks as [|? ? Hk' Hks']; subst.
    destruct (key_eqb k k') eqn:He; [now split|].
    destruct (key_leb k k') eqn:Hl.
    + assert (Hlt : key_lt k k') by now split.
      cbn [increasing]. split; [|now split]. constructor; [exact Hlt|].
      eapply Forall_impl; [exact Hall|]. intros x Hx. now apply (key_lt_trans k k' x).
    + cbn [increasing]. split; [|now apply IH].
      apply insert_key_above; [|exact Hall]. now apply key_lt_total.
Qed.

Lemma insert_key_elem k ks x : x ∈ insert_key k ks -> x = k \/ x ∈ ks.
Proof.
  induction ks as [|k' ks IH]; cbn [insert_key].
  - intros H. apply list_elem_of_singleton in H. now left.
  - destruct (key_eqb k k'); [now right|].
    destruct (key_leb k k').
    + intros H. apply elem_of_cons in H as [->|H]; [now left|now right].
    + intros H. apply elem_of_cons in H as [->|H]; [right; apply list_elem_of_here|].
      destruct (IH H) as [->|H']; [now left|right; now apply list_elem_of_further].
Qed.

Lemma insert_key_keeps k ks x : x ∈ ks -> x ∈ insert_key k ks.
Proof.
  induction ks as [|k' ks IH]; cbn [insert_key]; [intros H; inversion H|].
  destruct (key_eqb k k'); [tauto|]. destruct (key_leb k k').
  - intros H. now apply list_elem_of_further.
  - intros H. apply elem_of_cons in H as [->|H]; [apply list_elem_of_here|].
    apply list_elem_of_further. now apply IH.
Qed.

Lemma insert_key_has k ks :
  key_isna k = false -> exists k', k' ∈ insert_key k ks /\ key_eqb k' k = true.
Proof.
  intros Hk. induction ks as [|k' ks IH]; cbn [insert_key].
  - exists k. split; [apply list_elem_of_here|now apply key_eqb_refl].
  - destruct (key_eqb k k') eqn:He.
    + exists k'. split; [apply list_elem_of_here|now apply key_eqb_sym].
    + destruct (key_leb k k').
      * exists k. split; [apply list_elem_of_here|now apply key_eqb_refl].
      * destruct IH as (x & Hx & Hxe). exists x. split; [now apply list_elem_of_further|exact Hxe].
Qed.

End KeyOrder.

Section Groups.

Lemma veqb_nan_r a : veqb a NaN = false.
Proof. destruct a as [m|[|b|q]|s]; reflexivity. Qed.

Lemma key_eqb_isna k k' : key_isna k' = true -> key_eqb k k' = false.
Proof.
  unfold key_isna, key_eqb. intros H.
  destruct k' as [[a b] c]. cbn [fst snd] in *.
  assert (Hn : forall x, isna x = true -> x = NaN).
  { intros [m|[|s|q]|s]; cbn; try discriminate. reflexivity. }
  destruct (isna a) eqn:Ha; [rewrite (Hn _ Ha), veqb_nan_r; reflexivity|].
  destruct (isna b) eqn:Hb; [rewrite (Hn _ Hb), veqb_nan_r, andb_false_r; reflexivity|].
  cbn in H. rewrite (Hn _ H), veqb_nan_r. apply andb_false_r.
Qed.

Lemma groupby_from_increasing l :
  Forall (fun x => key_isna x = false) l ->
  increasing (foldr insert_key [] l)
  /\ Forall (fun x => key_isna x = false) (foldr insert_key [] l).
Proof.
  induction 1 as [|k l Hk _ [IH1 IH2]]; cbn [foldr]; [split; [exact I|constructor]|].
  split; [now apply insert_key_increasing|].
  apply Forall_forall. intros x Hx. apply insert_key_elem in Hx as [->|Hx]; [exact Hk|].
  rewrite Forall_forall in IH2. now apply IH2.
Qed.

Lemma groupby_keys df : Forall (fun k => key_isna k = false) (groupby df).
Proof.
  apply groupby_from_increasing, Forall_forall. intros k Hk.
  now apply list_elem_of_filter in Hk as [Hk _].
Qed.

Lemma groupby_increasing df : increasing (groupby df).
Proof.
  apply groupby_from_increasing, Forall_forall. intros k Hk.
  now apply list_elem_of_filter in Hk as [Hk _].
Qed.

Lemma groupby_elem df k : k ∈ groupby df -> exists r, r ∈ df /\ key_of r = k.
Proof.
  unfold groupby.
  assert (H : forall l, k ∈ foldr insert_key [] l -> k ∈ l).
  { induction l as [|x l IH]; cbn [foldr]; [tauto|]. intros Hk.
    apply insert_key_elem in Hk as [->|Hk]; [apply list_elem_of_here|].
    apply list_elem_of_further. now apply IH. }
  intros Hk. apply H, list_elem_of_filter in Hk as [_ Hk].
  apply list_elem_of_In, in_map_iff in Hk as (r & Hr & Hin).
  exists r. split; [now apply list_elem_of_In|exact Hr].
Qed.

Lemma groupby_has df r :
  r ∈ df -> key_isna (key_of r) = false ->
  exists k, k ∈ groupby df /\ key_eqb k (key_of r) = true.
Proof.
  intros Hr Hk. unfold groupby.
  assert (Hin : key_of r ∈ filter (fun k => key_isna k = false) (map key_of df)).
  { apply list_elem_of_filter. split; [exact Hk|].
    apply list_elem_of_In, in_map. now apply list_elem_of_In. }
  revert Hin. generalize (filter (fun k => key_isna k = false) (map key_of df)).
  induction l as [|x l IH]; intros Hin; [inversion Hin|]. cbn [foldr].
  apply elem_of_cons in Hin as [<-|Hin]; [now apply insert_key_has|].
  destruct (IH Hin) as (k & Hk' & He). exists k. split; [now apply insert_key_keeps|exact He].
Qed.

Lemma increasing_unique ks a b :
  increasing ks -> a ∈ ks -> b ∈ ks -> key_eqb a b = true -> a = b.
Proof.
  induction ks as [|k ks IH]; cbn [increasing]; [intros _ Ha; inversion Ha|].
  intros [Hall Hs] Ha Hb He. rewrite Forall_forall in Hall.
  apply elem_of_cons in Ha as [->|Ha]; apply elem_of_cons in Hb as [->|Hb].
  - reflexivity.
  - destruct (Hall b Hb) as [_ Hne]. congruence.
  - destruct (Hall a Ha) as [_ Hne]. apply key_eqb_sym in He. congruence.
  - now apply IH.
Qed.

Lemma increasing_NoDup ks :
  Forall (fun k => key_isna k = false) ks -> increasing ks -> NoDup ks.
Proof.
  induction ks as [|k ks IH]; cbn [increasing]; [constructor|]. intros Hna [Hall Hs].
  inversion Hna as [|? ? Hk Hks]; subst.
  apply NoDup_cons. split; [|now apply IH].
  intros Hin. rewrite Forall_forall in Hall. destruct (Hall k Hin) as [_ Hne].
  rewrite key_eqb_refl in Hne by exact Hk. discriminate.
Qed.

End Groups.

(** X9.  The groups of a sheet.  Every group key is the key of a row and
    has no empty cell; every row whose Brand, Gym and Ship Month cells
    all hold a value belongs to exactly one group; a row with an empty
    cell among the three belongs to none; and no key is met twice, so
    the order loop visits each (brand, gym, ship month) combination
    once. *)
Theorem one_group_per_combination (df : DataFrame) :
  NoDup (groupby df)
  /\ (forall k, k ∈ groupby df ->
        key_isna k = false /\ exists r, r ∈ df /\ key_of r = k)
  /\ (forall r, r ∈ df -> key_isna (key_of r) = false ->
        exists k, k ∈ groupby df /\ key_eqb k (key_of r) = true
                  /\ forall k', k' ∈ groupby df -> key_eqb k' (key_of r) = true -> k' = k)
  /\ (forall r k, key_isna (key_of r) = true -> key_eqb k (key_of r) = false).
Proof.
  pose proof (groupby_keys df) as Hna. pose proof (groupby_increasing df) as Hinc.
  split; [now apply increasing_NoDup|]. split; [|split].
  - intros k Hk. split; [|now apply groupby_elem].
    rewrite Forall_forall in Hna. now apply Hna.
  - intros r Hr Hk. destruct (groupby_has df r Hr Hk) as (k & Hin & He).
    exists k. split; [exact Hin|]. split; [exact He|].
    intros k' Hin' He'. apply (increasing_unique (groupby df)); try assumption.
    apply (key_eqb_trans k' (key_of r) k); [exact He'|now apply key_eqb_sym].
  - intros r k. apply key_eqb_isna.
Qed.

(** ** The orders a run creates *)

Section OrdersExactly.

Lemma create_orders_pairs v sid brand_ids db_locations ks om n c :
  let location_ids := map_ids (LOCATION_MAP v) db_locations in
  wp (for_each (order_step v sid brand_ids location_ids) (om, n) ks)
     (fun acc' c' =>
        exists om_new new,
          acc'.1 = om_new ++ om
          /\ acc'.2 = (n + length new)%nat
          /\ orders_added c c' new
          /\ map fst (rev om_new)
             = filter (fun k => survives brand_ids location_ids k = true) ks
          /\ Forall2 (order_entry v sid brand_ids location_ids) (rev om_new) new
          /\ numbered o_id (orders (working c)) new)
     any_exn c.
Proof.
  intros location_ids. revert om n c.
  induction ks as [|[[brand gym] ship_month] ks IH]; intros om n c; cbn [for_each].
  - apply wp_ret. exists [], []. cbn. split; [reflexivity|]. split; [lia|].
    split; [apply orders_added_refl|]. split; [reflexivity|]. split; [constructor|].
    apply numbered_nil.
  - apply wp_bind.
    destruct (falsy (dict_get brand_ids brand) || falsy (dict_get location_ids gym)) eqn:Hf.
    + assert (Hsv : survives brand_ids location_ids (brand, gym, ship_month) = false)
        by (unfold survives; simpl; now rewrite Hf).
      unfold wp at 1. rewrite order_step_skip by exact Hf.
      eapply wp_mono; [| |apply (IH om n c)]; [|intros; exact I].
      intros [om' n'] c' (om_new & new & H1 & H2 & H3 & H4 & H5 & H6).
      exists om_new, new. rewrite filter_cons_False by (rewrite Hsv; discriminate).
      repeat (split; [assumption|]). assumption.
    + assert (Hsv : survives brand_ids location_ids (brand, gym, ship_month) = true)
        by (unfold survives; simpl; now rewrite Hf).
      destruct (ship_period v ship_month) as [[date token]|e] eqn:Hs.
      * destruct (order_step_insert v sid brand_ids db_locations om n brand gym ship_month
                    date token c Hf Hs)
          as (b & g & code & bid & lid & -> & -> & Hcode & Hloc & Hbid & Hlid & Hrun).
        unfold wp at 1. fold location_ids in Hrun, Hlid. rewrite Hrun.
        set (o := new_order v sid bid lid date token b code (working c)).
        set (c1 := mk_connection _ _).
        eapply wp_mono; [| |apply IH]; [|intros; exact I].
        intros [om' n'] c' (om_new & new & H1 & H2 & H3 & H4 & H5 & H6).
        cbn [fst snd] in *.
        exists (om_new ++ [((VStr b, VStr g, ship_month), o_id o)]), (o :: new).
        split; [rewrite H1, <- app_assoc; reflexivity|].
        split; [cbn [length]; lia|]. split.
        { apply (orders_added_trans c c1 c' [o] new); [|exact H3]. split; reflexivity. }
        rewrite rev_app_distr. cbn [rev app map fst].
        split; [rewrite filter_cons_True by exact Hsv; now rewrite H4|].
        split.
        { constructor; [|exact H5]. unfold order_entry. cbn [fst snd].
          split; [reflexivity|]. split; [now apply new_order_of_group|].
          repeat split; assumption. }
        apply numbered_cons; [reflexivity|exact H6].
      * unfold wp at 1. rewrite (order_step_raise _ _ _ _ _ _ _ _ e) by assumption. exact I.
Qed.

End OrdersExactly.

Section OrderMap.

Lemma Forall2_impl_elem {A B} (P Q : A -> B -> Prop) l k :
  Forall2 P l k -> (forall x y, x ∈ l -> y ∈ k -> P x y -> Q x y) -> Forall2 Q l k.
Proof.
  induction 1 as [|x y l k Hxy _ IH]; intros H; constructor.
  - apply H; [apply list_elem_of_here..|exact Hxy].
  - apply IH. intros x' y' Hx' Hy'. apply H; now apply list_elem_of_further.
Qed.

Lemma Forall2_map_l {A B C} (f : A -> C) (P : C -> B -> Prop) l k :
  Forall2 (fun x y => P (f x) y) l k -> Forall2 P (map f l) k.
Proof. induction 1; constructor; assumption. Qed.

Lemma Forall2_zip {A B} (P : A -> B -> Prop) l k x y :
  Forall2 P l k -> (x, y) ∈ zip l k -> P x y.
Proof.
  induction 1 as [|x' y' l k Hxy _ IH]; cbn; intros Hin; [inversion Hin|].
  apply elem_of_cons in Hin as [[= -> ->]|Hin]; [exact Hxy|now apply IH].
Qed.

Lemma Forall2_elem_zip {A B} (P : A -> B -> Prop) l k x :
  Forall2 P l k -> x ∈ l -> exists y, (x, y) ∈ zip l k.
Proof.
  induction 1 as [|x' y' l k Hxy _ IH]; intros Hin; [inversion Hin|].
  apply elem_of_cons in Hin as [->|Hin].
  - exists y'. apply list_elem_of_here.
  - destruct (IH Hin) as [y Hy]. exists y. now apply list_elem_of_further.
Qed.

Lemma zip_map_fst {A B C} (f : A -> C) (l : list A) (k : list B) x y :
  (x, y) ∈ zip l k -> (f x, y) ∈ zip (map f l) k.
Proof.
  revert k. induction l as [|a l IH]; intros [|b k]; cbn; intros Hin; try now inversion Hin.
  apply elem_of_cons in Hin as [[= -> ->]|Hin]; [apply list_elem_of_here|].
  apply list_elem_of_further. now apply IH.
Qed.

Lemma NoDup_fst_eq {A B} (l : list (A * B)) a b :
  NoDup (map fst l) -> a ∈ l -> b ∈ l -> a.1 = b.1 -> a = b.
Proof.
  induction l as [|x l IH]; cbn [map]; intros Hnd Ha Hb He; [inversion Ha|].
  apply NoDup_cons in Hnd as [Hx Hnd].
  assert (Hin : forall y, y ∈ l -> y.1 ∈ map fst l).
  { intros y Hy. apply list_elem_of_In, in_map. now apply list_elem_of_In. }
  apply elem_of_cons in Ha as [->|Ha]; apply elem_of_cons in Hb as [->|Hb].
  - reflexivity.
  - exfalso. apply Hx. rewrite He. now apply Hin.
  - exfalso. apply Hx. rewrite <- He. now apply Hin.
  - now apply IH.
Qed.

Lemma order_map_get_Some om k i :
  order_map_get om k = Some i -> exists kv, kv ∈ om /\ key_eqb kv.1 k = true /\ kv.2 = i.
Proof.
  unfold order_map_get. destruct (find _ om) as [kv|] eqn:Hf; [|discriminate].
  intros [= <-]. apply find_some in Hf as [Hin He].
  exists kv. split; [now apply list_elem_of_In|]. split; [exact He|reflexivity].
Qed.

Lemma order_map_get_entry om kv :
  kv ∈ om -> key_isna kv.1 = false ->
  (forall kv', kv' ∈ om -> key_eqb kv'.1 kv.1 = true -> kv' = kv) ->
  order_map_get om kv.1 = Some kv.2.
Proof.
  intros Hin Hna Huniq. unfold order_map_get.
  destruct (find _ om) as [kv'|] eqn:Hf.
  - apply find_some in Hf as [Hin' He].
    rewrite (Huniq kv' (proj2 (list_elem_of_In _ _) Hin') He). reflexivity.
  - apply list_elem_of_In in Hin. apply (find_none _ _ Hf kv) in Hin.
    cbn in Hin. rewrite key_eqb_refl in Hin by exact Hna. discriminate.
Qed.

Lemma ship_period_Raise v x e :
  ship_period v x = Raise e ->
  v = F25 /\ e = AttributeError /\ forall s, x <> VStr s.
Proof.
  destruct v; cbn [ship_period]; [|discriminate].
  destruct x as [m|y|s]; cbn; intros [= <-]; repeat split; discriminate.
Qed.

End OrderMap.

Lemma create_orders_exact v sid brand_ids db_locations df c :
  let location_ids := map_ids (LOCATION_MAP v) db_locations in
  let groups := filter (fun k => survives brand_ids location_ids k = true) (groupby df) in
  wp (create_orders v sid brand_ids location_ids df)
     (fun acc c' =>
        exists new,
          orders_added c c' new
          /\ acc.2 = length new
          /\ Forall2 (fun k o => order_entry v sid brand_ids location_ids (k, o_id o) o
                                 /\ order_map_get acc.1 k = Some (o_id o))
                     groups new
          /\ numbered o_id (orders (working c)) new
          /\ forall k i, order_map_get acc.1 k = Some i ->
               exists k' o, (k', o) ∈ zip groups new /\ key_eqb k' k = true /\ i = o_id o)
     (fun e c' =>
        v = F25 /\ e = AttributeError /\ exists k, k ∈ groups /\ forall s, k.2 <> VStr s)
     c.
Proof.
  intros location_ids groups. unfold create_orders.
  eapply wp_mono;
    [| |apply (wp_conj _ _ _ _ _ _
                 (create_orders_pairs v sid brand_ids db_locations (groupby df) [] 0%nat c)
                 (create_orders_loop_keys v sid brand_ids db_locations (groupby df) [] 0%nat c
                    (Forall_nil_2 _)))].
  - intros [om n] c' [(om_new & new & Hom & Hn & Hadd & Hkeys & Hpairs & Hnum) _].
    cbn [fst snd] in *. rewrite app_nil_r in Hom. subst om.
    fold location_ids in Hkeys, Hpairs. fold groups in Hkeys.
    assert (Hin_groups : forall kv, kv ∈ rev om_new -> kv.1 ∈ groupby df).
    { intros kv Hkv.
      assert (Hg : kv.1 ∈ groups).
      { rewrite <- Hkeys. apply list_elem_of_In, in_map. now apply list_elem_of_In. }
      now apply list_elem_of_filter in Hg as [_ Hg]. }
    assert (Hnd : NoDup (map fst (rev om_new))).
    { rewrite Hkeys. apply NoDup_filter.
      apply increasing_NoDup; [apply groupby_keys|apply groupby_increasing]. }
    assert (Hrev : forall kv, kv ∈ om_new <-> kv ∈ rev om_new).
    { intros kv. rewrite !list_elem_of_In. apply in_rev. }
    exists new. split; [exact Hadd|]. split; [lia|]. split; [|split; [exact Hnum|]].
    + rewrite <- Hkeys. apply Forall2_map_l.
      eapply Forall2_impl_elem; [exact Hpairs|].
      intros [k i] o Hkv _ Hentry. cbn [fst].
      assert (Hi : i = o_id o) by apply Hentry. subst i. split; [exact Hentry|].
      apply (order_map_get_entry om_new (k, o_id o)).
      * now apply Hrev.
      * pose proof (groupby_keys df) as Hna. rewrite Forall_forall in Hna.
        apply Hna. now apply (Hin_groups (k, o_id o)).
      * intros kv' Hkv' He. apply Hrev in Hkv'.
        apply (NoDup_fst_eq (rev om_new)); [exact Hnd|exact Hkv'|exact Hkv|].
        apply (increasing_unique (groupby df)); [apply groupby_increasing| | |exact He].
        -- now apply Hin_groups.
        -- now apply (Hin_groups (k, o_id o)).
    + intros k i Hget. apply order_map_get_Some in Hget as (kv & Hkv & He & <-).
      apply Hrev in Hkv.
      destruct (Forall2_elem_zip _ _ _ _ Hpairs Hkv) as [o Ho].
      pose proof (Forall2_zip _ _ _ _ _ Hpairs Ho) as Hentry.
      exists kv.1, o. split; [|split; [exact He|apply Hentry]].
      rewrite <- Hkeys. now apply zip_map_fst.
  - intros e c' [_ (k & Hk & Hs & He)]. fold location_ids in Hs.
    apply ship_period_Raise in He as (-> & -> & Hx).
    split; [reflexivity|]. split; [reflexivity|]. exists k. split; [|exact Hx].
    apply list_elem_of_filter. now split.
Qed.

(** X10.  The orders stage.  When it returns, it has added one order
    for each group whose brand and gym both have an id, in the order of
    the groups, and nothing else: the order carries the ids of the
    brand and of the location of its group, the season of the run, the
    type [preseason], the status [draft], the creator 1 and no total;
    its id is the fresh id of the table it was added to; [order_map]
    sends the key of the group to that id, and sends a key to an id
    only if the key is equal to that of such a group.
    [orders_created] is the number of these orders.  The stage of the
    S26 script never raises; that of the F25 script raises, an
    AttributeError, only at a group with ids whose Ship Month is not a
    text. *)
Theorem one_order_per_surviving_group (v : script) (sid : Z)
    (brand_ids db_locations : gmap string Z) (df : DataFrame) (c : connection) :
  let location_ids := map_ids (LOCATION_MAP v) db_locations in
  let groups := filter (fun k => survives brand_ids location_ids k = true) (groupby df) in
  wp (create_orders v sid brand_ids location_ids df)
     (fun '(order_map, orders_created) c' =>
        exists new,
          committed c' = committed c
          /\ working c' = set_orders (orders (working c) ++ new) (working c)
          /\ orders_created = length new
          /\ Forall2 (fun k o => order_entry v sid brand_ids location_ids (k, o_id o) o
                                 /\ order_map_get order_map k = Some (o_id o))
                     groups new
          /\ numbered o_id (orders (working c)) new
          /\ forall k i, order_map_get order_map k = Some i ->
               exists k' o, (k', o) ∈ zip groups new /\ key_eqb k' k = true /\ i = o_id o)
     (fun e c' =>
        v = F25 /\ e = AttributeError /\ exists k, k ∈ groups /\ forall s, k.2 <> VStr s)
     c.
Proof.
  intros location_ids groups.
  eapply wp_mono; [| |apply (create_orders_exact v sid brand_ids db_locations df c)].
  - intros [om n] c' (new & [Hcom Hwork] & H). exists new.
    split; [exact Hcom|]. split; [exact Hwork|]. exact H.
  - intros e c' H. exact H.
Qed.


(** ** The whole run, stage by stage *)

Section Stages.

Lemma get_season_exact v c sid c' :
  get_season v c = (Ok sid, c') ->
  committed c' = committed c
  /\ working c' = set_seasons (seasons_after v sid (working c)) (working c)
  /\ select_season (SEASON v) (working c') = Some sid
  /\ match select_season (SEASON v) (working c) with
     | Some i => sid = i
     | None => sid = fresh_id (map s_id (seasons (working c)))
     end.
Proof.
  rewrite get_season_select_or_insert. unfold seasons_after.
  destruct (select_season (SEASON v) (working c)) as [i|] eqn:Hsel; intros [= <- <-].
  - rewrite db_eta_seasons. repeat split. exact Hsel.
  - cbn [committed working]. repeat split.
    now apply select_season_after_insert.
Qed.

(** What a run that returned did, stage by stage. *)
Lemma run_stages v df d s d' :
  main v df d = (Ok s, d') ->
  let sid := season_id s in
  let brand_ids := brand_ids_of v d in
  let location_ids := location_ids_of v d in
  let existing := existing_products_of d in
  let groups := filter (fun k => survives brand_ids location_ids k = true) in
  exists df' pids om newP newO newI,
    Loader.clean df = Ok df' /\ Forall cleaned df'
    /\ d' = (update_order_totals sid
               (before_totals d (seasons_after v sid d) newP newO newI)).2
    /\ match select_season (SEASON v) d with
       | Some i => sid = i
       | None => sid = fresh_id (map s_id (seasons d))
       end
    /\ (products_created s = length newP /\ orders_created s = length newO
        /\ items_added s = length newI
        /\ items_skipped s = length (filter (fun r => unresolved pids om r = true) df'))
    /\ (numbered p_id (products d) newP
        /\ Forall2 (fun r p => product_made sid brand_ids r p
                               /\ pids !! upc_key r = Some (p_id p))
                   (filter (fun r => is_created existing brand_ids r = true)
                           (drop_duplicates df')) newP
        /\ (forall r i, r ∈ drop_duplicates df' -> existing !! upc_key r = Some i ->
              pids !! upc_key r = Some i)
        /\ (forall r, r ∈ drop_duplicates df' -> existing !! upc_key r = None ->
              falsy (dict_get brand_ids (Brand r)) = true -> pids !! upc_key r = None))
    /\ (numbered o_id (orders d) newO
        /\ Forall2 (fun k o => order_entry v sid brand_ids location_ids (k, o_id o) o
                               /\ order_map_get om k = Some (o_id o))
                   (groups (groupby df')) newO
        /\ (forall k i, order_map_get om k = Some i ->
              exists k' o, (k', o) ∈ zip (groups (groupby df')) newO
                           /\ key_eqb k' k = true /\ i = o_id o))
    /\ Forall2 (item_of_row pids om) (filter (fun r => unresolved pids om r = false) df') newI.
Proof.
  intros Hmain sid brand_ids location_ids existing groups.
  destruct (main_run_of _ _ _ _ _ Hmain) as (df' & c' & Hclean & Hrun & ->).
  destruct Hrun as (c1 & pids & c2 & om & c3 & c4 & Hs & Hp & Ho & Hi & ->).
  fold sid in Hs, Hp, Ho.
  pose proof (clean_cleaned _ _ Hclean) as Hcl.
  (* the season *)
  destruct (get_season_exact _ _ _ _ Hs) as (Hc1 & Hw1 & _ & Hsid).
  cbn [connect committed working] in Hc1, Hw1, Hsid.
  assert (Hb1 : brand_ids_of v (working c1) = brand_ids).
  { apply brand_ids_of_ext. now rewrite Hw1. }
  assert (Hl1 : location_ids_of v (working c1) = location_ids).
  { apply location_ids_of_ext. now rewrite Hw1. }
  assert (He1 : existing_products_of (working c1) = existing).
  { apply existing_products_of_ext. now rewrite Hw1. }
  rewrite Hb1 in Hp, Ho. rewrite Hl1 in Ho.
  (* the products *)
  destruct (process_products_exact sid brand_ids df' c1 Hcl)
    as (pids' & newP & c2' & Hp' & [Hc2 Hw2] & HnumP & HnewP & HsomeP & HnoneP & _).
  rewrite Hp in Hp'. injection Hp' as <- HnP <-. rewrite He1 in HnewP, HsomeP, HnoneP.
  (* the orders *)
  pose proof (wp_Ok _ _ _ _ _ _
                (create_orders_exact v sid brand_ids
                   (dict_of_rows (select_locations d)) df' c2) Ho)
    as (newO & [Hc3 Hw3] & HnO & HnewO & HnumO & HmapO).
  cbn [fst snd] in HnO, HnewO, HmapO.
  (* the items *)
  destruct (add_order_items_Ok _ _ _ _ _ _ _ Hi) as (newI & [Hc4 Hw4] & HnewI & HnI & HnS).
  exists df', pids, om, newP, newO, newI.
  split; [exact Hclean|]. split; [exact Hcl|]. split.
  { cbn [working]. f_equal. rewrite Hw4, Hw3, Hw2, Hw1. reflexivity. }
  split; [exact Hsid|]. split; [repeat split; assumption|].
  split.
  { split; [|repeat split; assumption]. now rewrite Hw1 in HnumP. }
  split; [|exact HnewI].
  split; [|split; assumption].
  now rewrite Hw2, Hw1 in HnumO.
Qed.

End Stages.


(** ** Which rows get an item *)

Section Resolution.

Lemma veqb_dict_get {A} (m : gmap string A) a b : veqb a b = true -> dict_get m a = dict_get m b.
Proof.
  destruct a as [x|x|x], b as [y|y|y]; cbn; try discriminate; try reflexivity.
  intros H. apply bool_decide_eq_true in H. now subst.
Qed.

Lemma survives_eqb (brand_ids location_ids : gmap string Z) k k' :
  key_eqb k k' = true -> survives brand_ids location_ids k = survives brand_ids location_ids k'.
Proof.
  unfold key_eqb, survives. intros H.
  apply andb_prop in H as [H _]. apply andb_prop in H as [H1 H2].
  now rewrite (veqb_dict_get _ _ _ H1), (veqb_dict_get _ _ _ H2).
Qed.

Lemma find_ext_bool {A} (f g : A -> bool) l : (forall x, f x = g x) -> find f l = find g l.
Proof. intros H. induction l as [|x l IH]; cbn; [reflexivity|]. now rewrite H, IH. Qed.

Lemma order_map_get_eqb om k k' :
  key_eqb k k' = true -> order_map_get om k = order_map_get om k'.
Proof.
  intros He. unfold order_map_get. f_equal. apply find_ext_bool. intros kv.
  destruct (key_eqb kv.1 k) eqn:H1, (key_eqb kv.1 k') eqn:H2; try reflexivity.
  - rewrite (key_eqb_trans _ _ _ H1 He) in H2. discriminate.
  - rewrite (key_eqb_trans _ _ _ H2 (key_eqb_sym _ _ He)) in H1. discriminate.
Qed.

Lemma find_first {A} (f : A -> bool) l x :
  find f l = Some x ->
  exists l1 l2, l = l1 ++ x :: l2 /\ f x = true /\ Forall (fun y => f y = false) l1.
Proof.
  induction l as [|y l IH]; cbn [find]; [discriminate|].
  destruct (f y) eqn:Hy.
  - intros [= ->]. exists [], l. repeat split; [exact Hy|constructor].
  - intros H. destruct (IH H) as (l1 & l2 & -> & Hx & Hl1).
    exists (y :: l1), l2. repeat split; [exact Hx|now constructor].
Qed.

Lemma elem_of_zip {A B} (l : list A) (k : list B) x y : (x, y) ∈ zip l k -> x ∈ l /\ y ∈ k.
Proof.
  revert k. induction l as [|a l IH]; intros [|b k]; cbn; intros H; try now inversion H.
  apply elem_of_cons in H as [[= -> ->]|H]; [split; apply list_elem_of_here|].
  destruct (IH _ H). split; now apply list_elem_of_further.
Qed.

Variables (v : script) (d : db) (df : DataFrame) (sid : Z).
Variables (pids : gmap string Z) (om : list (key * Z)).
Variables (newP : list product) (newO : list order).

Let brand_ids := brand_ids_of v d.
Let location_ids := location_ids_of v d.
Let existing := existing_products_of d.
Let groups := filter (fun k => survives brand_ids location_ids k = true) (groupby df).

Hypothesis Hcl : Forall cleaned df.
Hypothesis HnumP : numbered p_id (products d) newP.
Hypothesis HnewP :
  Forall2 (fun r p => product_made sid brand_ids r p /\ pids !! upc_key r = Some (p_id p))
          (filter (fun r => is_created existing brand_ids r = true) (drop_duplicates df)) newP.
Hypothesis HsomeP :
  forall r i, r ∈ drop_duplicates df -> existing !! upc_key r = Some i ->
    pids !! upc_key r = Some i.
Hypothesis HnoneP :
  forall r, r ∈ drop_duplicates df -> existing !! upc_key r = None ->
    falsy (dict_get brand_ids (Brand r)) = true -> pids !! upc_key r = None.
Hypothesis HnumO : numbered o_id (orders d) newO.
Hypothesis HnewO :
  Forall2 (fun k o => order_entry v sid brand_ids location_ids (k, o_id o) o
                      /\ order_map_get om k = Some (o_id o)) groups newO.
Hypothesis HmapO :
  forall k i, order_map_get om k = Some i ->
    exists k' o, (k', o) ∈ zip groups newO /\ key_eqb k' k = true /\ i = o_id o.

(** The first row of the sheet with the UPC of a row. *)
Lemma first_row r :
  r ∈ df ->
  exists r0, find (fun r0 => bool_decide (upc_key r0 = upc_key r)) df = Some r0
             /\ r0 ∈ drop_duplicates df /\ upc_key r0 = upc_key r.
Proof.
  intros Hr.
  destruct (find (fun r0 => bool_decide (upc_key r0 = upc_key r)) df) as [r0|] eqn:Hf.
  - exists r0. split; [reflexivity|].
    destruct (find_first _ _ _ Hf) as (l1 & l2 & Hdf & Hk & Hl1).
    apply bool_decide_eq_true in Hk. split; [|exact Hk].
    apply (drop_duplicates_first _ _ Hcl). exists l1, l2. split; [exact Hdf|].
    eapply Forall_impl; [exact Hl1|]. intros x Hx. apply bool_decide_eq_false in Hx. congruence.
  - apply list_elem_of_In in Hr. apply (find_none _ _ Hf) in Hr.
    apply bool_decide_eq_false in Hr. now contradiction Hr.
Qed.

(** The product dict at the UPC of a row of the sheet. *)
Lemma product_of_row_cases r :
  r ∈ df ->
  (exists i, existing !! upc_key r = Some i /\ pids !! upc_key r = Some i)
  \/ (existing !! upc_key r = None
      /\ exists r0, find (fun r0 => bool_decide (upc_key r0 = upc_key r)) df = Some r0
           /\ ((falsy (dict_get brand_ids (Brand r0)) = true /\ pids !! upc_key r = None)
               \/ (falsy (dict_get brand_ids (Brand r0)) = false
                   /\ exists p, p ∈ newP /\ product_made sid brand_ids r0 p
                                /\ p_upc p = Some (upc_key r)
                                /\ pids !! upc_key r = Some (p_id p)))).
Proof.
  intros Hr. destruct (first_row r Hr) as (r0 & Hf & Hr0 & Hk).
  destruct (existing !! upc_key r) as [i|] eqn:Hex.
  - left. exists i. split; [reflexivity|]. rewrite <- Hk. apply HsomeP; [exact Hr0|].
    now rewrite Hk.
  - right. split; [reflexivity|]. exists r0. split; [exact Hf|].
    destruct (falsy (dict_get brand_ids (Brand r0))) eqn:Hb.
    + left. split; [reflexivity|]. rewrite <- Hk. apply HnoneP; [exact Hr0| |exact Hb].
      now rewrite Hk.
    + right. split; [reflexivity|].
      assert (Hin : r0 ∈ filter (fun r => is_created existing brand_ids r = true)
                          (drop_duplicates df)).
      { apply list_elem_of_filter. split; [|exact Hr0].
        unfold is_created. rewrite Hk, Hex, Hb. reflexivity. }
      destruct (Forall2_elem_l _ _ _ _ HnewP Hin) as (p & Hp & Hmade & Hpid).
      exists p. split; [exact Hp|]. split; [exact Hmade|].
      rewrite <- Hk. split; [|exact Hpid].
      destruct Hmade as (bid & _ & _ & ->). reflexivity.
Qed.

Lemma falsy_product r : r ∈ df -> falsy (pids !! upc_key r) = negb (has_product v d df r).
Proof.
  intros Hr. unfold has_product. fold existing brand_ids.
  destruct (product_of_row_cases r Hr)
    as [(i & -> & ->)|(-> & r0 & -> & [[Hb ->]|(Hb & p & Hp & _ & _ & ->)])].
  - cbn. now rewrite negb_involutive.
  - now rewrite Hb.
  - rewrite Hb. cbn. pose proof (numbered_pos _ _ _ _ HnumP Hp). apply Z.eqb_neq. lia.
Qed.

Lemma product_exists r i :
  r ∈ df -> pids !! upc_key r = Some i ->
  exists p, p ∈ products d ++ newP /\ p_upc p = Some (upc_key r) /\ p_id p = i.
Proof.
  intros Hr Hi.
  destruct (product_of_row_cases r Hr)
    as [(j & Hex & Hj)|(_ & r0 & _ & [[_ Hn]|(_ & p & Hp & _ & Hu & Hpid)])].
  - rewrite Hi in Hj. injection Hj as <-.
    destruct (existing_products_Some _ _ _ Hex) as (p & Hp & Hu & Hid).
    exists p. split; [apply elem_of_app; now left|]. now split.
  - congruence.
  - rewrite Hi in Hpid. injection Hpid as ->.
    exists p. split; [apply elem_of_app; now right|]. now split.
Qed.

Lemma order_exists r i :
  order_map_get om (key_of r) = Some i ->
  exists k o, k ∈ groups /\ o ∈ newO /\ key_eqb k (key_of r) = true /\ o_id o = i
              /\ order_entry v sid brand_ids location_ids (k, o_id o) o.
Proof.
  intros Hi. destruct (HmapO _ _ Hi) as (k & o & Hz & He & ->).
  destruct (elem_of_zip _ _ _ _ Hz) as [Hk Ho].
  exists k, o. repeat (split; [assumption || reflexivity|]).
  apply (Forall2_zip _ _ _ _ _ HnewO Hz).
Qed.

Lemma falsy_order r : r ∈ df -> falsy (order_map_get om (key_of r)) = negb (has_order v d r).
Proof.
  intros Hr. unfold has_order. fold brand_ids location_ids.
  destruct (order_map_get om (key_of r)) as [i|] eqn:Hget.
  - destruct (order_exists r i Hget) as (k & o & Hk & Ho & He & <- & _).
    apply list_elem_of_filter in Hk as [Hs _].
    rewrite <- (survives_eqb _ _ _ _ He), Hs.
    destruct (key_isna (key_of r)) eqn:Hna.
    + rewrite (key_eqb_isna k _ Hna) in He. discriminate.
    + cbn. pose proof (numbered_pos _ _ _ _ HnumO Ho). apply Z.eqb_neq. lia.
  - cbn. symmetry. apply negb_true_iff.
    destruct (key_isna (key_of r)) eqn:Hna; [reflexivity|]. cbn.
    destruct (survives brand_ids location_ids (key_of r)) eqn:Hs; [|reflexivity].
    destruct (groupby_has df r Hr Hna) as (k & Hk & He).
    assert (Hin : k ∈ groups).
    { apply list_elem_of_filter. split; [|exact Hk]. now rewrite (survives_eqb _ _ _ _ He). }
    destruct (Forall2_elem_l _ _ _ _ HnewO Hin) as (o & _ & _ & Hget').
    rewrite (order_map_get_eqb _ _ _ He) in Hget'. congruence.
Qed.

Lemma unresolved_has r :
  r ∈ df -> unresolved pids om r = negb (has_product v d df r && has_order v d r).
Proof.
  intros Hr. unfold unresolved. rewrite (falsy_product r Hr), (falsy_order r Hr).
  now rewrite negb_andb.
Qed.

End Resolution.


(** ** The database a run leaves *)

Section AfterTheRun.

Lemma filter_ext_elem {A} (P Q : A -> Prop) `{!forall x, Decision (P x)}
    `{!forall x, Decision (Q x)} (l : list A) :
  (forall x, x ∈ l -> P x <-> Q x) -> filter P l = filter Q l.
Proof.
  induction l as [|x l IH]; intros Hext; [reflexivity|].
  rewrite !filter_cons.
  assert (Hx : P x <-> Q x) by (apply Hext, list_elem_of_here).
  rewrite IH by (intros y Hy; apply Hext; now apply list_elem_of_further).
  destruct (decide (P x)), (decide (Q x)); tauto.
Qed.

Lemma resolved_rows v d df sid pids om newP newO :
  Forall cleaned df ->
  numbered p_id (products d) newP ->
  Forall2 (fun r p => product_made sid (brand_ids_of v d) r p
                      /\ pids !! upc_key r = Some (p_id p))
          (filter (fun r => is_created (existing_products_of d) (brand_ids_of v d) r = true)
                  (drop_duplicates df)) newP ->
  (forall r i, r ∈ drop_duplicates df -> existing_products_of d !! upc_key r = Some i ->
     pids !! upc_key r = Some i) ->
  (forall r, r ∈ drop_duplicates df -> existing_products_of d !! upc_key r = None ->
     falsy (dict_get (brand_ids_of v d) (Brand r)) = true -> pids !! upc_key r = None) ->
  numbered o_id (orders d) newO ->
  Forall2 (fun k o => order_entry v sid (brand_ids_of v d) (location_ids_of v d) (k, o_id o) o
                      /\ order_map_get om k = Some (o_id o))
          (filter (fun k => survives (brand_ids_of v d) (location_ids_of v d) k = true)
                  (groupby df)) newO ->
  (forall k i, order_map_get om k = Some i ->
     exists k' o,
       (k', o) ∈ zip (filter (fun k => survives (brand_ids_of v d) (location_ids_of v d) k = true)
                             (groupby df)) newO
       /\ key_eqb k' k = true /\ i = o_id o) ->
  filter (fun r => unresolved pids om r = false) df
  = filter (fun r => has_product v d df r && has_order v d r = true) df
  /\ filter (fun r => unresolved pids om r = true) df
     = filter (fun r => has_product v d df r && has_order v d r = false) df.
Proof.
  intros Hcl HnumP HnewP HsomeP HnoneP HnumO HnewO HmapO.
  split; apply filter_ext_elem; intros r Hr;
    rewrite (unresolved_has v d df sid pids om newP newO
               Hcl HnumP HnewP HsomeP HnoneP HnumO HnewO HmapO r Hr);
    destruct (has_product v d df r && has_order v d r); cbn; split; congruence.
Qed.

Lemma cleaned_Quantity r q : cleaned r -> int (Quantity r) = Ok q -> Quantity r = VInt q.
Proof. intros (_ & (n & Hn) & _). rewrite Hn. cbn. now intros [= ->]. Qed.

End AfterTheRun.

Lemma items_counted v df d s d' :
  main v df d = (Ok s, d') ->
  exists df',
    Loader.clean df = Ok df'
    /\ items_added s
       = length (filter (fun r => has_product v d df' r && has_order v d r = true) df')
    /\ items_skipped s
       = length (filter (fun r => has_product v d df' r && has_order v d r = false) df').
Proof.
  intros Hmain.
  destruct (run_stages _ _ _ _ _ Hmain)
    as (df' & pids & om & newP & newO & newI & Hclean & Hcl & Hd' & Hsid
        & (HnP & HnO & HnI & HnS) & (HnumP & HnewP & HsomeP & HnoneP)
        & (HnumO & HnewO & HmapO) & HnewI).
  destruct (resolved_rows v d df' _ pids om newP newO
              Hcl HnumP HnewP HsomeP HnoneP HnumO HnewO HmapO) as [Hres Hunres].
  exists df'. split; [exact Hclean|]. unfold DataFrame in *. split.
  - rewrite HnI, <- Hres. symmetry. exact (Forall2_length _ _ _ HnewI).
  - rewrite HnS, Hunres. reflexivity.
Qed.

(** X11.  Which rows of the sheet get an item, read off the sheet and
    the database before the run.  In a run that returned, a cleaned row
    gets an item exactly when it has a product (its UPC is in the
    products table, or the first row of the sheet with its UPC has a
    brand with an id) and an order (its Brand, Gym and Ship Month cells
    hold a value and its brand and gym have an id): the items the run
    has appended are one for each of these rows, in sheet order, with
    the quantity and the unit cost of the row and their product, and no
    other; [items_added] is the number of these rows and
    [items_skipped] that of the others. *)
Theorem rows_with_an_item (v : script) (df : DataFrame) (d : db) (s : summary) (d' : db) :
  main v df d = (Ok s, d') ->
  exists df' new,
    Loader.clean df = Ok df'
    /\ order_items d' = order_items d ++ new
    /\ Forall2 item_for
               (filter (fun r => has_product v d df' r && has_order v d r = true) df') new
    /\ items_added s = length new
    /\ items_skipped s
       = length (filter (fun r => has_product v d df' r && has_order v d r = false) df').
Proof.
  intros Hmain.
  destruct (run_stages _ _ _ _ _ Hmain)
    as (df' & pids & om & newP & newO & newI & Hclean & Hcl & Hd' & Hsid
        & (HnP & HnO & HnI & HnS) & (HnumP & HnewP & HsomeP & HnoneP)
        & (HnumO & HnewO & HmapO) & HnewI).
  destruct (resolved_rows v d df' _ pids om newP newO
              Hcl HnumP HnewP HsomeP HnoneP HnumO HnewO HmapO) as [Hres Hunres].
  exists df', newI. split; [exact Hclean|]. split; [now rewrite Hd'|].
  unfold DataFrame in *. rewrite <- Hres, <- Hunres.
  split; [|split; [exact HnI|exact HnS]].
  eapply Forall2_impl_elem; [exact HnewI|].
  intros r it Hr _ (q & u & Hq & Hu & ->).
  apply list_elem_of_filter in Hr as [_ Hr]. rewrite Forall_forall in Hcl.
  exists q, u. split; [apply cleaned_Quantity; [now apply Hcl|exact Hq]|].
  split; [exact Hu|]. repeat split.
Qed.

Lemma rows_with_an_item_witness :
  let d' := (main F25 [prana_row; unknown_brand_row] empty_db).2 in
  exists df' new,
    Loader.clean [prana_row; unknown_brand_row] = Ok df'
    /\ order_items d' = order_items empty_db ++ new
    /\ Forall2 item_for
               (filter (fun r => has_product F25 empty_db df' r
                                 && has_order F25 empty_db r = true) df') new
    /\ 1%nat = length new
    /\ 1%nat
       = length (filter (fun r => has_product F25 empty_db df' r
                                  && has_order F25 empty_db r = false) df').
Proof.
  apply (rows_with_an_item F25 [prana_row; unknown_brand_row] empty_db
           (mk_summary 1 1 1 1 1) (main F25 [prana_row; unknown_brand_row] empty_db).2).
  vm_compute. reflexivity.
Defined.

Section ExistingRows.

Lemma update_order_totals_map sid d :
  orders (update_order_totals sid d).2
  = map (fun o => if bool_decide (o_season_id o = Some sid)
                  then set_current_total (Some (sum_of_line_totals (o_id o) d)) o
                  else o) (orders d).
Proof.
  unfold update_order_totals. cbn [snd orders set_orders]. apply map_ext. intros o.
  destruct (bool_decide _); [|reflexivity].
  unfold sum_of_line_totals, items_of, line_totals_of.
  now rewrite coalesce_sql_sum, omap_id_map.
Qed.

Lemma Forall2_elem_r {A B} (P : A -> B -> Prop) l k y :
  Forall2 P l k -> y ∈ k -> exists x, x ∈ l /\ P x y.
Proof.
  induction 1 as [|x' y' l k Hxy _ IH]; intros Hin; [inversion Hin|].
  apply elem_of_cons in Hin as [->|Hin].
  - exists x'. split; [apply list_elem_of_here|exact Hxy].
  - destruct (IH Hin) as (x & Hx & Hp). exists x. split; [now apply list_elem_of_further|exact Hp].
Qed.

Lemma sum_of_line_totals_app d ss newP newO newI id :
  Forall (fun it => i_order_id it <> id) newI ->
  sum_of_line_totals id (before_totals d ss newP newO newI) = sum_of_line_totals id d.
Proof.
  intros Hnew. unfold sum_of_line_totals, items_of, before_totals. cbn [order_items].
  rewrite filter_app. f_equal. f_equal.
  assert (Hnil : filter (fun i => i_order_id i = id) newI = []).
  { induction Hnew as [|it l Hit _ IH]; [reflexivity|].
    now rewrite filter_cons_False by exact Hit. }
  rewrite Hnil. apply app_nil_r.
Qed.

Lemma select_season_after v sid d :
  match select_season (SEASON v) d with
  | Some i => sid = i
  | None => True
  end ->
  s_id <$> find (fun s => bool_decide (s_name s = SEASON v)) (seasons_after v sid d) = Some sid.
Proof.
  unfold seasons_after, select_season.
  destruct (find _ (seasons d)) as [s0|] eqn:Hf; cbn [fmap option_fmap option_map].
  - intros ->. now rewrite Hf.
  - intros _. rewrite (find_app_None _ _ _ Hf). cbn [s_name].
    now rewrite bool_decide_eq_true_2 by reflexivity.
Qed.

End ExistingRows.

Lemma rows_after_the_run v df d s d' :
  main v df d = (Ok s, d') ->
  brands d' = brands d /\ locations d' = locations d
  /\ seasons d' = seasons_after v (season_id s) d
  /\ select_season (SEASON v) d' = Some (season_id s)
  /\ (exists newP, products d' = products d ++ newP /\ length newP = products_created s)
  /\ (exists newI, order_items d' = order_items d ++ newI /\ length newI = items_added s)
  /\ (exists olds newO,
        orders d' = olds ++ newO /\ length newO = orders_created s
        /\ Forall2 (order_after (season_id s) d) (orders d) olds).
Proof.
  intros Hmain.
  destruct (run_stages _ _ _ _ _ Hmain)
    as (df' & pids & om & newP & newO & newI & Hclean & Hcl & Hd' & Hsid
        & (HnP & HnO & HnI & HnS) & (HnumP & HnewP & HsomeP & HnoneP)
        & (HnumO & HnewO & HmapO) & HnewI).
  set (sid := season_id s) in *.
  set (d4 := before_totals d (seasons_after v sid d) newP newO newI) in *.
  split; [now rewrite Hd'|]. split; [now rewrite Hd'|]. split; [now rewrite Hd'|].
  split.
  { unfold select_season. rewrite Hd'. cbn [snd update_order_totals seasons set_orders].
    apply select_season_after. now destruct (select_season (SEASON v) d). }
  split; [exists newP; split; [now rewrite Hd'|now symmetry]|].
  split; [exists newI; split; [now rewrite Hd'|now symmetry]|].
  set (f := fun o => if bool_decide (o_season_id o = Some sid)
                     then set_current_total (Some (sum_of_line_totals (o_id o) d4)) o
                     else o).
  exists (map f (orders d)), (map f newO).
  split; [rewrite Hd', update_order_totals_map; unfold d4 at 2; cbn [orders before_totals];
          now rewrite map_app|].
  split; [rewrite length_map; now symmetry|].
  (* no item of the run belongs to an order that was there *)
  assert (Hitems : forall o, o ∈ orders d -> Forall (fun it => i_order_id it <> o_id o) newI).
  { intros o Ho. apply Forall_forall. intros it Hit.
    destruct (Forall2_elem_r _ _ _ _ HnewI Hit) as (r & Hr & q & u & _ & _ & ->).
    apply list_elem_of_filter in Hr as [Hun Hr]. apply orb_false_elim in Hun as [_ Hoid].
    destruct (falsy_false _ Hoid) as (oid & Hoid' & _).
    destruct (order_exists v d df' _ om newO HnewO HmapO r oid Hoid')
      as (k & o' & _ & Ho' & _ & <- & _).
    cbn [i_order_id]. rewrite Hoid'. cbn.
    pose proof (numbered_above _ _ _ _ _ HnumO Ho Ho'). lia. }
  assert (Hgen : forall l,
             (forall o, o ∈ l -> Forall (fun it => i_order_id it <> o_id o) newI) ->
             Forall2 (order_after sid d) l (map f l)).
  { induction l as [|o l IH]; intros Hl; cbn [map]; constructor.
    - unfold order_after, f. destruct (bool_decide _); [|reflexivity].
      unfold d4. rewrite sum_of_line_totals_app; [reflexivity|].
      apply Hl, list_elem_of_here.
    - apply IH. intros o' Ho'. apply Hl. now apply list_elem_of_further. }
  apply Hgen, Hitems.
Qed.

(** X13.  What a run that returned leaves of the rows that were there.
    Brands and locations are as they were.  The seasons are as they
    were, with one row appended when no season had the name of the
    script's season; the season id of the summary is that of the first
    season with this name.  Products, order items and orders are only
    appended to, by as many rows as the summary counts; an order that
    was there is kept in place, unchanged if it is of another season,
    and with its total computed again from the items it had if it is of
    the season of the run: no item of the run goes to it. *)
Theorem existing_rows_are_kept (v : script) (df : DataFrame) (d : db)
    (s : summary) (d' : db) :
  main v df d = (Ok s, d') ->
  brands d' = brands d /\ locations d' = locations d
  /\ seasons d' = seasons_after v (season_id s) d
  /\ select_season (SEASON v) d' = Some (season_id s)
  /\ (exists newP, products d' = products d ++ newP /\ length newP = products_created s)
  /\ (exists newI, order_items d' = order_items d ++ newI /\ length newI = items_added s)
  /\ (exists olds newO,
        orders d' = olds ++ newO /\ length newO = orders_created s
        /\ Forall2 (order_after (season_id s) d) (orders d) olds).
Proof. exact (rows_after_the_run v df d s d'). Qed.

Lemma existing_rows_are_kept_witness :
  let s := mk_summary 1 1 1 2 0 in
  let d := db_two_items in
  let d' := (main F25 [prana_row; prana_row] db_two_items).2 in
  brands d' = brands d /\ locations d' = locations d
  /\ seasons d' = seasons_after F25 (season_id s) d
  /\ select_season (SEASON F25) d' = Some (season_id s)
  /\ (exists newP, products d' = products d ++ newP /\ length newP = products_created s)
  /\ (exists newI, order_items d' = order_items d ++ newI /\ length newI = items_added s)
  /\ (exists olds newO,
        orders d' = olds ++ newO /\ length newO = orders_created s
        /\ Forall2 (order_after (season_id s) d) (orders d) olds).
Proof.
  apply (existing_rows_are_kept F25 [prana_row; prana_row] db_two_items
           (mk_summary 1 1 1 2 0)).
  vm_compute. reflexivity.
Defined.


(** ** The totals of the orders of a run *)

Section GroupTotals.

Lemma zip_NoDup_snd {A B} (g : B -> Z) (l : list A) (k : list B) x y x' y' :
  NoDup (map g k) -> (x, y) ∈ zip l k -> (x', y') ∈ zip l k -> g y = g y' -> x = x'.
Proof.
  revert k. induction l as [|a l IH]; intros [|b k]; cbn [zip zip_with map];
    intros Hnd H H' He; try now inversion H.
  apply NoDup_cons in Hnd as [Hb Hnd].
  assert (Hin : forall z w, (z, w) ∈ zip l k -> g w ∈ map g k).
  { intros z w Hz. apply elem_of_zip in Hz as [_ Hw].
    apply list_elem_of_In, in_map. now apply list_elem_of_In. }
  apply elem_of_cons in H as [[= -> ->]|H]; apply elem_of_cons in H' as [[= -> ->]|H'].
  - reflexivity.
  - exfalso. apply Hb. rewrite He. now apply (Hin x' y').
  - exfalso. apply Hb. rewrite <- He. now apply (Hin x y).
  - now apply (IH k).
Qed.

Lemma Forall2_impl_zip {A B} (P Q : A -> B -> Prop) l k :
  Forall2 P l k -> (forall x y, (x, y) ∈ zip l k -> P x y -> Q x y) -> Forall2 Q l k.
Proof.
  induction 1 as [|x y l k Hxy _ IH]; intros H; constructor.
  - apply H; [apply list_elem_of_here|exact Hxy].
  - apply IH. intros x' y' Hz. apply H. now apply list_elem_of_further.
Qed.

Variables (v : script) (d : db) (df : DataFrame) (sid : Z).
Variables (pids : gmap string Z) (om : list (key * Z)).
Variables (newP : list product) (newO : list order).

Let brand_ids := brand_ids_of v d.
Let location_ids := location_ids_of v d.
Let existing := existing_products_of d.
Let groups := filter (fun k => survives brand_ids location_ids k = true) (groupby df).

Hypothesis Hcl : Forall cleaned df.
Hypothesis HnumP : numbered p_id (products d) newP.
Hypothesis HnewP :
  Forall2 (fun r p => product_made sid brand_ids r p /\ pids !! upc_key r = Some (p_id p))
          (filter (fun r => is_created existing brand_ids r = true) (drop_duplicates df)) newP.
Hypothesis HsomeP :
  forall r i, r ∈ drop_duplicates df -> existing !! upc_key r = Some i ->
    pids !! upc_key r = Some i.
Hypothesis HnoneP :
  forall r, r ∈ drop_duplicates df -> existing !! upc_key r = None ->
    falsy (dict_get brand_ids (Brand r)) = true -> pids !! upc_key r = None.
Hypothesis HnumO : numbered o_id (orders d) newO.
Hypothesis HnewO :
  Forall2 (fun k o => order_entry v sid brand_ids location_ids (k, o_id o) o
                      /\ order_map_get om k = Some (o_id o)) groups newO.
Hypothesis HmapO :
  forall k i, order_map_get om k = Some i ->
    exists k' o, (k', o) ∈ zip groups newO /\ key_eqb k' k = true /\ i = o_id o.

Variables (k : key) (o : order).
Hypothesis Hko : (k, o) ∈ zip groups newO.

(** A row with an item has the id of the order [o] exactly when it
    belongs to the group [k]. *)
Lemma item_of_group r :
  r ∈ df -> unresolved pids om r = false ->
  default 0 (order_map_get om (key_of r)) = o_id o <-> key_eqb k (key_of r) = true.
Proof.
  intros Hr Hun. apply orb_false_elim in Hun as [_ Hoid].
  destruct (falsy_false _ Hoid) as (oid & Hoid' & _). rewrite Hoid'. cbn.
  pose proof (Forall2_zip _ _ _ _ _ HnewO Hko) as [_ Hget].
  split.
  - intros ->. destruct (HmapO _ _ Hoid') as (k' & o' & Hz & He & Hid).
    rewrite (zip_NoDup_snd o_id _ _ k o k' o' (numbered_NoDup _ _ _ HnumO) Hko Hz Hid).
    exact He.
  - intros He. rewrite (order_map_get_eqb _ _ _ He) in Hget. congruence.
Qed.

Lemma group_has_order r : r ∈ df -> key_eqb k (key_of r) = true -> has_order v d r = true.
Proof.
  intros Hr He. unfold has_order. fold brand_ids location_ids.
  apply elem_of_zip in Hko as [Hk _]. apply list_elem_of_filter in Hk as [Hs _].
  rewrite <- (survives_eqb _ _ _ _ He), Hs.
  destruct (key_isna (key_of r)) eqn:Hna; [|reflexivity].
  rewrite (key_eqb_isna k _ Hna) in He. discriminate.
Qed.

Lemma group_items l newI :
  (forall r, r ∈ l -> r ∈ df) ->
  Forall2 (item_of_row pids om) (filter (fun r => unresolved pids om r = false) l) newI ->
  omap i_line_total (filter (fun it => i_order_id it = o_id o) newI)
  = omap line_total_of
         (filter (fun r => has_product v d df r && key_eqb k (key_of r) = true) l).
Proof.
  revert newI. induction l as [|r l IH]; intros newI Hl Hnew.
  - inversion Hnew. reflexivity.
  - assert (Hr : r ∈ df) by apply Hl, list_elem_of_here.
    assert (Hl' : forall r', r' ∈ l -> r' ∈ df)
      by (intros r' Hr'; apply Hl; now apply list_elem_of_further).
    pose proof (unresolved_has v d df sid pids om newP newO
                  Hcl HnumP HnewP HsomeP HnoneP HnumO HnewO HmapO r Hr) as Hhas.
    destruct (unresolved pids om r) eqn:Hun.
    + rewrite filter_cons_False in Hnew by (rewrite Hun; discriminate).
      rewrite (filter_cons_False _ r).
      2: { symmetry in Hhas. apply negb_true_iff in Hhas.
           destruct (key_eqb k (key_of r)) eqn:He;
             [|rewrite andb_false_r; discriminate].
           rewrite (group_has_order r Hr He), andb_true_r in Hhas. rewrite Hhas.
           discriminate. }
      now apply IH.
    + rewrite filter_cons_True in Hnew by exact Hun.
      inversion Hnew as [|? it ? newI' Hit Hrest]; subst.
      symmetry in Hhas. apply negb_false_iff, andb_prop in Hhas as [Hhp _].
      pose proof (item_of_group r Hr Hun) as Hiff.
      destruct Hit as (q & u & Hq & Hu & ->).
      destruct (key_eqb k (key_of r)) eqn:He.
      * rewrite (filter_cons_True _ (mk_order_item _ _ _ _ _)) by (now apply Hiff).
        rewrite (filter_cons_True _ r) by (rewrite Hhp, He; reflexivity).
        assert (Hlt : line_total_of r = Some (fmul u (float_of_int q)))
          by (unfold line_total_of; now rewrite Hq, Hu).
        cbn [omap list_omap i_line_total]. rewrite Hlt.
        f_equal. now apply IH.
      * rewrite (filter_cons_False _ (mk_order_item _ _ _ _ _)).
        2: { cbn [i_order_id]. intros Hid. apply Hiff in Hid. discriminate. }
        rewrite (filter_cons_False _ r) by (rewrite He, andb_false_r; discriminate).
        now apply IH.
Qed.

End GroupTotals.


Lemma Forall2_map_r {A B C} (f : B -> C) (P : A -> C -> Prop) l k :
  Forall2 (fun x y => P x (f y)) l k -> Forall2 P l (map f k).
Proof. induction 1; constructor; assumption. Qed.

(** X14.  The orders of a run that returned, on a database in which
    every item belongs to an order.  The run appends one order for each
    group whose brand and gym have an id, in the order of the groups,
    and no other; the orders that were there stay in front of them.
    The order of a group carries the ids of the brand and of the
    location of the group, the season of the run, the type [preseason],
    the status [draft] and the creator 1, and the total it is left with
    is the sum, over the rows of the group that have a product, of unit
    cost times quantity. *)
Theorem order_totals_are_those_of_the_groups (v : script) (df : DataFrame) (d : db)
    (s : summary) (d' : db) :
  main v df d = (Ok s, d') ->
  items_have_orders d ->
  exists df' olds new,
    Loader.clean df = Ok df'
    /\ orders d' = olds ++ new
    /\ length olds = length (orders d)
    /\ length new = orders_created s
    /\ Forall2 (order_in v (season_id s) d df')
               (filter (fun k => survives (brand_ids_of v d) (location_ids_of v d) k = true)
                       (groupby df')) new.
Proof.
  intros Hmain Hfk.
  destruct (run_stages _ _ _ _ _ Hmain)
    as (df' & pids & om & newP & newO & newI & Hclean & Hcl & Hd' & Hsid
        & (HnP & HnO & HnI & HnS) & (HnumP & HnewP & HsomeP & HnoneP)
        & (HnumO & HnewO & HmapO) & HnewI).
  set (sid := season_id s) in *.
  set (d4 := before_totals d (seasons_after v sid d) newP newO newI) in *.
  set (f := fun o => if bool_decide (o_season_id o = Some sid)
                     then set_current_total (Some (sum_of_line_totals (o_id o) d4)) o
                     else o).
  exists df', (map f (orders d)), (map f newO).
  split; [exact Hclean|].
  split; [rewrite Hd', update_order_totals_map; unfold d4 at 2; cbn [orders before_totals];
          now rewrite map_app|].
  split; [apply length_map|]. split; [rewrite length_map; now symmetry|].
  apply Forall2_map_r. eapply Forall2_impl_zip; [exact HnewO|].
  intros k o Hko [(_ & Hgroup & Hbid & Hlid & Hseason & Htype & Hstatus & Hby & _) Hget].
  cbn [fst snd] in Hgroup, Hbid, Hlid.
  unfold f. rewrite bool_decide_eq_true_2 by exact Hseason.
  unfold order_in. cbn [o_season_id o_order_type o_status o_created_by o_brand_id
                         o_location_id o_current_total set_current_total].
  repeat (split; [assumption|]).
  f_equal. unfold sum_of_line_totals, items_of, d4, before_totals. cbn [order_items].
  rewrite filter_app.
  assert (Hold : filter (fun i => i_order_id i = o_id o) (order_items d) = []).
  { assert (Hall : Forall (fun it => i_order_id it <> o_id o) (order_items d)).
    { apply Forall_forall. intros it Hit. destruct (Hfk it Hit) as (o0 & Ho0 & <-).
      apply elem_of_zip in Hko as [_ Ho].
      pose proof (numbered_above _ _ _ _ _ HnumO Ho0 Ho). lia. }
    induction Hall as [|it l Hit _ IH]; [reflexivity|].
    now rewrite filter_cons_False by exact Hit. }
  rewrite Hold. cbn [app]. f_equal.
  apply (group_items v d df' sid pids om newP newO
           Hcl HnumP HnewP HsomeP HnoneP HnumO HnewO HmapO k o Hko df' newI);
    [tauto|exact HnewI].
Qed.


Lemma order_totals_are_those_of_the_groups_witness :
  let s := mk_summary 1 1 1 2 0 in
  let d := db_two_items in
  let d' := (main F25 [prana_row; prana_row] db_two_items).2 in
  exists df' olds new,
    Loader.clean [prana_row; prana_row] = Ok df'
    /\ orders d' = olds ++ new
    /\ length olds = length (orders d)
    /\ length new = orders_created s
    /\ Forall2 (order_in F25 (season_id s) d df')
               (filter (fun k => survives (brand_ids_of F25 d) (location_ids_of F25 d) k = true)
                       (groupby df')) new.
Proof.
  apply (order_totals_are_those_of_the_groups F25 [prana_row; prana_row] db_two_items
           (mk_summary 1 1 1 2 0)).
  - vm_compute. reflexivity.
  - intros it Hit.
    exists (mk_order 1 "AUG25-PRA-SLC" (Some 1) 1 1 "2025-08-01" "preseason" "draft" 1 None).
    split; [apply list_elem_of_here|].
    apply list_elem_of_In in Hit. destruct Hit as [<-|[<-|[]]]; reflexivity.
Defined.

Lemma zip_map_snd {A B C} (f : B -> C) (l : list A) (k : list B) x y :
  (x, y) ∈ zip l k -> (x, f y) ∈ zip l (map f k).
Proof.
  revert k. induction l as [|a l IH]; intros [|b k]; cbn; intros Hin; try now inversion Hin.
  apply elem_of_cons in Hin as [[= -> ->]|Hin]; [apply list_elem_of_here|].
  apply list_elem_of_further. now apply IH.
Qed.

(** X12.  The items of a run that returned, and the rows they belong
    to.  The orders the run has appended stand behind those that were
    there, one for each group whose brand and gym have an id, in the
    order of the groups.  The run appends one item for each row that has
    a product and an order, in sheet order, and nothing else to the
    items.  The item holds the quantity of the row, its unit cost and
    their product, the id of a product that the database holds under the
    UPC of the row, and the id of the order appended for the group of
    the row, the one at the place of that group among the appended
    orders; no other order of the database has this id. *)
Theorem every_item_has_its_product_and_order (v : script) (df : DataFrame) (d : db)
    (s : summary) (d' : db) :
  main v df d = (Ok s, d') ->
  exists df' olds news new,
    Loader.clean df = Ok df'
    /\ orders d' = olds ++ news
    /\ length olds = length (orders d)
    /\ Forall2 (fun k o => order_of_group v k o /\ o_season_id o = Some (season_id s))
               (filter (fun k => survives (brand_ids_of v d) (location_ids_of v d) k = true)
                       (groupby df')) news
    /\ order_items d' = order_items d ++ new
    /\ Forall2 (item_in v d d' df' news)
               (filter (fun r => has_product v d df' r && has_order v d r = true) df') new.
Proof.
  intros Hmain.
  destruct (run_stages _ _ _ _ _ Hmain)
    as (df' & pids & om & newP & newO & newI & Hclean & Hcl & Hd' & Hsid
        & (HnP & HnO & HnI & HnS) & (HnumP & HnewP & HsomeP & HnoneP)
        & (HnumO & HnewO & HmapO) & HnewI).
  destruct (resolved_rows v d df' _ pids om newP newO
              Hcl HnumP HnewP HsomeP HnoneP HnumO HnewO HmapO) as [Hres _].
  set (sid := season_id s) in *.
  set (d4 := before_totals d (seasons_after v sid d) newP newO newI) in *.
  set (f := fun o => if bool_decide (o_season_id o = Some sid)
                     then set_current_total (Some (sum_of_line_totals (o_id o) d4)) o
                     else o).
  assert (Hid : forall o, o_id (f o) = o_id o).
  { intros o. unfold f. now destruct (bool_decide _). }
  assert (Horders : orders d' = map f (orders d) ++ map f newO).
  { rewrite Hd', update_order_totals_map. unfold d4 at 2. cbn [orders before_totals].
    now rewrite map_app. }
  exists df', (map f (orders d)), (map f newO), newI.
  split; [exact Hclean|]. split; [exact Horders|]. split; [apply length_map|].
  split.
  { apply Forall2_map_r. eapply Forall2_impl_zip; [exact HnewO|].
    intros k o _ [(_ & Hgroup & _ & _ & Hseason & _) _]. cbn [fst] in Hgroup.
    unfold f. rewrite bool_decide_eq_true_2 by exact Hseason. split; assumption. }
  split; [now rewrite Hd'|].
  unfold DataFrame in *. rewrite <- Hres.
  eapply Forall2_impl_elem; [exact HnewI|].
  intros r it Hr _ (q & u & Hq & Hu & ->).
  apply list_elem_of_filter in Hr as [Hun Hr].
  apply orb_false_elim in Hun as [Hpid Hoid].
  destruct (falsy_false _ Hpid) as (pid & Hpid' & _).
  destruct (falsy_false _ Hoid) as (oid & Hoid' & _).
  destruct (product_exists v d df' _ pids newP Hcl HnewP HsomeP HnoneP r pid Hr Hpid')
    as (p & Hp & Hupc & <-).
  destruct (HmapO _ _ Hoid') as (k & o & Hz & He & ->).
  exists q, u, k, (f o), p.
  rewrite Forall_forall in Hcl.
  split; [apply cleaned_Quantity; [now apply Hcl|exact Hq]|]. split; [exact Hu|].
  split; [rewrite Hpid', Hoid', Hid; reflexivity|].
  split; [rewrite Hd'; exact Hp|]. split; [exact Hupc|].
  split; [now apply zip_map_snd|]. split; [exact He|].
  (* no other order has the id *)
  intros o' Ho' Hsame. rewrite Hid in Hsame.
  destruct (elem_of_zip _ _ _ _ Hz) as [_ Ho].
  rewrite Horders, <- map_app in Ho'.
  apply list_elem_of_In, in_map_iff in Ho' as (o0 & <- & Ho0).
  rewrite Hid in Hsame. apply list_elem_of_In, elem_of_app in Ho0 as [Ho0|Ho0].
  - pose proof (numbered_above _ _ _ _ _ HnumO Ho0 Ho). lia.
  - f_equal. apply (NoDup_map_eq o_id newO); [|exact Ho0|exact Ho|exact Hsame].
    exact (numbered_NoDup _ _ _ HnumO).
Qed.

Lemma every_item_has_its_product_and_order_witness :
  let d' := (main F25 [prana_row; unknown_brand_row] empty_db).2 in
  exists df' olds news new,
    Loader.clean [prana_row; unknown_brand_row] = Ok df'
    /\ orders d' = olds ++ news
    /\ length olds = length (orders empty_db)
    /\ Forall2 (fun k o => order_of_group F25 k o /\ o_season_id o = Some 1)
               (filter (fun k => survives (brand_ids_of F25 empty_db)
                                          (location_ids_of F25 empty_db) k = true)
                       (groupby df')) news
    /\ order_items d' = order_items empty_db ++ new
    /\ Forall2 (item_in F25 empty_db d' df' news)
               (filter (fun r => has_product F25 empty_db df' r
                                 && has_order F25 empty_db r = true) df') new.
Proof.
  apply (every_item_has_its_product_and_order F25 [prana_row; unknown_brand_row] empty_db
           (mk_summary 1 1 1 1 1)).
  vm_compute. reflexivity.
Defined.

(** ** A second run *)

Section Again.

Variables (v : script) (d d1 : db) (df : DataFrame) (sid : Z).
Variables (pids : gmap string Z) (newP : list product).

Let brand_ids := brand_ids_of v d.
Let existing := existing_products_of d.

Hypothesis Hcl : Forall cleaned df.
Hypothesis HnumP : numbered p_id (products d) newP.
Hypothesis HnewP :
  Forall2 (fun r p => product_made sid brand_ids r p /\ pids !! upc_key r = Some (p_id p))
          (filter (fun r => is_created existing brand_ids r = true) (drop_duplicates df)) newP.
Hypothesis HsomeP :
  forall r i, r ∈ drop_duplicates df -> existing !! upc_key r = Some i ->
    pids !! upc_key r = Some i.
Hypothesis HnoneP :
  forall r, r ∈ drop_duplicates df -> existing !! upc_key r = None ->
    falsy (dict_get brand_ids (Brand r)) = true -> pids !! upc_key r = None.
Hypothesis Hproducts : products d1 = products d ++ newP.
Hypothesis Hbrands : brands d1 = brands d.

(** The row of which a product of the run was made. *)
Lemma new_product_row p :
  p ∈ newP ->
  exists r, r ∈ drop_duplicates df /\ is_created existing brand_ids r = true
            /\ p_upc p = Some (upc_key r).
Proof.
  intros Hp. destruct (Forall2_elem_r _ _ _ _ HnewP Hp) as (r & Hr & (bid & _ & _ & Hpr) & _).
  apply list_elem_of_filter in Hr as [Hc Hr].
  exists r. split; [exact Hr|]. split; [exact Hc|]. rewrite Hpr. reflexivity.
Qed.

Lemma existing_after u :
  (forall p, p ∈ newP -> p_upc p <> Some u) ->
  existing_products_of d1 !! u = existing !! u.
Proof.
  intros Hnone.
  rewrite (existing_products_of_ext (set_products (products d ++ newP) d) d1)
    by (now rewrite Hproducts).
  now apply existing_products_of_app.
Qed.

Lemma has_product_again r : r ∈ df -> has_product v d1 df r = has_product v d df r.
Proof.
  intros Hr. unfold has_product.
  rewrite (brand_ids_of_ext v d d1 Hbrands). fold brand_ids existing.
  destruct (first_row df Hcl r Hr) as (r0 & Hf & Hr0 & Hk).
  destruct (existing !! upc_key r) as [i|] eqn:Hex.
  - rewrite existing_after, Hex; [reflexivity|].
    intros p Hp Hu. destruct (new_product_row p Hp) as (r1 & _ & Hc & Hu1).
    unfold is_created in Hc. apply andb_prop in Hc as [Hc _].
    apply bool_decide_eq_true in Hc. congruence.
  - rewrite Hf. destruct (falsy (dict_get brand_ids (Brand r0))) eqn:Hb.
    + rewrite existing_after, Hex; [reflexivity|].
      intros p Hp Hu. destruct (new_product_row p Hp) as (r1 & Hr1 & Hc & Hu1).
      assert (r1 = r0).
      { apply (NoDup_map_eq upc_key (drop_duplicates df));
          [now apply drop_duplicates_keys_NoDup|exact Hr1|exact Hr0|congruence]. }
      subst r1. unfold is_created in Hc. rewrite Hb, andb_false_r in Hc. discriminate.
    + assert (Hin : r0 ∈ filter (fun r => is_created existing brand_ids r = true)
                          (drop_duplicates df)).
      { apply list_elem_of_filter. split; [|exact Hr0].
        unfold is_created. rewrite Hk, Hex, Hb. reflexivity. }
      destruct (Forall2_elem_l _ _ _ _ HnewP Hin) as (p & Hp & (bid & _ & _ & Hpr) & _).
      assert (Hsome : is_Some (existing_products_of d1 !! upc_key r)).
      { apply (existing_products_is_Some d1 p).
        - rewrite Hproducts. apply elem_of_app. now right.
        - rewrite Hpr, <- Hk. reflexivity. }
      destruct Hsome as [j Hj]. rewrite Hj.
      destruct (existing_products_Some _ _ _ Hj) as (p' & Hp' & Hu' & <-).
      rewrite Hproducts in Hp'. apply elem_of_app in Hp' as [Hp'|Hp'].
      * exfalso. now apply (existing_products_None d (upc_key r) p' Hex Hp').
      * pose proof (numbered_pos _ _ _ _ HnumP Hp'). cbn.
        apply negb_true_iff, Z.eqb_neq. lia.
Qed.

End Again.

(** X15.  Running the same sheet again.  After a run that returned, a
    second run on the database it left returns as well, with the same
    season, and does the work of the first over again for everything
    but the products: it creates no product, but as many orders and as
    many items as the first run did, which it appends to those of the
    first run, and it skips the same number of rows. *)
Theorem second_run_repeats_orders_and_items (v : script) (df : DataFrame) (d : db)
    (s1 : summary) (d1 : db) :
  main v df d = (Ok s1, d1) ->
  exists s2 d2,
    main v df d1 = (Ok s2, d2)
    /\ season_id s2 = season_id s1
    /\ products_created s2 = 0%nat
    /\ orders_created s2 = orders_created s1
    /\ items_added s2 = items_added s1
    /\ items_skipped s2 = items_skipped s1
    /\ length (orders d2) = (length (orders d1) + orders_created s1)%nat
    /\ length (order_items d2) = (length (order_items d1) + items_added s1)%nat.
Proof.
  intros Hmain1.
  (* the second run returns *)
  destruct (main_Ok _ _ _ _ _ Hmain1) as (df' & c1 & Hclean & Htx1 & Hd1).
  destruct (second_transaction_returns v df' d s1 c1 (clean_cleaned df df' Hclean) Htx1)
    as (s2 & c2 & Htx2).
  assert (Hmain2 : main v df d1 = (Ok s2, working c2)).
  { unfold main. rewrite Hclean, Hd1, Htx2. reflexivity. }
  exists s2, (working c2). split; [exact Hmain2|].
  (* the first run, stage by stage *)
  destruct (run_stages _ _ _ _ _ Hmain1)
    as (df1 & pids & om & newP & newO & newI & Hclean1 & Hcl & Hd1' & Hsid
        & (HnP & HnO & HnI & HnS) & (HnumP & HnewP & HsomeP & HnoneP)
        & (HnumO & HnewO & HmapO) & HnewI).
  rewrite Hclean in Hclean1. injection Hclean1 as <-.
  assert (Hproducts : products d1 = products d ++ newP) by now rewrite Hd1'.
  destruct (rows_after_the_run _ _ _ _ _ Hmain1) as (Hbrands & Hlocations & _ & Hseason & _).
  (* the second run, stage by stage *)
  destruct (run_stages _ _ _ _ _ Hmain2)
    as (df2 & pids2 & om2 & newP2 & newO2 & newI2 & Hclean2 & _ & _ & Hsid2
        & (_ & HnO2 & _ & _) & _ & (_ & HnewO2 & _) & _).
  rewrite Hclean in Hclean2. injection Hclean2 as <-.
  rewrite Hseason in Hsid2.
  split; [exact Hsid2|].
  split.
  { pose proof (wp_Ok _ _ _ _ _ _ (transaction_products v df' (connect d)) Htx1)
      as (Hb & _ & Hsettled & _).
    cbn [connect working] in Hb, Hsettled.
    rewrite <- (brand_ids_of_ext v d (working c1) Hb) in Hsettled.
    pose proof (wp_Ok _ _ _ _ _ _ (transaction_products v df' (connect (working c1))) Htx2)
      as (_ & _ & _ & new & _ & Hnone).
    cbn [connect working] in Hnone. now destruct (Hnone Hsettled). }
  split.
  { rewrite HnO, HnO2, <- (Forall2_length _ _ _ HnewO), <- (Forall2_length _ _ _ HnewO2).
    now rewrite (brand_ids_of_ext v d d1 Hbrands), (location_ids_of_ext v d d1 Hlocations). }
  destruct (items_counted _ _ _ _ _ Hmain1) as (df1 & Hclean1 & Hia1 & Hisk1).
  rewrite Hclean in Hclean1. injection Hclean1 as <-.
  destruct (items_counted _ _ _ _ _ Hmain2) as (df2 & Hclean2 & Hia2 & Hisk2).
  rewrite Hclean in Hclean2. injection Hclean2 as <-.
  assert (Hsame : forall r, r ∈ df' ->
            has_product v d1 df' r && has_order v d1 r
            = has_product v d df' r && has_order v d r).
  { intros r Hr.
    rewrite (has_product_again v d d1 df' _ pids newP
               Hcl HnumP HnewP Hproducts Hbrands r Hr).
    unfold has_order.
    now rewrite (brand_ids_of_ext v d d1 Hbrands), (location_ids_of_ext v d d1 Hlocations). }
  assert (Hia : items_added s2 = items_added s1).
  { rewrite Hia1, Hia2. f_equal. apply filter_ext_elem.
    intros r Hr. now rewrite (Hsame r Hr). }
  split; [exact Hia|]. split.
  { rewrite Hisk1, Hisk2. f_equal. apply filter_ext_elem.
    intros r Hr. now rewrite (Hsame r Hr). }
  destruct (rows_after_the_run _ _ _ _ _ Hmain2)
    as (_ & _ & _ & _ & _ & (newI' & HI & HlI) & (olds & newO' & HO & HlO & Hold)).
  split.
  - rewrite HO, length_app, <- (Forall2_length _ _ _ Hold), HlO.
    f_equal. rewrite HnO, HnO2, <- (Forall2_length _ _ _ HnewO), <- (Forall2_length _ _ _ HnewO2).
    now rewrite (brand_ids_of_ext v d d1 Hbrands), (location_ids_of_ext v d d1 Hlocations).
  - rewrite HI, length_app, HlI, Hia. reflexivity.
Qed.

Lemma second_run_repeats_orders_and_items_witness :
  let s1 := mk_summary 1 1 1 1 1 in
  let d1 := (main F25 [prana_row; unknown_brand_row] empty_db).2 in
  exists s2 d2,
    main F25 [prana_row; unknown_brand_row] d1 = (Ok s2, d2)
    /\ season_id s2 = season_id s1
    /\ products_created s2 = 0%nat
    /\ orders_created s2 = orders_created s1
    /\ items_added s2 = items_added s1
    /\ items_skipped s2 = items_skipped s1
    /\ length (orders d2) = (length (orders d1) + orders_created s1)%nat
    /\ length (order_items d2) = (length (order_items d1) + items_added s1)%nat.
Proof.
  apply (second_run_repeats_orders_and_items F25 [prana_row; unknown_brand_row] empty_db
           (mk_summary 1 1 1 1 1)).
  vm_compute. reflexivity.
Defined.

(** ** A sheet without a complete row *)

(** X16.  A sheet none of whose rows has a value in each of UPC, Brand,
    Gym and Quantity (an empty sheet for one) is not an error: the run
    returns with every counter at 0, and still obtains the season,
    creating it when it is not there, and computes the totals of the
    orders of the season again. *)
Theorem sheet_without_complete_rows (v : script) (df : DataFrame) (d : db) :
  Loader.dropna df = [] ->
  exists sid,
    main v df d
    = (Ok (mk_summary sid 0 0 0 0),
       (update_order_totals sid (set_seasons (seasons_after v sid d) d)).2)
    /\ match select_season (SEASON v) d with
       | Some i => sid = i
       | None => sid = fresh_id (map s_id (seasons d))
       end.
Proof.
  intros Hdrop.
  assert (Hclean : Loader.clean df = Ok []) by (unfold Loader.clean; now rewrite Hdrop).
  destruct (get_season_spec v (connect d)) as (sid & c1 & Hs & _).
  destruct (get_season_exact _ _ _ _ Hs) as (Hc1 & Hw1 & _ & Hsid).
  cbn [connect committed working] in Hc1, Hw1, Hsid.
  exists sid. split; [|exact Hsid].
  assert (Htx : transaction v [] (connect d)
                = (Ok (mk_summary sid 0 0 0 0),
                   mk_connection (committed c1) (update_order_totals sid (working c1)).2)).
  { apply transaction_Ok. exists c1, ∅, c1, [], c1, c1. cbn [season_id products_created
      orders_created items_added items_skipped].
    split; [exact Hs|]. split.
    { unfold process_products. cbv [mbind M_bind query execute]. cbn [for_each drop_duplicates
        drop_duplicates_from]. cbv [mret M_ret]. now rewrite connection_eta. }
    split; [reflexivity|]. split; reflexivity. }
  unfold main. rewrite Hclean, Htx. cbn [close commit committed working]. now rewrite Hw1.
Qed.

Lemma sheet_without_complete_rows_witness :
  exists sid,
    main S26 [no_gym_row] db_two_items
    = (Ok (mk_summary sid 0 0 0 0),
       (update_order_totals sid
          (set_seasons (seasons_after S26 sid db_two_items) db_two_items)).2)
    /\ match select_season (SEASON S26) db_two_items with
       | Some i => sid = i
       | None => sid = fresh_id (map s_id (seasons db_two_items))
       end.
Proof. apply (sheet_without_complete_rows S26 [no_gym_row] db_two_items). reflexivity. Defined.

(** ** Ship Month cells of the S26 sheet *)

Section ShipMonthCells.

Lemma S26_find_ext (a b : value) :
  (forall n, veqb (VInt n) a = veqb (VInt n) b) ->
  int_dict_get S26_SHIP_MONTH_MAP a = int_dict_get S26_SHIP_MONTH_MAP b.
Proof.
  intros H. unfold int_dict_get. f_equal. apply find_ext_bool. intros kv. apply H.
Qed.

End ShipMonthCells.

(** X17.  How the S26 script reads a Ship Month cell.  The keys of its
    table are integers, so a cell that holds a text, even the text of a
    key such as [126], finds no entry and gets March 2026 and the token
    [MAR]; a cell that holds a float equal to an integer is read as that
    integer. *)
Theorem S26_ship_month_is_matched_as_a_number :
  (forall s, ship_period S26 (VStr s) = Ok ("2026-03-01", "MAR"))
  /\ (forall n, ship_period S26 (VFloat (float_of_int n)) = ship_period S26 (VInt n)).
Proof.
  split.
  - intros s. reflexivity.
  - intros n. unfold ship_period. do 2 f_equal. apply S26_find_ext.
    intros m. cbn [veqb]. symmetry. apply int_eqb_float.
Qed.

(** ** A Ship Month that is no text, in the F25 sheet *)

Section NumberForAMonth.

Lemma F25_ship_period_Ok x dt : ship_period F25 x = Ok dt -> exists s, x = VStr s.
Proof. destruct x as [n|y|s]; cbn; try discriminate. eauto. Qed.

Lemma transaction_raises_at_orders v df c sid c1 pids n c2 e c3 :
  get_season v c = (Ok sid, c1) ->
  process_products sid (brand_ids_of v (working c1)) df c1 = (Ok (pids, n), c2) ->
  create_orders v sid (brand_ids_of v (working c1)) (location_ids_of v (working c1)) df c2
  = (Raise e, c3) ->
  transaction v df c = (Raise e, c3).
Proof.
  intros Hs Hp Ho. unfold transaction. cbv [mbind M_bind query execute mret M_ret].
  rewrite Hs. cbn [committed working fst snd]. rewrite connection_eta.
  fold (brand_ids_of v (working c1)). fold (location_ids_of v (working c1)).
  rewrite Hp, Ho. reflexivity.
Qed.

End NumberForAMonth.

(** X18.  The F25 script takes the period token from the text of the
    Ship Month cell.  When a group whose brand and gym have an id has a
    Ship Month that is not a text (a number, as in the S26 sheet), the
    run raises an AttributeError at the orders stage and leaves the
    database as it found it, the season and the products it had made by
    then included. *)
Theorem F25_number_for_a_ship_month_fails_the_run (df df' : DataFrame) (d : db) (k : key) :
  Loader.clean df = Ok df' ->
  k ∈ groupby df' ->
  survives (brand_ids_of F25 d) (location_ids_of F25 d) k = true ->
  (forall s, k.2 <> VStr s) ->
  main F25 df d = (Raise AttributeError, d).
Proof.
  intros Hclean Hk Hsv Htext.
  destruct (get_season_spec F25 (connect d)) as (sid & c1 & Hs & _ & (Hb & Hl & _) & _).
  cbn [connect working] in Hb, Hl.
  pose proof (brand_ids_of_ext F25 d (working c1) Hb) as Hbids.
  pose proof (location_ids_of_ext F25 d (working c1) Hl) as Hlids.
  destruct (process_products_exact sid (brand_ids_of F25 (working c1)) df' c1
              (clean_cleaned _ _ Hclean)) as (pids & newP & c2 & Hp & _).
  destruct (create_orders F25 sid (brand_ids_of F25 (working c1))
              (location_ids_of F25 (working c1)) df' c2) as [[[om n]|e] c3] eqn:Ho.
  - exfalso.
    pose proof (wp_Ok _ _ _ _ _ _
                  (create_orders_exact F25 sid (brand_ids_of F25 (working c1))
                     (dict_of_rows (select_locations (working c1))) df' c2) Ho)
      as (newO & _ & _ & HnewO & _).
    fold (location_ids_of F25 (working c1)) in HnewO. rewrite Hbids, Hlids in HnewO.
    assert (Hin : k ∈ filter (fun k => survives (brand_ids_of F25 d)
                                         (location_ids_of F25 d) k = true) (groupby df'))
      by (apply list_elem_of_filter; now split).
    destruct (Forall2_elem_l _ _ _ _ HnewO Hin) as (o & _ & (_ & Hgroup & _) & _).
    destruct Hgroup as (b & g & code & date & token & count & _ & _ & _ & _ & Hship & _).
    cbn [fst snd] in Hship. destruct (F25_ship_period_Ok _ _ Hship) as [s Hs'].
    now apply (Htext s).
  - pose proof (wp_Raise _ _ _ _ _ _
                  (create_orders_exact F25 sid (brand_ids_of F25 (working c1))
                     (dict_of_rows (select_locations (working c1))) df' c2) Ho)
      as (_ & -> & _).
    pose proof (transaction_raises_at_orders _ _ _ _ _ _ _ _ _ _ Hs Hp Ho) as Htx.
    pose proof (keeps_transaction F25 df' (connect d)) as Hkeep. rewrite Htx in Hkeep.
    unfold main. rewrite Hclean, Htx. cbn [close rollback committed].
    cbn [snd connect committed] in Hkeep. now rewrite Hkeep.
Qed.

Lemma F25_number_for_a_ship_month_fails_the_run_witness :
  main F25 [number_month_row] empty_db
  = (Raise AttributeError, empty_db).
Proof.
  apply (F25_number_for_a_ship_month_fails_the_run
           [number_month_row]
           [number_month_row]
           empty_db (VStr "Prana", VStr "SLC", VInt 126)).
  - vm_compute. reflexivity.
  - apply list_elem_of_here.
  - vm_compute. reflexivity.
  - intros s. discriminate.
Defined.

(** ** An empty Wholesale cell *)

Section EmptyWholesale.

Lemma fadd_nan_r x : fadd x fnan = fnan.
Proof. destruct x; reflexivity. Qed.

Lemma sum_floats_nan xs : fnan ∈ xs -> sum_floats xs = fnan.
Proof.
  induction xs as [|x xs IH]; intros Hin; [inversion Hin|].
  apply elem_of_cons in Hin as [<-|Hin]; cbn [sum_floats foldr]; [reflexivity|].
  fold (sum_floats xs). rewrite (IH Hin). apply fadd_nan_r.
Qed.

End EmptyWholesale.

(** X19.  An empty Wholesale cell is not read as 0.  The cell is a nan,
    which is true for [or], so the unit cost of the row is nan, its
    line total is nan, and the sum of the line totals of any rows among
    which the row is, the total of its order, is nan. *)
Theorem empty_wholesale_cell_gives_nan (rows : list row) (r : row) (q : Z) :
  r ∈ rows -> Wholesale r = Some NaN -> int (Quantity r) = Ok q ->
  unit_cost_of r = Ok fnan
  /\ line_total_of r = Some fnan
  /\ sum_floats (omap line_total_of rows) = fnan.
Proof.
  intros Hr Hw Hq.
  assert (Hu : unit_cost_of r = Ok fnan) by (unfold unit_cost_of; now rewrite Hw).
  assert (Hlt : line_total_of r = Some fnan) by (unfold line_total_of; now rewrite Hq, Hu).
  split; [exact Hu|]. split; [exact Hlt|].
  apply sum_floats_nan. apply list_elem_of_omap. exists r. now split.
Qed.

Lemma empty_wholesale_cell_gives_nan_witness :
  unit_cost_of empty_cost_row = Ok fnan
  /\ line_total_of empty_cost_row = Some fnan
  /\ sum_floats (omap line_total_of [prana_row; empty_cost_row]) = fnan.
Proof.
  apply (empty_wholesale_cell_gives_nan [prana_row; empty_cost_row] empty_cost_row 5).
  - apply list_elem_of_further, list_elem_of_here.
  - reflexivity.
  - reflexivity.
Defined.
